(** * CarbonFlow AI engine: carbon predictor, satellite analyzer, endpoints

    A shallow embedding of [ai-engine/models/carbon_predictor.py],
    [ai-engine/models/satellite_analyzer.py], the endpoints of
    [ai-engine/main.py], the validation of [ai-engine/config.py] and the
    cloud function [deployment/ibm-cloud/handler.py].

    Numbers.  Python and numpy floats are modelled as exact rationals
    ([Q], compared with [==]); the rounding of float arithmetic is not
    modelled, and [round(x, 1)] is the exact rounding to tenths, ties to
    even.  The one result that is compared with a threshold it can
    reach exactly, the slope fitted by [np.polyfit], carries the rounding
    of the solver as a term of its own ([polyfit_rounding]), and the
    properties of the trend say how large it may be.  A division whose
    divisor can be zero at run time goes through [np_div], which leaves
    the model ([NonFinite]) exactly where numpy would produce [inf] or
    [nan]; what the code goes on to compute from such a value is not
    modelled.

    Datetimes.  A [datetime] is the reading of its clock, bounded by
    [datetime.max], and the offset of its time zone when it is aware;
    time zones whose offset varies with the date are not modelled.
    Mixing naive and aware values raises [TypeError], a step beyond
    [datetime.max] raises [OverflowError].

    Effects.  Exceptions, the log and the calls to the trained models are
    threaded through the monad [M]; the trained models, OpenCV, the clock,
    the files, the database and the remote services are variables of the
    sections that use them. *)

From Stdlib Require Import QArith Qminmax Qabs Qround ZArith List String Ascii.
From Stdlib Require Import Sorted Lia Lqa Bool.
From stdpp Require Import gmap strings list fin_maps pretty.
Import ListNotations.
Open Scope Q_scope.

(** ** Python's numeric built-ins on rationals *)

(** [min(a, b)]: the first argument unless the second is strictly smaller. *)
Definition py_min (a b : Q) : Q := if Qlt_le_dec b a then b else a.

(** [max(a, b)]: the first argument unless the second is strictly larger. *)
Definition py_max (a b : Q) : Q := if Qlt_le_dec a b then b else a.

(** [min(a, b, c)] scans from the left. *)
Definition py_min3 (a b c : Q) : Q := py_min (py_min a b) c.

(** [a > b] as a boolean. *)
Definition gtb (a b : Q) : bool := if Qlt_le_dec b a then true else false.

(** [a < b] as a boolean. *)
Definition ltb (a b : Q) : bool := if Qlt_le_dec a b then true else false.

(** [sum(xs)]: left to right, starting from 0. *)
Definition py_sum (xs : list Q) : Q := fold_left Qplus xs 0.

(** ** Outcomes, events and the monad *)

Inductive event : Type :=
| LogInfo (msg : string)
| LogWarning (msg : string)
| LogError (msg : string)
| Inference                       (* a trained model's [predict] ran *)
| BackgroundTask (task subject : string).

(** The log, most recent event first. *)
Definition trace : Type := list event.

Inductive outcome (A : Type) : Type :=
| Ret (a : A)            (* normal return *)
| Raise (msg : string)   (* a raised exception, [msg] is [str(e)] *)
| NonFinite.             (* numpy left the rationals: inf or nan *)
Arguments Ret {A} a.
Arguments Raise {A} msg.
Arguments NonFinite {A}.

Definition M (A : Type) : Type := trace -> outcome A * trace.

Definition ret {A} (a : A) : M A := fun t => (Ret a, t).
Definition raise {A} (msg : string) : M A := fun t => (Raise msg, t).
Definition non_finite {A} : M A := fun t => (NonFinite, t).
Definition emit (e : event) : M unit := fun t => (Ret tt, e :: t).

Definition bind {A B} (c : M A) (k : A -> M B) : M B :=
  fun t =>
    match c t with
    | (Ret a, t') => k a t'
    | (Raise msg, t') => (Raise msg, t')
    | (NonFinite, t') => (NonFinite, t')
    end.

(** [try: c  except Exception as e: h(str(e))] *)
Definition try_except {A} (c : M A) (h : string -> M A) : M A :=
  fun t =>
    match c t with
    | (Raise msg, t') => h msg t'
    | r => r
    end.

Notation "x <- c ;; k" := (bind c (fun x => k))
  (at level 100, c at next level, right associativity).
Notation "c ;;; k" := (bind c (fun _ => k))
  (at level 100, right associativity).

(** [for x in xs: acc = body(acc, x)] *)
Fixpoint for_each {A S} (body : S -> A -> M S) (xs : list A) (acc : S) : M S :=
  match xs with
  | [] => ret acc
  | x :: xs' => acc' <- body acc x ;; for_each body xs' acc'
  end.

(** numpy scalar division: a zero divisor yields inf or nan (a warning,
    not an exception). *)
Definition np_div (a b : Q) : M Q :=
  if Qeq_bool b 0 then non_finite else ret (a / b).

(** [d[k]]: [KeyError] when the key is absent. *)
Definition getitem {V} (d : gmap string V) (k : string) : M V :=
  match d !! k with
  | Some v => ret v
  | None => raise ("'" ++ k ++ "'")
  end.

(** ** Datetimes *)

Definition microseconds_per_day : Z := 86400000000.

(** A [datetime.datetime].  [wall] is the reading of its own clock, in
    microseconds since 0001-01-01T00:00:00 ([datetime.min]); [utcoffset]
    is [None] for a naive value and, for an aware one, the offset of its
    time zone from UTC in microseconds (a fixed offset, as
    [datetime.timezone] and the parsing of an ISO text give). *)
Record datetime : Type := {
  wall : Z;
  utcoffset : option Z
}.

(** A naive datetime, such as [datetime.now()]. *)
Definition naive (clock : Z) : datetime :=
  {| wall := clock; utcoffset := None |}.

(** [datetime.max], 9999-12-31T23:59:59.999999, on the scale of [wall]. *)
Definition datetime_max : Z := (3652059 * microseconds_per_day - 1)%Z.

(** [a - b], a [timedelta] in microseconds: two aware values are compared
    on the UTC clock; [TypeError] when only one of the two is aware. *)
Definition datetime_sub (a b : datetime) : string + Z :=
  match utcoffset a, utcoffset b with
  | None, None => inr (wall a - wall b)%Z
  | Some offset_a, Some offset_b =>
      inr ((wall a - offset_a) - (wall b - offset_b))%Z
  | _, _ => inl "can't subtract offset-naive and offset-aware datetimes"%string
  end.

(** [a <= b]: [TypeError] when only one of the two is aware. *)
Definition datetime_le (a b : datetime) : string + bool :=
  match utcoffset a, utcoffset b with
  | None, None => inr (wall a <=? wall b)%Z
  | Some offset_a, Some offset_b =>
      inr (wall a - offset_a <=? wall b - offset_b)%Z
  | _, _ => inl "can't compare offset-naive and offset-aware datetimes"%string
  end.

(** [d + timedelta(microseconds=delta)]: the time zone is kept;
    [OverflowError] when the clock would leave
    [datetime.min .. datetime.max]. *)
Definition datetime_add (d : datetime) (delta : Z) : string + datetime :=
  if ((0 <=? wall d + delta) && (wall d + delta <=? datetime_max))%Z then
    inr {| wall := (wall d + delta)%Z; utcoffset := utcoffset d |}
  else inl "date value out of range"%string.

(** A result that is a raised exception ([inl msg]) or a value. *)
Definition checked {A} (r : string + A) : M A :=
  match r with
  | inl msg => raise msg
  | inr a => ret a
  end.

(** [(a - b).days] of a [timedelta]: whole days, rounded down. *)
Definition timedelta_days (a b : Z) : Z := ((a - b) / microseconds_per_day)%Z.

(** The request body of the verification endpoint ([main.ProjectData]). *)
Record ProjectData : Type := {
  project_id : string;
  name : string;
  location : gmap string Q;
  project_type : string;
  area_hectares : Q;
  start_date : datetime;
  description : option string
}.

(** * carbon_predictor.py *)

Module CarbonPredictor.

(** What the code uses of a fitted scikit-learn regressor. *)
Record regressor : Type := {
  predict : list Q -> Q;                          (* [model.predict(X)[0]] *)
  estimators_ : option (list (list Q -> Q));      (* the trees, if exposed *)
  feature_importances_ : option (list Q)
}.

(** The attributes of a [CarbonPredictor] instance. *)
Record t : Type := {
  model : option regressor;
  scaler_transform : list Q -> list Q;            (* [scaler.transform(X)[0]] *)
  is_model_loaded : bool
}.

Definition feature_columns : list string :=
  [ "area_hectares"; "vegetation_coverage"; "temperature_avg";
    "precipitation_mm"; "soil_quality_index"; "elevation_m";
    "slope_degrees"; "biodiversity_index"; "human_activity_index";
    "project_age_months" ]%string.

(** The dictionary returned by [estimate_co2_capture]. *)
Record estimate : Type := {
  annual_co2_tonnes : Q;
  confidence_lower : Q;          (* ["confidence_interval"]["lower"] *)
  confidence_upper : Q;          (* ["confidence_interval"]["upper"] *)
  feasibility : Q;
  key_factors : list (string * Q);
  recommendation : string;
  analysis_timestamp : string
}.

(** One entry of the monthly breakdown. *)
Record month_record : Type := {
  month : Z;
  co2_capture_tonnes : Q;
  seasonal_factor : Q;
  cumulative_co2 : Q
}.

(** The dictionary returned by [predict_capture]. *)
Record prediction_report : Type := {
  report_project_id : string;
  predicted_co2_capture : Q;
  lower_bound : Q;
  upper_bound : Q;
  confidence_level : Q;
  monthly_breakdown : list month_record;
  factors_analysis : list (string * Q);
  report_recommendation : string;
  feasibility_score : Q;
  report_timestamp : string
}.

(** [self.model.<attr>]: an [AttributeError] on [None]. *)
Definition the_model (self : t) : M regressor :=
  match model self with
  | Some m => ret m
  | None => raise "'NoneType' object has no attribute 'predict'"
  end.

(** [self.model.predict(features)[0]] *)
Definition model_predict (self : t) (features : list Q) : M Q :=
  m <- the_model self ;;
  emit Inference ;;;
  ret (predict m features).

(** [np.average(values, weights=weights)] *)
Definition np_average (values weights : list Q) : M Q :=
  if negb (Nat.eqb (length values) (length weights)) then
    raise "Length of weights not compatible with specified axis."
  else if Qeq_bool (py_sum weights) 0 then
    raise "Weights sum to zero, can't be normalized"
  else
    ret (py_sum (map (fun vw => fst vw * snd vw) (combine values weights))
         / py_sum weights).

Definition weights : list Q := [0.25; 0.20; 0.20; 0.15; 0.20].

(** The values of the [feasibility_factors] dictionary, in insertion order. *)
Definition feasibility_factors (features : gmap string Q) (prediction : Q)
  : M (list Q) :=
  vegetation_coverage <- getitem features "vegetation_coverage" ;;
  soil_quality <- getitem features "soil_quality_index" ;;
  precipitation <- getitem features "precipitation_mm" ;;
  area <- getitem features "area_hectares" ;;
  area' <- getitem features "area_hectares" ;;
  reasonableness <- np_div prediction (area' * 5) ;;
  ret [ py_min (vegetation_coverage / 80.0) 1.0;
        soil_quality;
        py_min (precipitation / 1000.0) 1.0;
        py_min (area / 100.0) 1.0;
        py_min reasonableness 1.0 ].

Definition _calculate_feasibility (features : gmap string Q) (prediction : Q)
  : M Q :=
  factors <- feasibility_factors features prediction ;;
  feasibility <- np_average factors weights ;;
  ret (py_min feasibility 1.0).

Definition _generate_recommendation (prediction feasibility : Q) : string :=
  if gtb feasibility 0.8 && gtb prediction 100 then
    "Excellent project with high CO2 capture potential. Highly recommended for investment."
  else if gtb feasibility 0.6 && gtb prediction 50 then
    "Good project with moderate CO2 capture potential. Recommended for investment with monitoring."
  else if gtb feasibility 0.4 && gtb prediction 20 then
    "Average project with limited CO2 capture potential. Consider additional improvements."
  else
    "Poor project feasibility. Not recommended for carbon credit investment.".

(** [sorted(items, key=importance, reverse=True)]: stable, largest first. *)
Fixpoint insert_desc (x : string * Q) (l : list (string * Q))
  : list (string * Q) :=
  match l with
  | [] => [x]
  | y :: l' =>
      if Qlt_le_dec (snd y) (snd x) then x :: y :: l' else y :: insert_desc x l'
  end.

Definition sorted_desc (l : list (string * Q)) : list (string * Q) :=
  fold_left (fun acc x => insert_desc x acc) l [].

Definition _get_feature_importance (self : t) : list (string * Q) :=
  match model self with
  | Some m =>
      match feature_importances_ m with
      | Some importances => sorted_desc (combine feature_columns importances)
      | None => []
      end
  | None => []
  end.

Definition seasonal_factors : list Q :=
  [0.6; 0.7; 0.9; 1.2; 1.4; 1.3; 1.2; 1.1; 1.0; 0.8; 0.6; 0.5].

(** The body of the loop of [_calculate_monthly_breakdown]. *)
Definition month_step (annual_co2 : Q) (monthly_data : list month_record)
  (month : nat) : list month_record :=
  let seasonal_factor := nth (month mod 12) seasonal_factors 0 in
  let monthly_co2 := (annual_co2 / 12) * seasonal_factor in
  monthly_data ++
  [ {| month := Z.of_nat month + 1;
       co2_capture_tonnes := monthly_co2;
       seasonal_factor := seasonal_factor;
       cumulative_co2 :=
         py_sum (map co2_capture_tonnes monthly_data) + monthly_co2 |} ].

Definition _calculate_monthly_breakdown (annual_co2 : Q) (timeframe_days : Z)
  (include_weather : bool) : list month_record :=
  let months := Z.min (timeframe_days / 30) 12 in
  fold_left (month_step annual_co2) (seq 0 (Z.to_nat months)) [].

Definition _analyze_contributing_factors (project_data : ProjectData)
  : list (string * Q) :=
  [ ("project_type_impact", 0.85);
    ("location_suitability", 0.78);
    ("size_efficiency", py_min (area_hectares project_data / 1000) 1.0);
    ("environmental_conditions", 0.82);
    ("management_quality", 0.75);
    ("technology_adoption", 0.90) ]%string.

Section Inference.

(** [np.std]: the population standard deviation, a non-negative number
    that is not rational in general. *)
Variable np_std : list Q -> Q.

(** [_get_environmental_data]: the environmental provider (random
    placeholder values in the source). *)
Variable _get_environmental_data : gmap string Q -> gmap string Q.

(** [datetime.now()] and [datetime.isoformat]. *)
Variable now : Z.
Variable isoformat : Z -> string.

(** The [features] dictionary that [_extract_project_features] builds
    for a project whose start date is naive. *)
Definition project_features (project_data : ProjectData) : gmap string Q :=
  let environmental_data := _get_environmental_data (location project_data) in
  let project_age :=
    inject_Z (timedelta_days now (wall (start_date project_data))) / 30.44 in
  list_to_map
    [ ("area_hectares", area_hectares project_data);
      ("vegetation_coverage", 75.0);
      ("temperature_avg", default 20.0 (environmental_data !! "temperature"));
      ("precipitation_mm", default 800.0 (environmental_data !! "precipitation"));
      ("soil_quality_index", default 0.7 (environmental_data !! "soil_quality"));
      ("elevation_m", default 500.0 (environmental_data !! "elevation"));
      ("slope_degrees", default 10.0 (environmental_data !! "slope"));
      ("biodiversity_index", default 0.6 (environmental_data !! "biodiversity"));
      ("human_activity_index", default 0.3 (environmental_data !! "human_activity"));
      ("project_age_months", project_age) ]%string.

(** [datetime.now()] is naive, so the subtraction raises [TypeError] for
    a project whose start date is timezone-aware; nothing is extracted
    then. *)
Definition _extract_project_features (project_data : ProjectData)
  : M (gmap string Q) :=
  let environmental_data := _get_environmental_data (location project_data) in
  elapsed <- checked (datetime_sub (naive now) (start_date project_data)) ;;
  let project_age := inject_Z (elapsed / microseconds_per_day) / 30.44 in
  ret (list_to_map
         [ ("area_hectares", area_hectares project_data);
           ("vegetation_coverage", 75.0);
           ("temperature_avg", default 20.0 (environmental_data !! "temperature"));
           ("precipitation_mm", default 800.0 (environmental_data !! "precipitation"));
           ("soil_quality_index", default 0.7 (environmental_data !! "soil_quality"));
           ("elevation_m", default 500.0 (environmental_data !! "elevation"));
           ("slope_degrees", default 10.0 (environmental_data !! "slope"));
           ("biodiversity_index", default 0.6 (environmental_data !! "biodiversity"));
           ("human_activity_index", default 0.3 (environmental_data !! "human_activity"));
           ("project_age_months", project_age) ]%string).

Definition _estimate_prediction_uncertainty (self : t) (features : list Q)
  : M Q :=
  match model self with
  | Some {| estimators_ := Some trees |} =>
      tree_predictions <-
        for_each (fun acc estimator =>
                    emit Inference ;;; ret (acc ++ [estimator features]))
                 trees [] ;;
      ret (np_std tree_predictions)
  | _ =>
      p <- model_predict self features ;;
      ret (0.1 * Qabs p)
  end.

Definition estimate_co2_capture (self : t) (project_data : ProjectData)
  : M estimate :=
  if negb (is_model_loaded self) then
    raise "Carbon predictor model not loaded"
  else
    try_except
      (features <- _extract_project_features project_data ;;
       feature_array <-
         for_each (fun acc col => v <- getitem features col ;; ret (acc ++ [v]))
                  feature_columns [] ;;
       let feature_array_scaled := scaler_transform self feature_array in
       prediction <- model_predict self feature_array_scaled ;;
       prediction_std <-
         _estimate_prediction_uncertainty self feature_array_scaled ;;
       feasibility_score <- _calculate_feasibility features prediction ;;
       ret {| annual_co2_tonnes := py_max prediction 0.0;
              confidence_lower := py_max (prediction - 1.96 * prediction_std) 0.0;
              confidence_upper := prediction + 1.96 * prediction_std;
              feasibility := feasibility_score;
              key_factors := _get_feature_importance self;
              recommendation :=
                _generate_recommendation prediction feasibility_score;
              analysis_timestamp := isoformat now |})
      (fun e =>
         emit (LogError ("CO2 estimation failed: " ++ e)) ;;;
         raise e).

Definition predict_capture (self : t) (project_data : ProjectData)
  (timeframe_days : Z) (include_weather_data : bool) : M prediction_report :=
  try_except
    (base_result <- estimate_co2_capture self project_data ;;
     let monthly_breakdown :=
       _calculate_monthly_breakdown (annual_co2_tonnes base_result)
                                    timeframe_days include_weather_data in
     let factors_analysis := _analyze_contributing_factors project_data in
     ret {| report_project_id := project_id project_data;
            predicted_co2_capture := annual_co2_tonnes base_result;
            lower_bound := confidence_lower base_result;
            upper_bound := confidence_upper base_result;
            confidence_level := 0.95;
            monthly_breakdown := monthly_breakdown;
            factors_analysis := factors_analysis;
            report_recommendation := recommendation base_result;
            feasibility_score := feasibility base_result;
            report_timestamp := isoformat now |})
    (fun e =>
       emit (LogError ("Detailed prediction failed: " ++ e)) ;;;
       raise e).

(** *** Closed forms used to state the properties of an estimate *)

(** The row handed to the scaler: the features in column order. *)
Definition feature_vector (project_data : ProjectData) : list Q :=
  let e := _get_environmental_data (location project_data) in
  [ area_hectares project_data; 75.0;
    default 20.0 (e !! "temperature"%string);
    default 800.0 (e !! "precipitation"%string);
    default 0.7 (e !! "soil_quality"%string);
    default 500.0 (e !! "elevation"%string);
    default 10.0 (e !! "slope"%string);
    default 0.6 (e !! "biodiversity"%string);
    default 0.3 (e !! "human_activity"%string);
    inject_Z (timedelta_days now (wall (start_date project_data))) / 30.44 ].

(** The uncertainty sigma of a regressor at a scaled row. *)
Definition uncertainty (m : regressor) (x : list Q) : Q :=
  match estimators_ m with
  | Some trees => np_std (map (fun tree => tree x) trees)
  | None => 0.1 * Qabs (predict m x)
  end.

End Inference.

(** ** Closed forms used to state the properties of the breakdown *)

(** The seasonal factor of month [k] (counted from 0). *)
Definition factor (k : nat) : Q := nth (k mod 12) seasonal_factors 0.

(** The tonnes assigned to month [k]. *)
Definition tonnes (annual_co2 : Q) (k : nat) : Q := (annual_co2 / 12) * factor k.

(** The record the loop appends for month [k]. *)
Definition row (annual_co2 : Q) (k : nat) : month_record :=
  {| month := Z.of_nat k + 1;
     co2_capture_tonnes := tonnes annual_co2 k;
     seasonal_factor := factor k;
     cumulative_co2 :=
       py_sum (map (tonnes annual_co2) (seq 0 k)) + tonnes annual_co2 k |}.

(** The weighted average of the five sub-factors, written out. *)
Definition weighted_factors (vegetation soil precipitation area prediction : Q)
  : Q :=
  0.25 * py_min (vegetation / 80.0) 1.0
  + 0.20 * soil
  + 0.20 * py_min (precipitation / 1000.0) 1.0
  + 0.15 * py_min (area / 100.0) 1.0
  + 0.20 * py_min (prediction / (area * 5)) 1.0.

(** The model calls of one uncertainty estimate: one per tree, or the
    single fallback prediction. *)
Definition uncertainty_events (m : regressor) : trace :=
  match estimators_ m with
  | Some trees => repeat Inference (length trees)
  | None => [Inference]
  end.

End CarbonPredictor.

(** * satellite_analyzer.py *)

Module SatelliteAnalyzer.

(** One pixel of a three-channel array: channels 0, 1 and 2. *)
Record pixel : Type := { red : Q; green : Q; blue : Q }.

(** An image tensor ([np.ndarray]). *)
Inductive image : Type :=
| Image3 (pixels : list pixel)                  (* shape (h, w, 3), row by row *)
| ImageOther (shape : list nat) (data : list Q). (* any other shape *)

(** What the code uses of the Keras classifier: [model.predict(batch)],
    one score vector per image of the batch. *)
Record classifier : Type := {
  predict : list image -> list (list Q)
}.

(** The attributes of a [SatelliteAnalyzer] instance. *)
Record t : Type := {
  model_path : string;
  model : option classifier;
  is_model_loaded : bool
}.

Definition vegetation_classes : list string :=
  [ "no_vegetation"; "sparse_vegetation"; "moderate_vegetation";
    "dense_vegetation"; "forest"; "deforestation"; "reforestation" ]%string.

Record change_report : Type := {
  change_detected : bool;
  change_type : string;
  change_confidence : Q;
  change_area_percent : Q
}.

(** The dictionary returned by [analyze_single_image]; [date] is the key
    that [temporal_analysis] adds afterwards (the datetime whose ISO text
    the source stores and parses back). *)
Record analysis : Type := {
  vegetation_detected : bool;
  predicted_class : string;
  confidence : Q;
  vegetation_coverage_percent : Q;
  class_probabilities : list (string * Q);
  change_detection : change_report;
  analysis_timestamp : string;
  model_version : string;
  date : option datetime
}.

(** An element of the list returned by [batch_analyze]. *)
Inductive batch_entry : Type :=
| Analysed (result : analysis)
| Failed (error : string) (vegetation_detected : bool) (confidence : Q).

(** The dictionary returned by [analyze_project_area]. *)
Record area_report : Type := {
  area_vegetation_detected : bool;
  area_confidence : Q;
  area_vegetation_coverage_percent : Q;
  co2_sequestration_potential_tonnes_year : Q;
  images_analyzed : nat;
  detailed_analysis : list analysis;
  image_urls : list string;
  area_analysis_timestamp : string
}.

(** The two shapes of the dictionary returned by
    [_calculate_vegetation_trend]. *)
Inductive trend_report : Type :=
| TrendShort (trend : string) (change_rate : Q)
| TrendFull (trend : string)
            (change_rate initial_coverage final_coverage total_change : Q).

(** [np.argmax]: the first position of the largest score. *)
Fixpoint argmax_from (best_i : nat) (best : Q) (i : nat) (xs : list Q) : nat :=
  match xs with
  | [] => best_i
  | x :: xs' =>
      if Qlt_le_dec best x then argmax_from i x (S i) xs'
      else argmax_from best_i best (S i) xs'
  end.

Definition np_argmax (xs : list Q) : M nat :=
  match xs with
  | [] => raise "attempt to get argmax of an empty sequence"
  | x :: xs' => ret (argmax_from 0 x 1 xs')
  end.

(** [xs[i]] on a list: [IndexError] out of range. *)
Definition list_item {A} (xs : list A) (i : nat) : M A :=
  match xs !! i with
  | Some x => ret x
  | None => raise "list index out of range"
  end.

(** [a[i]] on an array: [IndexError] out of bounds. *)
Definition array_item {A} (xs : list A) (i : nat) : M A :=
  match xs !! i with
  | Some x => ret x
  | None =>
      raise ("index " ++ pretty i ++ " is out of bounds for axis 0 with size "
             ++ pretty (length xs))
  end.

(** [np.mean] *)
Definition np_mean (xs : list Q) : M Q :=
  np_div (py_sum xs) (inject_Z (Z.of_nat (length xs))).

(** [ndvi > 0.2] for one pixel; a zero divisor gives an infinity of the
    sign of the numerator, or nan, which compares false. *)
Definition ndvi_above (p : pixel) : bool :=
  let numerator := green p - red p in
  let divisor := green p + red p + 1e-8 in
  if Qeq_bool divisor 0 then gtb numerator 0
  else gtb (numerator / divisor) 0.2.

Definition conversion_factors : gmap string Q :=
  list_to_map
    [ ("forest", 10.0);
      ("dense_vegetation", 6.0);
      ("moderate_vegetation", 3.0);
      ("sparse_vegetation", 1.0);
      ("no_vegetation", 0.0);
      ("reforestation", 8.0);
      ("deforestation", -5.0) ]%string.

(** The body of the inner loop of [_calculate_co2_potential]; the state is
    [(total_co2_potential, total_confidence)]. *)
Definition accumulate (acc : Q * Q) (item : string * Q) : Q * Q :=
  match conversion_factors !! fst item with
  | Some co2_factor =>
      (fst acc + co2_factor * snd item, snd acc + snd item)
  | None => acc
  end.

Definition _calculate_co2_potential (area_hectares vegetation_coverage : Q)
  (analysis_results : list analysis) : Q :=
  let totals :=
    fold_left (fun acc result => fold_left accumulate (class_probabilities result) acc)
              analysis_results (0.0, 0.0) in
  let total_co2_potential := fst totals in
  let total_confidence := snd totals in
  let weighted_co2_factor :=
    if gtb total_confidence 0 then total_co2_potential / total_confidence
    else 0.0 in
  let vegetation_factor := vegetation_coverage / 100.0 in
  let annual_co2_potential :=
    area_hectares * weighted_co2_factor * vegetation_factor in
  py_max annual_co2_potential 0.0.

(** *** Closed forms used to state the properties of the potential *)

(** All (class, probability) pairs of all analysed images. *)
Definition all_probabilities (analysis_results : list analysis)
  : list (string * Q) :=
  concat (map class_probabilities analysis_results).

(** [conversion_factor[class] * P(class)] for a class of the table. *)
Definition contribution (item : string * Q) : Q :=
  match conversion_factors !! fst item with
  | Some co2_factor => co2_factor * snd item
  | None => 0
  end.

(** [P(class)] for a class of the table. *)
Definition mass (item : string * Q) : Q :=
  match conversion_factors !! fst item with
  | Some _ => snd item
  | None => 0
  end.

(** The sum over images and classes of factor times probability. *)
Definition weighted_sum (analysis_results : list analysis) : Q :=
  py_sum (map contribution (all_probabilities analysis_results)).

(** The total accumulated probability mass. *)
Definition probability_mass (analysis_results : list analysis) : Q :=
  py_sum (map mass (all_probabilities analysis_results)).

(** The share of the pixels whose index exceeds 0.2. *)
Definition vegetation_fraction (pixels : list pixel) : Q :=
  inject_Z (Z.of_nat (length (List.filter ndvi_above pixels)))
  / inject_Z (Z.of_nat (length pixels)).

(** The least-squares slope of the points [(x, y)]. *)
Definition least_squares_slope (xs ys : list Q) : Q :=
  let n := inject_Z (Z.of_nat (length xs)) in
  (n * py_sum (map (fun xy => fst xy * snd xy) (combine xs ys))
   - py_sum xs * py_sum ys)
  / (n * py_sum (map (fun x => x * x) xs) - py_sum xs * py_sum xs).

(** The classification of a slope in [_calculate_vegetation_trend]. *)
Definition trend_type (trend_slope : Q) : string :=
  if gtb trend_slope 1.0 then "increasing"
  else if ltb trend_slope (-1.0) then "decreasing"
  else "stable".

Section Trend.

(** The rounding of the fit: what the double-precision solver of numpy
    adds to the exact slope of the given points. *)
Variable polyfit_rounding : list Q -> list Q -> Q.

(** [np.polyfit(x, y, 1)]: the least-squares line, (slope, intercept),
    the slope with the rounding of the solver.  When all abscissas
    coincide the fit is rank deficient: at 0 the column scaling divides
    0 by 0 and the solver raises [LinAlgError]; elsewhere numpy warns and
    returns the solution of least norm. *)
Definition np_polyfit1 (xs ys : list Q) : M (Q * Q) :=
  if negb (Nat.eqb (length xs) (length ys)) then
    raise "expected x and y to have same length"
  else if Nat.eqb (length xs) 0 then
    raise "expected non-empty vector for x"
  else
    let n := inject_Z (Z.of_nat (length xs)) in
    let sx := py_sum xs in
    let sy := py_sum ys in
    let sxx := py_sum (map (fun x => x * x) xs) in
    let sxy := py_sum (map (fun xy => fst xy * snd xy) (combine xs ys)) in
    if Qeq_bool (n * sxx - sx * sx) 0 then
      if Qeq_bool sxx 0 then
        raise "SVD did not converge in Linear Least Squares"
      else
        let slope := (sy / n) / (2 * (sx / n)) + polyfit_rounding xs ys in
        ret (slope, sy / n / 2)
    else
      let slope :=
        (n * sxy - sx * sy) / (n * sxx - sx * sx) + polyfit_rounding xs ys in
      ret (slope, (sy - slope * sx) / n).

Definition _calculate_vegetation_trend (temporal_results : list analysis)
  : M trend_report :=
  if (length temporal_results <? 2)%nat then
    ret (TrendShort "insufficient_data" 0.0)
  else
    let coverages := map vegetation_coverage_percent temporal_results in
    dates <-
      for_each (fun acc r =>
                  match date r with
                  | Some d => ret (acc ++ [d])
                  | None => raise "'date'"
                  end)
               temporal_results [] ;;
    x_values <-
      for_each (fun acc d =>
                  first_date <- list_item dates 0 ;;
                  elapsed <- checked (datetime_sub d first_date) ;;
                  ret (acc ++ [(elapsed / microseconds_per_day)%Z]))
               dates [] ;;
    coefficients <- np_polyfit1 (map inject_Z x_values) coverages ;;
    let trend_slope := fst coefficients in
    ret (TrendFull (trend_type trend_slope) trend_slope
                   (nth 0 coverages 0)
                   (List.last coverages 0)
                   (List.last coverages 0 - nth 0 coverages 0)).

End Trend.

(** *** Closed forms used to state the properties of the trend *)

(** Whether a datetime is timezone-aware. *)
Definition aware (d : datetime) : bool :=
  match utcoffset d with
  | Some _ => true
  | None => false
  end.

(** The moment of a datetime on the clock that comparisons and
    differences use: UTC for an aware value, its own clock for a naive
    one. *)
Definition instant (d : datetime) : Z := (wall d - default 0 (utcoffset d))%Z.

(** The days elapsed since the first of the dates. *)
Definition elapsed_days (dates : list datetime) : list Q :=
  map (fun d => inject_Z (timedelta_days (instant d)
                                         (instant (nth 0 dates (naive 0)))))
      dates.

(** The slope that [np.polyfit] returns for points whose abscissas do
    not all coincide. *)
Definition fitted_slope (rounding : list Q -> list Q -> Q) (xs ys : list Q)
  : Q :=
  least_squares_slope xs ys + rounding xs ys.

Section Analysis.

(** OpenCV: [cv2.resize(image, (224, 224))] and
    [cv2.cvtColor(image, cv2.COLOR_BGR2RGB)]; [inl msg] is a raised
    [cv2.error]. *)
Variable cv2_resize : image -> string + image.
Variable cv2_cvtColor : list nat -> list Q -> string + list pixel.

(** The image provider ([_fetch_satellite_images], random mock images in
    the source). *)
Variable _fetch_satellite_images : gmap string Q -> Q -> list image.

(** [datetime.now()] and [datetime.isoformat]. *)
Variable now : Z.
Variable isoformat : Z -> string.

Definition lift {A} (r : string + A) : M A :=
  match r with
  | inl msg => raise msg
  | inr a => ret a
  end.

(** [image.astype(np.float32) / 255.0] *)
Definition scale_pixels (img : image) : image :=
  match img with
  | Image3 pixels =>
      Image3 (map (fun p => {| red := red p / 255.0;
                               green := green p / 255.0;
                               blue := blue p / 255.0 |}) pixels)
  | ImageOther shape data => ImageOther shape (map (fun v => v / 255.0) data)
  end.

(** The result is the batch of one image ([np.expand_dims(image, 0)]). *)
Definition preprocess_image (image_data : image) : M (list image) :=
  try_except
    (resized <- lift (cv2_resize image_data) ;;
     ret [scale_pixels resized])
    (fun e =>
       emit (LogError ("Image preprocessing failed: " ++ e)) ;;;
       raise e).

(** The three-channel view of an image: the image itself when its
    shape is (h, w, 3), else its colour conversion. *)
Definition to_rgb (image_data : image) : string + list pixel :=
  match image_data with
  | Image3 pixels => inr pixels
  | ImageOther shape data => cv2_cvtColor shape data
  end.

Definition _calculate_vegetation_coverage (image_data : image) : M Q :=
  try_except
    (rgb_image <- lift (to_rgb image_data) ;;
     let vegetation_pixels := length (List.filter ndvi_above rgb_image) in
     let total_pixels := length rgb_image in
     fraction <- np_div (inject_Z (Z.of_nat vegetation_pixels))
                        (inject_Z (Z.of_nat total_pixels)) ;;
     let coverage_percent := fraction * 100 in
     ret (py_min coverage_percent 100.0))
    (fun e =>
       emit (LogError ("Vegetation coverage calculation failed: " ++ e)) ;;;
       ret 0.0).

Definition _detect_changes (current_image : image) : M change_report :=
  ret {| change_detected := false;
         change_type := "no_change";
         change_confidence := 0.0;
         change_area_percent := 0.0 |}.

Definition model_predict (self : t) (batch : list image) : M (list (list Q)) :=
  match model self with
  | Some m => emit Inference ;;; ret (predict m batch)
  | None => raise "'NoneType' object has no attribute 'predict'"
  end.

Definition analyze_single_image (self : t) (image_data : image) : M analysis :=
  if negb (is_model_loaded self) then
    raise "CNN model not loaded"
  else
    try_except
      (processed_image <- preprocess_image image_data ;;
       prediction <- model_predict self processed_image ;;
       confidence_scores <- array_item prediction 0 ;;
       predicted_class_idx <- np_argmax confidence_scores ;;
       predicted_class <- list_item vegetation_classes predicted_class_idx ;;
       max_confidence <- array_item confidence_scores predicted_class_idx ;;
       vegetation_coverage <- _calculate_vegetation_coverage image_data ;;
       change_detection <- _detect_changes image_data ;;
       ret {| vegetation_detected := gtb max_confidence 0.7;
              predicted_class := predicted_class;
              confidence := max_confidence;
              vegetation_coverage_percent := vegetation_coverage;
              class_probabilities := combine vegetation_classes confidence_scores;
              change_detection := change_detection;
              analysis_timestamp := isoformat now;
              model_version := "v1.0";
              date := None |})
      (fun e =>
         emit (LogError ("Satellite analysis failed: " ++ e)) ;;;
         raise e).

Definition analyze_project_area (self : t) (location : gmap string Q)
  (area_hectares : Q) : M area_report :=
  try_except
    (emit (LogInfo "Fetching satellite images") ;;;
     let images := _fetch_satellite_images location area_hectares in
     match images with
     | [] => raise "No satellite images available for the specified area"
     | _ =>
         analysis_results <-
           for_each (fun acc image_data =>
                       result <- analyze_single_image self image_data ;;
                       ret (acc ++ [result]))
                    images [] ;;
         avg_confidence <- np_mean (map confidence analysis_results) ;;
         avg_vegetation_coverage <-
           np_mean (map vegetation_coverage_percent analysis_results) ;;
         let vegetation_detected :=
           gtb avg_confidence 0.8 && gtb avg_vegetation_coverage 60 in
         let co2_potential :=
           _calculate_co2_potential area_hectares avg_vegetation_coverage
                                    analysis_results in
         ret {| area_vegetation_detected := vegetation_detected;
                area_confidence := avg_confidence;
                area_vegetation_coverage_percent := avg_vegetation_coverage;
                co2_sequestration_potential_tonnes_year := co2_potential;
                images_analyzed := length images;
                detailed_analysis := analysis_results;
                image_urls :=
                  map (fun i : nat => ("satellite_image_" ++ pretty i ++ ".jpg")%string)
                      (seq 0 (length images));
                area_analysis_timestamp := isoformat now |}
     end)
    (fun e =>
       emit (LogError ("Project area analysis failed: " ++ e)) ;;;
       raise e).

(** The body of the loop of [batch_analyze]. *)
Definition batch_step (self : t) (results : list batch_entry)
  (image_data : image) : M (list batch_entry) :=
  try_except
    (result <- analyze_single_image self image_data ;;
     ret (results ++ [Analysed result]))
    (fun e =>
       emit (LogError ("Failed to analyze image in batch: " ++ e)) ;;;
       ret (results ++ [Failed e false 0.0])).

Definition batch_analyze (self : t) (images : list image)
  : M (list batch_entry) :=
  if negb (is_model_loaded self) then
    raise "CNN model not loaded"
  else
    for_each (batch_step self) images [].

(** *** The relation used to state the properties of a batch *)

(** [entry] is what [batch_analyze] records for [image_data]: the
    classification when [analyze_single_image] returns one, else the
    error-tagged entry with the message of the exception. *)
Definition entry_of (self : t) (image_data : image) (entry : batch_entry)
  : Prop :=
  (exists result t1 t2,
      analyze_single_image self image_data t1 = (Ret result, t2)
      /\ entry = Analysed result)
  \/
  (exists msg t1 t2,
      analyze_single_image self image_data t1 = (Raise msg, t2)
      /\ entry = Failed msg false 0.0).

End Analysis.

End SatelliteAnalyzer.

(** * main.py: the verification endpoint *)

Module Main.

(** The response model [VerificationResult]. *)
Record VerificationResult : Type := {
  result_project_id : string;
  verification_status : bool;
  confidence_score : Q;
  co2_capture_estimate : Q;
  fraud_risk_score : Q;
  satellite_analysis : SatelliteAnalyzer.area_report;
  fraud_assessment : gmap string Q;
  carbon_estimation : CarbonPredictor.estimate;
  satellite_images : list string;
  timestamp : Z
}.

(** [await asyncio.gather(a, b, c)]: the three coroutines never suspend,
    so they run to completion one after the other; the first failure in
    that order is the one that propagates. *)
Definition gather3 {A B C} (a : M A) (b : M B) (c : M C) : M (A * B * C) :=
  fun t =>
    let (ra, t1) := a t in
    let (rb, t2) := b t1 in
    let (rc, t3) := c t2 in
    match ra, rb, rc with
    | Ret x, Ret y, Ret z => (Ret (x, y, z), t3)
    | Raise msg, _, _ => (Raise msg, t3)
    | NonFinite, _, _ => (NonFinite, t3)
    | _, Raise msg, _ => (Raise msg, t3)
    | _, NonFinite, _ => (NonFinite, t3)
    | _, _, Raise msg => (Raise msg, t3)
    | _, _, NonFinite => (NonFinite, t3)
    end.

Section Endpoint.

(** The module-level instances. *)
Variable satellite_analyzer : SatelliteAnalyzer.t.
Variable carbon_predictor : CarbonPredictor.t.

(** [fraud_detector.assess_project_legitimacy]: the external legitimacy
    scorer, whose result carries the key [legitimacy_score]. *)
Variable assess_project_legitimacy : ProjectData -> M (gmap string Q).

(** The collaborators of the two analyzers. *)
Variable cv2_resize : SatelliteAnalyzer.image -> string + SatelliteAnalyzer.image.
Variable cv2_cvtColor : list nat -> list Q -> string + list SatelliteAnalyzer.pixel.
Variable _fetch_satellite_images : gmap string Q -> Q -> list SatelliteAnalyzer.image.
Variable np_std : list Q -> Q.
Variable _get_environmental_data : gmap string Q -> gmap string Q.
Variable now : Z.
Variable isoformat : Z -> string.

(** The construction of the [VerificationResult] from the three results. *)
Definition combine_results (project_data : ProjectData)
  (satellite_result : SatelliteAnalyzer.area_report)
  (fraud_result : gmap string Q)
  (carbon_result : CarbonPredictor.estimate) : M VerificationResult :=
  legitimacy_status <- getitem fraud_result "legitimacy_score" ;;
  legitimacy_confidence <- getitem fraud_result "legitimacy_score" ;;
  legitimacy_risk <- getitem fraud_result "legitimacy_score" ;;
  ret {| result_project_id := project_id project_data;
         verification_status :=
           SatelliteAnalyzer.area_vegetation_detected satellite_result
           && gtb legitimacy_status 0.8
           && gtb (CarbonPredictor.feasibility carbon_result) 0.7;
         confidence_score :=
           py_min3 (SatelliteAnalyzer.area_confidence satellite_result)
                   legitimacy_confidence
                   (CarbonPredictor.feasibility carbon_result);
         co2_capture_estimate :=
           CarbonPredictor.annual_co2_tonnes carbon_result;
         fraud_risk_score := 1.0 - legitimacy_risk;
         satellite_analysis := satellite_result;
         fraud_assessment := fraud_result;
         carbon_estimation := carbon_result;
         satellite_images := SatelliteAnalyzer.image_urls satellite_result;
         timestamp := now |}.

Definition verify_carbon_project (project_data : ProjectData)
  : M VerificationResult :=
  try_except
    (emit (LogInfo ("Starting verification for project "
                    ++ project_id project_data)) ;;;
     results <-
       gather3
         (SatelliteAnalyzer.analyze_project_area
            cv2_resize cv2_cvtColor _fetch_satellite_images now isoformat
            satellite_analyzer (location project_data)
            (area_hectares project_data))
         (assess_project_legitimacy project_data)
         (CarbonPredictor.estimate_co2_capture
            np_std _get_environmental_data now isoformat
            carbon_predictor project_data) ;;
     let '(satellite_result, fraud_result, carbon_result) := results in
     verification_result <-
       combine_results project_data satellite_result fraud_result carbon_result ;;
     emit (BackgroundTask "save_verification_result"
                          (project_id project_data)) ;;;
     emit (LogInfo ("Verification completed for project "
                    ++ project_id project_data)) ;;;
     ret verification_result)
    (fun e =>
       emit (LogError ("Verification failed for project "
                       ++ project_id project_data ++ ": " ++ e)) ;;;
       raise ("Verification failed: " ++ e)).

End Endpoint.

End Main.

(** * Concrete inputs *)

Module Examples.

Definition clock : Z := 365 * microseconds_per_day.
Definition iso_text (z : Z) : string := pretty z.
Definition iso_date (d : datetime) : string :=
  match utcoffset d with
  | None => pretty (wall d)
  | Some offset => pretty (wall d) ++ "+" ++ pretty offset
  end.

(** ** A project and predictors *)

Definition project : ProjectData :=
  {| project_id := "P-1";
     name := "Reforestation";
     location := list_to_map [("lat", 45.0); ("lng", 25.0)]%string;
     project_type := "reforestation";
     area_hectares := 100;
     start_date := naive 0;
     description := None |}.

(** The same project with a start date in UTC. *)
Definition aware_project : ProjectData :=
  {| project_id := "P-1";
     name := "Reforestation";
     location := list_to_map [("lat", 45.0); ("lng", 25.0)]%string;
     project_type := "reforestation";
     area_hectares := 100;
     start_date := {| wall := 0; utcoffset := Some 0%Z |};
     description := None |}.

(** The feature dictionary of a one-hectare project at the defaults. *)
Definition one_hectare_features : gmap string Q :=
  list_to_map
    [ ("area_hectares", 1);
      ("vegetation_coverage", 75.0);
      ("temperature_avg", 20.0);
      ("precipitation_mm", 800.0);
      ("soil_quality_index", 0.7);
      ("elevation_m", 500.0);
      ("slope_degrees", 10.0);
      ("biodiversity_index", 0.6);
      ("human_activity_index", 0.3);
      ("project_age_months", 12) ]%string.

(** A provider without data: every feature takes its default. *)
Definition no_environment (location : gmap string Q) : gmap string Q := ∅.

(** The deviation of trees that agree. *)
Definition no_spread (predictions : list Q) : Q := 0.

(** A fitted regressor that answers [p] and exposes no trees. *)
Definition constant_regressor (p : Q) : CarbonPredictor.regressor :=
  {| CarbonPredictor.predict := fun _ => p;
     CarbonPredictor.estimators_ := None;
     CarbonPredictor.feature_importances_ := None |}.

Definition predictor (p : Q) : CarbonPredictor.t :=
  {| CarbonPredictor.model := Some (constant_regressor p);
     CarbonPredictor.scaler_transform := fun x => x;
     CarbonPredictor.is_model_loaded := true |}.

(** The predictor after a failed [load_model]. *)
Definition failed_predictor : CarbonPredictor.t :=
  {| CarbonPredictor.model := None;
     CarbonPredictor.scaler_transform := fun x => x;
     CarbonPredictor.is_model_loaded := false |}.

(** ** Images and analyzers *)

Definition vegetated : SatelliteAnalyzer.pixel :=
  {| SatelliteAnalyzer.red := 0; SatelliteAnalyzer.green := 255;
     SatelliteAnalyzer.blue := 0 |}.

Definition bare : SatelliteAnalyzer.pixel :=
  {| SatelliteAnalyzer.red := 200; SatelliteAnalyzer.green := 100;
     SatelliteAnalyzer.blue := 50 |}.

(** An image with [v] vegetated pixels followed by [b] bare ones. *)
Definition field_image (v b : nat) : SatelliteAnalyzer.image :=
  SatelliteAnalyzer.Image3 (repeat vegetated v ++ repeat bare b).

(** A tensor that OpenCV rejects. *)
Definition malformed_image : SatelliteAnalyzer.image :=
  SatelliteAnalyzer.ImageOther [0%nat] [].

(** [cv2.resize] on the images above: it rejects empty and malformed
    tensors and leaves the content of the others as it is. *)
Definition resize (img : SatelliteAnalyzer.image)
  : string + SatelliteAnalyzer.image :=
  match img with
  | SatelliteAnalyzer.Image3 (_ :: _) => inr img
  | _ => inl "OpenCV: (-215:Assertion failed) !ssize.empty() in function 'resize'"%string
  end.

Definition cvt_color (shape : list nat) (data : list Q)
  : string + list SatelliteAnalyzer.pixel :=
  inl "OpenCV: Invalid number of channels in input image"%string.

(** A classifier that answers the same scores for every image. *)
Definition scores_classifier (scores : list Q) : SatelliteAnalyzer.classifier :=
  {| SatelliteAnalyzer.predict := map (fun _ => scores) |}.

Definition forest_scores : list Q := [0; 0; 0; 0; 1; 0; 0].
Definition confident_scores : list Q := [0.05; 0; 0; 0.10; 0.85; 0; 0].
Definition cleared_scores : list Q := [0; 0; 0; 0; 0.5; 0.5; 0].

Definition analyzer (scores : list Q) : SatelliteAnalyzer.t :=
  {| SatelliteAnalyzer.model_path := "./models/vegetation_cnn.h5";
     SatelliteAnalyzer.model := Some (scores_classifier scores);
     SatelliteAnalyzer.is_model_loaded := true |}.

(** The analyzer after a failed [load_model]. *)
Definition failed_analyzer : SatelliteAnalyzer.t :=
  {| SatelliteAnalyzer.model_path := "./models/vegetation_cnn.h5";
     SatelliteAnalyzer.model := None;
     SatelliteAnalyzer.is_model_loaded := false |}.

(** One fully vegetated image per project area. *)
Definition one_green_image (location : gmap string Q) (area : Q)
  : list SatelliteAnalyzer.image :=
  [field_image 20 0].

(** The result of classifying an image with the given scores and coverage. *)
Definition classified (scores : list Q) (coverage : Q)
  : SatelliteAnalyzer.analysis :=
  {| SatelliteAnalyzer.vegetation_detected := true;
     SatelliteAnalyzer.predicted_class := "forest";
     SatelliteAnalyzer.confidence := 1;
     SatelliteAnalyzer.vegetation_coverage_percent := coverage;
     SatelliteAnalyzer.class_probabilities :=
       combine SatelliteAnalyzer.vegetation_classes scores;
     SatelliteAnalyzer.change_detection :=
       {| SatelliteAnalyzer.change_detected := false;
          SatelliteAnalyzer.change_type := "no_change";
          SatelliteAnalyzer.change_confidence := 0;
          SatelliteAnalyzer.change_area_percent := 0 |};
     SatelliteAnalyzer.analysis_timestamp := iso_text clock;
     SatelliteAnalyzer.model_version := "v1.0";
     SatelliteAnalyzer.date := None |}.

(** ** Time series *)

(** The classified sample of day [day] with the given coverage. *)
Definition sample (coverage : Q) (day : Z) : SatelliteAnalyzer.analysis :=
  {| SatelliteAnalyzer.vegetation_detected := true;
     SatelliteAnalyzer.predicted_class := "forest";
     SatelliteAnalyzer.confidence := 0.9;
     SatelliteAnalyzer.vegetation_coverage_percent := coverage;
     SatelliteAnalyzer.class_probabilities := [];
     SatelliteAnalyzer.change_detection :=
       {| SatelliteAnalyzer.change_detected := false;
          SatelliteAnalyzer.change_type := "no_change";
          SatelliteAnalyzer.change_confidence := 0;
          SatelliteAnalyzer.change_area_percent := 0 |};
     SatelliteAnalyzer.analysis_timestamp := iso_text clock;
     SatelliteAnalyzer.model_version := "v1.0";
     SatelliteAnalyzer.date := Some (naive (day * microseconds_per_day)) |}.

(** Coverage 40, 45, 50, 55 sampled every [spacing] days. *)
Definition rising_series (spacing : Z) : list SatelliteAnalyzer.analysis :=
  [ sample 40 0; sample 45 spacing; sample 50 (2 * spacing);
    sample 55 (3 * spacing) ].

(** Coverage 50, 50, 50 sampled every [spacing] days. *)
Definition flat_series (spacing : Z) : list SatelliteAnalyzer.analysis :=
  [ sample 50 0; sample 50 spacing; sample 50 (2 * spacing) ].

(** A fit without rounding, and a fit that rounds every slope up by
    2^-51, two units in the last place of a double next to 1. *)
Definition exact_fit (xs ys : list Q) : Q := 0.
Definition rounded_up_fit (xs ys : list Q) : Q := 1 # 2251799813685248.

(** ** The legitimacy scorer *)

Definition legitimacy (score : Q) (project_data : ProjectData)
  : M (gmap string Q) :=
  ret (list_to_map [("legitimacy_score", score)]%string).

End Examples.
(** * carbon_predictor.py: training data, loading, status *)

Module CarbonTraining.

(** One row of the frame of [_generate_mock_training_data]: the ten
    features and the random variation drawn for the target. *)
Record training_row : Type := {
  row_area_hectares : Q;
  row_vegetation_coverage : Q;
  row_temperature_avg : Q;
  row_precipitation_mm : Q;
  row_soil_quality_index : Q;
  row_elevation_m : Q;
  row_slope_degrees : Q;
  row_biodiversity_index : Q;
  row_human_activity_index : Q;
  row_project_age_months : Q;
  row_variation : Q
}.

(** The ranges handed to [np.random.uniform], ends included. *)
Definition drawn (r : training_row) : Prop :=
  1 <= row_area_hectares r <= 10000
  /\ 10 <= row_vegetation_coverage r <= 95
  /\ 5 <= row_temperature_avg r <= 35
  /\ 200 <= row_precipitation_mm r <= 2000
  /\ 0.3 <= row_soil_quality_index r <= 1.0
  /\ 0 <= row_elevation_m r <= 3000
  /\ 0 <= row_slope_degrees r <= 45
  /\ 0.2 <= row_biodiversity_index r <= 1.0
  /\ 0.0 <= row_human_activity_index r <= 0.8
  /\ 1 <= row_project_age_months r <= 120
  /\ 0.8 <= row_variation r <= 1.2.

(** The column [co2_capture_tonnes_year] of a row. *)
Definition co2_capture_tonnes_year (r : training_row) : Q :=
  row_area_hectares r * 0.1
  * (row_vegetation_coverage r / 100)
  * (1 + row_soil_quality_index r)
  * (1 + row_precipitation_mm r / 1000)
  * row_variation r.

(** The frame: every drawn row with its target. *)
Definition _generate_mock_training_data (draws : list training_row)
  : list (training_row * Q) :=
  map (fun r => (r, co2_capture_tonnes_year r)) draws.

(** The target of a row without its random variation. *)
Definition expected_capture (r : training_row) : Q :=
  row_area_hectares r * 0.1
  * (row_vegetation_coverage r / 100)
  * (1 + row_soil_quality_index r)
  * (1 + row_precipitation_mm r / 1000).

(** The dictionary of [_get_environmental_data]: seven values drawn
    from fixed ranges (ends included). *)
Definition mock_environmental_data (e : gmap string Q) : Prop :=
  exists temperature precipitation soil_quality elevation slope biodiversity
         human_activity,
    e = list_to_map
          [ ("temperature", temperature);
            ("precipitation", precipitation);
            ("soil_quality", soil_quality);
            ("elevation", elevation);
            ("slope", slope);
            ("biodiversity", biodiversity);
            ("human_activity", human_activity) ]%string
    /\ 15 <= temperature <= 30
    /\ 500 <= precipitation <= 1500
    /\ 0.4 <= soil_quality <= 0.9
    /\ 0 <= elevation <= 2000
    /\ 0 <= slope <= 30
    /\ 0.3 <= biodiversity <= 0.8
    /\ 0.1 <= human_activity <= 0.6.

(** What [joblib.load] finds at a path. *)
Inductive artifact (A : Type) : Type :=
| Stored (a : A)
| FileMissing                 (* [FileNotFoundError] *)
| Unreadable (msg : string).  (* any other exception *)
Arguments Stored {A} a.
Arguments FileMissing {A}.
Arguments Unreadable {A} msg.

Section Loading.

(** The two artifacts on disk. *)
Variable model_file : artifact CarbonPredictor.regressor.
Variable scaler_file : artifact (list Q -> list Q).

(** Fitting the scaler and the forest on the mock data: the fitted pair,
    or the message of the exception. *)
Variable fit : string + (CarbonPredictor.regressor * (list Q -> list Q)).

(** [joblib.dump] of the two artifacts: the message of its exception. *)
Variable dump : option string.

(** [self.model_path], and the text [MSE: ..., R2: ...] of the evaluation
    on the held-out fifth. *)
Variable model_path : string.
Variable metrics : string.

(** Returns the fitted forest; [self.scaler] is fitted on the way. *)
Definition _create_carbon_model (self : CarbonPredictor.t)
  : M (CarbonPredictor.regressor * CarbonPredictor.t) :=
  match fit with
  | inl msg => raise msg
  | inr (forest, transform) =>
      emit (LogInfo ("Model trained - " ++ metrics)) ;;;
      try_except
        (match dump with
         | Some msg => raise msg
         | None => emit (LogInfo ("Model saved to " ++ model_path))
         end)
        (fun e => emit (LogWarning ("Failed to save model: " ++ e))) ;;;
      ret (forest,
           {| CarbonPredictor.model := CarbonPredictor.model self;
              CarbonPredictor.scaler_transform := transform;
              CarbonPredictor.is_model_loaded :=
                CarbonPredictor.is_model_loaded self |})
  end.

(** The [FileNotFoundError] branch of [load_model]. *)
Definition create_and_load (self : CarbonPredictor.t) : M CarbonPredictor.t :=
  emit (LogInfo "Creating new carbon predictor model") ;;;
  created <- _create_carbon_model self ;;
  ret {| CarbonPredictor.model := Some (fst created);
         CarbonPredictor.scaler_transform :=
           CarbonPredictor.scaler_transform (snd created);
         CarbonPredictor.is_model_loaded := true |}.

(** The last branch of [load_model]: any other exception. *)
Definition load_failed (self : CarbonPredictor.t) (msg : string)
  : M CarbonPredictor.t :=
  emit (LogError ("Failed to load carbon predictor model: " ++ msg)) ;;;
  ret {| CarbonPredictor.model := CarbonPredictor.model self;
         CarbonPredictor.scaler_transform :=
           CarbonPredictor.scaler_transform self;
         CarbonPredictor.is_model_loaded := false |}.

(** [load_model]: the instance after the call.  The model is assigned
    before the scaler is read, so it stays assigned when the scaler cannot
    be read. *)
Definition load_model (self : CarbonPredictor.t) : M CarbonPredictor.t :=
  match model_file with
  | Stored forest =>
      let self1 :=
        {| CarbonPredictor.model := Some forest;
           CarbonPredictor.scaler_transform :=
             CarbonPredictor.scaler_transform self;
           CarbonPredictor.is_model_loaded :=
             CarbonPredictor.is_model_loaded self |} in
      match scaler_file with
      | Stored transform =>
          emit (LogInfo "Loaded existing carbon predictor model") ;;;
          ret {| CarbonPredictor.model := Some forest;
                 CarbonPredictor.scaler_transform := transform;
                 CarbonPredictor.is_model_loaded := true |}
      | FileMissing => create_and_load self1
      | Unreadable msg => load_failed self1 msg
      end
  | FileMissing => create_and_load self
  | Unreadable msg => load_failed self msg
  end.

(** [__init__]: no model, an unfitted scaler (never applied before a
    model is loaded), the flag down, then [load_model]. *)
Definition init (unfitted : list Q -> list Q) : M CarbonPredictor.t :=
  load_model {| CarbonPredictor.model := None;
                CarbonPredictor.scaler_transform := unfitted;
                CarbonPredictor.is_model_loaded := false |}.

End Loading.

Definition is_loaded (self : CarbonPredictor.t) : bool :=
  CarbonPredictor.is_model_loaded self
  && match CarbonPredictor.model self with Some _ => true | None => false end.

(** The position of a recommendation among the four texts, best last. *)
Definition recommendation_rank (text : string) : nat :=
  if String.eqb text
       "Excellent project with high CO2 capture potential. Highly recommended for investment."
  then 3
  else if String.eqb text
       "Good project with moderate CO2 capture potential. Recommended for investment with monitoring."
  then 2
  else if String.eqb text
       "Average project with limited CO2 capture potential. Consider additional improvements."
  then 1
  else 0.

(** The order of the importance mapping: largest importance first. *)
Definition by_importance (a b : string * Q) : Prop := snd b <= snd a.

End CarbonTraining.

(** * satellite_analyzer.py: loading, status, time series *)

Module SatelliteLifecycle.
Import SatelliteAnalyzer.

Section Loading.

(** TensorFlow: [tf.io.gfile.exists], [tf.keras.models.load_model] and
    the construction and compilation of the network in
    [_create_vegetation_cnn]; [inl msg] is a raised exception. *)
Variable gfile_exists : string -> string + bool.
Variable keras_load_model : string -> string + classifier.
Variable _create_vegetation_cnn : string + classifier.

Definition with_model (self : t) (m : classifier) : t :=
  {| model_path := model_path self;
     model := Some m;
     is_model_loaded := is_model_loaded self |}.

Definition with_flag (self : t) (flag : bool) : t :=
  {| model_path := model_path self;
     model := model self;
     is_model_loaded := flag |}.

(** [load_model]: the instance after the call. *)
Definition load_model (self : t) : M t :=
  try_except
    (found <- lift (gfile_exists (model_path self)) ;;
     self1 <-
       (if found : bool then
          m <- lift (keras_load_model (model_path self)) ;;
          emit (LogInfo "Loaded existing vegetation CNN model") ;;;
          ret (with_model self m)
        else
          m <- lift _create_vegetation_cnn ;;
          emit (LogInfo "Created new vegetation CNN model") ;;;
          ret (with_model self m)) ;;
     ret (with_flag self1 true))
    (fun e =>
       emit (LogError ("Failed to load/create CNN model: " ++ e)) ;;;
       ret (with_flag self false)).

(** [__init__] *)
Definition init (path : string) : M t :=
  load_model {| model_path := path; model := None; is_model_loaded := false |}.

End Loading.

Definition is_loaded (self : t) : bool :=
  is_model_loaded self
  && match model self with Some _ => true | None => false end.

(** The dictionary returned by [temporal_analysis]. *)
Record temporal_report : Type := {
  temporal_analysis_results : list analysis;
  vegetation_trend : trend_report;
  period_start : string;
  period_end : string;
  temporal_images_analyzed : nat
}.

(** [timedelta(days=30)] *)
Definition thirty_days : Z := (30 * microseconds_per_day)%Z.

Section TimeSeries.

Variable cv2_resize : image -> string + image.
Variable cv2_cvtColor : list nat -> list Q -> string + list pixel.
Variable polyfit_rounding : list Q -> list Q -> Q.
Variable now : Z.
Variable isoformat : datetime -> string.

(** The random image drawn for a date. *)
Variable mock_image : datetime -> image.

(** The [while] loop of [_fetch_time_series_images]: [None] when the
    fuel runs out before the loop ends.  The comparison raises
    [TypeError] when only one of the two dates is aware, the step
    [OverflowError] when it passes [datetime.max].  The dictionary is
    kept as the list of its items in insertion order; the dates are
    distinct. *)
Fixpoint time_series_loop (fuel : nat) (current_date end_date : datetime)
  (images : list (datetime * image))
  : option (string + list (datetime * image)) :=
  match datetime_le current_date end_date with
  | inl msg => Some (inl msg)
  | inr false => Some (inr images)
  | inr true =>
      match fuel with
      | O => None
      | S fuel' =>
          let images' := images ++ [(current_date, mock_image current_date)] in
          match datetime_add current_date thirty_days with
          | inl msg => Some (inl msg)
          | inr next_date => time_series_loop fuel' next_date end_date images'
          end
      end
  end.

Definition _fetch_time_series_images (location : gmap string Q)
  (start_date end_date : datetime)
  : option (string + list (datetime * image)) :=
  time_series_loop
    (Z.to_nat ((instant end_date - instant start_date) / thirty_days + 1))
    start_date end_date [].

(** [datetime.now().isoformat()] *)
Definition isoformat_now (clock : Z) : string := isoformat (naive clock).

(** The body of the loop of [temporal_analysis]. *)
Definition temporal_step (self : t) (temporal_results : list analysis)
  (item : datetime * image) : M (list analysis) :=
  analysis <- analyze_single_image cv2_resize cv2_cvtColor now isoformat_now
                                   self (snd item) ;;
  ret (temporal_results
       ++ [ {| vegetation_detected := vegetation_detected analysis;
               predicted_class := predicted_class analysis;
               confidence := confidence analysis;
               vegetation_coverage_percent :=
                 vegetation_coverage_percent analysis;
               class_probabilities := class_probabilities analysis;
               change_detection := change_detection analysis;
               analysis_timestamp := analysis_timestamp analysis;
               model_version := model_version analysis;
               date := Some (fst item) |} ]).

(** [temporal_analysis]; [None] when the fetch does not end. *)
Definition temporal_analysis (self : t) (location : gmap string Q)
  (start_date end_date : datetime) (t0 : trace)
  : option (outcome temporal_report * trace) :=
  match _fetch_time_series_images location start_date end_date with
  | None => None
  | Some fetched =>
      Some
        (try_except
           (time_series_images <- checked fetched ;;
            temporal_results <-
              for_each (temporal_step self) time_series_images [] ;;
            vegetation_trend <-
              _calculate_vegetation_trend polyfit_rounding temporal_results ;;
            ret {| temporal_analysis_results := temporal_results;
                   vegetation_trend := vegetation_trend;
                   period_start := isoformat start_date;
                   period_end := isoformat end_date;
                   temporal_images_analyzed := length temporal_results |})
           (fun e =>
              emit (LogError ("Temporal analysis failed: " ++ e)) ;;;
              raise e)
           t0)
  end.

End TimeSeries.

(** *** Closed forms used to state the properties *)

(** A datetime moved by [delta] microseconds on its own clock. *)
Definition shifted (d : datetime) (delta : Z) : datetime :=
  {| wall := (wall d + delta)%Z; utcoffset := utcoffset d |}.

(** The number of whole thirty-day steps from the start to the end. *)
Definition steps (start_date end_date : datetime) : Z :=
  ((instant end_date - instant start_date) / thirty_days)%Z.

(** The dates visited by the loop: every thirty days from the start
    while the end is not passed. *)
Definition sample_dates (start_date end_date : datetime) : list datetime :=
  if (instant start_date <=? instant end_date)%Z then
    map (fun k : nat => shifted start_date (Z.of_nat k * thirty_days))
        (seq 0 (Z.to_nat (steps start_date end_date + 1)))
  else [].

(** The step after the last visited date stays within [datetime.max]. *)
Definition within_range (start_date end_date : datetime) : Prop :=
  (wall start_date + (steps start_date end_date + 1) * thirty_days
   <= datetime_max)%Z.

(** The days elapsed at each of [n] samples taken every thirty days. *)
Definition sample_days (n : nat) : list Q :=
  map (fun k : nat => inject_Z (30 * Z.of_nat k)) (seq 0 n).

(** The pixels that count as vegetation on non-negative channels. *)
Definition greener (p : pixel) : bool := gtb (green p) (1.5 * red p + 2.5e-9).

End SatelliteLifecycle.

(** * main.py: the other endpoints *)

Module MainEndpoints.

(** What leaves an endpoint: its answer, or the [HTTPException] it
    raises. *)
Inductive response (A : Type) : Type :=
| Answer (a : A)
| HTTPException (status_code : nat) (detail : string).
Arguments Answer {A} a.
Arguments HTTPException {A} status_code detail.

(** What the code uses of an [UploadFile]. *)
Record UploadFile : Type := {
  content_type : option string;
  filename : option string;
  read : M string
}.

(** The answer of [analyze_satellite_image]. *)
Record satellite_answer : Type := {
  answer_project_id : option string;
  answer_filename : option string;
  answer_analysis : SatelliteAnalyzer.analysis;
  answer_timestamp : string
}.

(** The answer of [get_market_analysis]. *)
Record market_answer (V : Type) : Type := {
  current_prices : V;
  price_trends : V;
  volume_analysis : V;
  forecast_30_days : V;
  market_sentiment : V;
  market_timestamp : string
}.
Arguments current_prices {V} m.
Arguments price_trends {V} m.
Arguments volume_analysis {V} m.
Arguments forecast_30_days {V} m.
Arguments market_sentiment {V} m.
Arguments market_timestamp {V} m.

(** The answer of [health_check]. *)
Record health_answer : Type := {
  health_status : string;
  satellite_analyzer_loaded : bool;
  carbon_predictor_loaded : bool;
  fraud_detector_loaded : bool;
  price_forecaster_loaded : bool;
  health_timestamp : string;
  uptime : string
}.

Section Endpoints.

(** The module-level instances and their collaborators. *)
Variable satellite_analyzer : SatelliteAnalyzer.t.
Variable carbon_predictor : CarbonPredictor.t.
Variable cv2_resize : SatelliteAnalyzer.image -> string + SatelliteAnalyzer.image.
Variable cv2_cvtColor : list nat -> list Q -> string + list SatelliteAnalyzer.pixel.
Variable np_std : list Q -> Q.
Variable _get_environmental_data : gmap string Q -> gmap string Q.
Variable now : Z.
Variable isoformat : Z -> string.

(** [str(e)] of an [HTTPException]. *)
Variable http_str : nat -> string -> string.

(** [image_processor.preprocess_satellite_image] *)
Variable preprocess_satellite_image : string -> M SatelliteAnalyzer.image.

(** [get_database()] followed by [db.get_project(project_id)]; a falsy
    result is [None]. *)
Variable get_project : string -> M (option ProjectData).

(** [get_database()] followed by [db.save_verification_result]. *)
Variable db_save_verification_result : Main.VerificationResult -> M unit.

(** [price_forecaster.get_market_analysis], and the [is_loaded] of the
    two external models. *)
Variable V : Type.
Variable get_market_data : M (gmap string V).
Variable fraud_detector_is_loaded : M bool.
Variable price_forecaster_is_loaded : M bool.

(** The [HTTPException] raised for the content type is raised inside
    the [try] and caught by its [except Exception], like everything
    else. *)
Definition analyze_satellite_image (file : UploadFile)
  (project_id : option string) : M (response satellite_answer) :=
  try_except
    (match content_type file with
     | None => raise "'NoneType' object has no attribute 'startswith'"
     | Some content =>
         if negb (String.prefix "image/" content) then
           raise (http_str 400 "Invalid file format")
         else
           image_data <- read file ;;
           processed_image <- preprocess_satellite_image image_data ;;
           analysis_result <-
             SatelliteAnalyzer.analyze_single_image
               cv2_resize cv2_cvtColor now isoformat
               satellite_analyzer processed_image ;;
           ret (Answer {| answer_project_id := project_id;
                          answer_filename := filename file;
                          answer_analysis := analysis_result;
                          answer_timestamp := isoformat now |})
     end)
    (fun e =>
       emit (LogError ("Satellite analysis failed: " ++ e)) ;;;
       ret (HTTPException 500 ("Analysis failed: " ++ e))).

(** The 404 is re-raised by [except HTTPException: raise]. *)
Definition predict_carbon_capture (project_id : string) (timeframe_days : Z)
  (include_weather : bool) : M (response CarbonPredictor.prediction_report) :=
  try_except
    (project_data <- get_project project_id ;;
     match project_data with
     | None => ret (HTTPException 404 "Project not found")
     | Some project =>
         prediction <-
           CarbonPredictor.predict_capture
             np_std _get_environmental_data now isoformat
             carbon_predictor project timeframe_days include_weather ;;
         ret (Answer prediction)
     end)
    (fun e =>
       emit (LogError ("Prediction failed for project " ++ project_id
                       ++ ": " ++ e)) ;;;
       ret (HTTPException 500 ("Prediction failed: " ++ e))).

Definition get_market_analysis : M (response (market_answer V)) :=
  try_except
    (market_data <- get_market_data ;;
     prices <- getitem market_data "current_prices" ;;
     trends <- getitem market_data "trends" ;;
     volume <- getitem market_data "volume" ;;
     forecast <- getitem market_data "forecast" ;;
     sentiment <- getitem market_data "sentiment" ;;
     ret (Answer {| current_prices := prices;
                    price_trends := trends;
                    volume_analysis := volume;
                    forecast_30_days := forecast;
                    market_sentiment := sentiment;
                    market_timestamp := isoformat now |}))
    (fun e =>
       emit (LogError ("Market analysis failed: " ++ e)) ;;;
       ret (HTTPException 500 ("Market analysis failed: " ++ e))).

Definition health_check : M health_answer :=
  fraud <- fraud_detector_is_loaded ;;
  price <- price_forecaster_is_loaded ;;
  ret {| health_status := "healthy";
         satellite_analyzer_loaded :=
           SatelliteLifecycle.is_loaded satellite_analyzer;
         carbon_predictor_loaded := CarbonTraining.is_loaded carbon_predictor;
         fraud_detector_loaded := fraud;
         price_forecaster_loaded := price;
         health_timestamp := isoformat now;
         uptime := "operational" |}.

Definition save_verification_result (result : Main.VerificationResult)
  : M unit :=
  try_except
    (db_save_verification_result result ;;;
     emit (LogInfo ("Saved verification result for project "
                    ++ Main.result_project_id result)))
    (fun e =>
       emit (LogError ("Failed to save verification result: " ++ e))).

End Endpoints.

(** *** Closed forms used to state the properties *)

(** The keys that [get_market_analysis] reads, in the order it reads
    them, and the first of them that a dictionary lacks. *)
Definition market_keys : list string :=
  ["current_prices"; "trends"; "volume"; "forecast"; "sentiment"]%string.

Definition first_missing {V} (market_data : gmap string V) : option string :=
  List.find (fun key => match market_data !! key with
                        | None => true
                        | Some _ => false
                        end)
            market_keys.

End MainEndpoints.

(** * config.py: the validation of the production settings *)

Module Config.

(** The fields of [Settings] that the validation reads. *)
Record Settings : Type := {
  ENVIRONMENT : string;
  SATELLITE_API_KEY : option string;
  NASA_API_KEY : option string;
  SECRET_KEY : string
}.

(** The defaults of the class for these fields. *)
Definition defaults : Settings :=
  {| ENVIRONMENT := "development";
     SATELLITE_API_KEY := None;
     NASA_API_KEY := None;
     SECRET_KEY := "your-secret-key-change-in-production" |}.

(** The truth value of a string, and of an optional one. *)
Definition truthy (s : string) : bool := negb (String.eqb s "").

Definition truthy_option (v : option string) : bool :=
  match v with
  | Some s => truthy s
  | None => false
  end.

Definition required_settings : list string :=
  ["SATELLITE_API_KEY"; "NASA_API_KEY"; "SECRET_KEY"]%string.

(** The truth value of [getattr(settings, setting)] for a required
    setting. *)
Definition getattr_truthy (settings : Settings) (setting : string) : bool :=
  if String.eqb setting "SATELLITE_API_KEY" then
    truthy_option (SATELLITE_API_KEY settings)
  else if String.eqb setting "NASA_API_KEY" then
    truthy_option (NASA_API_KEY settings)
  else truthy (SECRET_KEY settings).

(** [repr] of a list of strings without quotes or backslashes. *)
Definition repr_list (xs : list string) : string :=
  ("[" ++ String.concat ", " (map (fun x => "'" ++ x ++ "'") xs) ++ "]")%string.

(** The module body after [settings = Settings()]: the [ValueError] it
    raises, or the line it prints. *)
Definition validate (settings : Settings) : M string :=
  (if String.eqb (ENVIRONMENT settings) "production" then
     let missing_settings :=
       fold_left (fun acc setting =>
                    if negb (getattr_truthy settings setting)
                    then acc ++ [setting] else acc)
                 required_settings [] in
     match missing_settings with
     | [] => ret tt
     | _ => raise ("Missing required production settings: "
                   ++ repr_list missing_settings)
     end
   else ret tt) ;;;
  ret ("CarbonFlow AI Engine configured for " ++ ENVIRONMENT settings
       ++ " environment")%string.

End Config.

(** * deployment/ibm-cloud/handler.py *)

Module Handler.

(** ** Decoded JSON and Watson's analysis *)

(** A value of a decoded JSON object, as far as the handler tells
    values apart; a list or a dictionary is known by its emptiness. *)
Inductive value : Type :=
| VString (s : string)
| VNumber (q : Q)
| VBool (b : bool)
| VNull
| VCompound (empty : bool).

(** Python's truth value. *)
Definition truthy (v : value) : bool :=
  match v with
  | VString s => negb (String.eqb s "")
  | VNumber q => negb (Qeq_bool q 0)
  | VBool b => b
  | VNull => false
  | VCompound empty => negb empty
  end.

(** The result of [json.loads]: an object, or a value of another type. *)
Inductive decoded : Type :=
| DObject (fields : list (string * value))
| DOther (type_name : string).

(** One of Watson's keywords. *)
Record keyword : Type := {
  keyword_text : string;
  relevance : Q
}.

(** The part of the result of [nlu.analyze(...).get_result()] that the
    handler reads; an absent key is [None]. *)
Record document : Type := {
  score : option Q;
  label : option string
}.

Record sentiment : Type := {
  sentiment_document : option document
}.

Record analysis : Type := {
  analysis_sentiment : option sentiment;
  analysis_keywords : option (list keyword)
}.

(** ** Scores and grades *)

(** [round(x)] to the nearest integer, ties to the even one. *)
Definition round_half_even (x : Q) : Z :=
  let below := Qfloor x in
  let rest := x - inject_Z below in
  if Qlt_le_dec rest (1 # 2) then below
  else if Qlt_le_dec (1 # 2) rest then (below + 1)%Z
  else if Z.even below then below else (below + 1)%Z.

(** [round(x, 1)] *)
Definition py_round1 (x : Q) : Q := inject_Z (round_half_even (x * 10)) / 10.

(** [analysis.get('sentiment', {}).get('document', {}).get('score', 0)] *)
Definition sentiment_score (a : analysis) : Q :=
  match analysis_sentiment a with
  | Some s =>
      match sentiment_document s with
      | Some d => default 0 (score d)
      | None => 0
      end
  | None => 0
  end.

Definition calculate_carbon_score (a : analysis) : Q :=
  let base_score := py_max 0 ((sentiment_score a + 1) * 50) in
  py_round1 (py_min 100 base_score).

(** [a >= b] as a boolean. *)
Definition geb (a b : Q) : bool := if Qlt_le_dec a b then false else true.

Definition get_carbon_grade (score : Q) : string :=
  if geb score 90 then "A+"
  else if geb score 80 then "A"
  else if geb score 70 then "B"
  else if geb score 60 then "C"
  else "D".

Definition sentiment_label (a : analysis) : string :=
  match analysis_sentiment a with
  | Some s =>
      match sentiment_document s with
      | Some d => default "neutral"%string (label d)
      | None => "neutral"
      end
  | None => "neutral"
  end.

Definition generate_recommendations (a : analysis) : list string :=
  if String.eqb (sentiment_label a) "positive" then
    ["Consider renewable energy credits"; "Explore carbon offset programs"]%string
  else
    ["Review carbon footprint"; "Implement efficiency measures"]%string.

(** ** Responses *)

(** The dictionary that is dumped into the body of a response. *)
Inductive body : Type :=
| ErrorBody (error : string)
| HealthBody (status timestamp service version : string)
| ResultBody (timestamp : string) (carbon_score : Q) (grade : string)
             (result_sentiment : option sentiment)
             (keywords : list keyword) (recommendations : list string).

Record response : Type := {
  statusCode : nat;
  headers : list (string * string);
  response_body : body
}.

Definition success_response (data : body) : response :=
  {| statusCode := 200;
     headers := [("Content-Type", "application/json");
                 ("Access-Control-Allow-Origin", "*")]%string;
     response_body := data |}.

Definition error_response (message : string) (status_code : nat) : response :=
  {| statusCode := status_code;
     headers := [("Content-Type", "application/json")]%string;
     response_body := ErrorBody message |}.

(** ** The entry point *)

(** What the handler reads of the event: the two OpenWhisk keys, each
    absent or bound, and the event as a dictionary. *)
Inductive ow_value : Type :=
| BodyText (text : string)   (* [isinstance(..., str)] *)
| BodyOther.

Record event_data : Type := {
  ow_body : option ow_value;
  ow_path : option string;
  event_fields : list (string * value)
}.

(** [d.get(key)] on the fields of an object. *)
Fixpoint get_field (fields : list (string * value)) (key : string)
  : option value :=
  match fields with
  | [] => None
  | (k, v) :: rest => if String.eqb k key then Some v else get_field rest key
  end.

(** The part of a string after its last ['/'] ([s.split('/')[-1]]);
    [segment] is what was read since the last separator. *)
Fixpoint last_segment_from (segment s : string) : string :=
  match s with
  | EmptyString => segment
  | String c rest =>
      if Ascii.eqb c "/"%char then last_segment_from "" rest
      else last_segment_from (segment ++ String c "") rest
  end.

Definition last_segment (s : string) : string := last_segment_from "" s.

Section Service.

(** [json.loads]; [os.environ]; the construction of the Watson client
    from its key and URL followed by its [analyze] call; the clock. *)
Variable json_loads : string -> string + decoded.
Variable environ : string -> option string.
Variable nlu_analyze : string -> string -> value -> M analysis.
Variable utcnow_isoformat : string.

Definition health_check : response :=
  success_response
    (HealthBody "healthy" utcnow_isoformat "carbonflow-ai" "1.0.0").

(** [data.get('text', '')]: an [AttributeError] when the decoded body is
    not an object. *)
Definition text_of (data : decoded) : M value :=
  match data with
  | DObject fields => ret (default (VString "") (get_field fields "text"))
  | DOther type_name =>
      raise ("'" ++ type_name ++ "' object has no attribute 'get'")
  end.

(** [os.environ[key]] *)
Definition environ_item (key : string) : M string :=
  match environ key with
  | Some v => ret v
  | None => raise ("'" ++ key ++ "'")
  end.

Definition analyze_carbon_data (data : decoded) : M response :=
  try_except
    (text_input <- text_of data ;;
     if negb (truthy text_input) then
       ret (error_response "Missing text data" 400)
     else
       apikey <- environ_item "WATSON_NLU_APIKEY" ;;
       service_url <- environ_item "WATSON_NLU_URL" ;;
       analysis <- nlu_analyze apikey service_url text_input ;;
       let carbon_score := calculate_carbon_score analysis in
       ret (success_response
              (ResultBody utcnow_isoformat carbon_score
                          (get_carbon_grade carbon_score)
                          (analysis_sentiment analysis)
                          (default [] (analysis_keywords analysis))
                          (generate_recommendations analysis))))
    (fun e => ret (error_response ("Analysis failed: " ++ e) 500)).

(** [main]: the body is the decoded [__ow_body] when that is a string,
    and the event itself when the key is absent or bound to anything
    else. *)
Definition main (event : event_data) : M response :=
  try_except
    (body <-
       match ow_body event with
       | None => ret (DObject (event_fields event))
       | Some (BodyText text) =>
           match json_loads text with
           | inl msg => raise msg
           | inr data => ret data
           end
       | Some BodyOther => ret (DObject (event_fields event))
       end ;;
     let segment := last_segment (default ""%string (ow_path event)) in
     let action := if String.eqb segment "" then "analyze"%string else segment in
     if String.eqb action "health" then ret health_check
     else if String.eqb action "analyze" then analyze_carbon_data body
     else ret (error_response "Invalid action" 400))
    (fun e => ret (error_response e 500)).

End Service.

End Handler.

(** * Properties *)

(** ** Python's built-ins *)

Lemma py_min_le_l a b : py_min a b <= a.
Proof. unfold py_min. destruct (Qlt_le_dec b a); lra. Qed.

Lemma py_min_le_r a b : py_min a b <= b.
Proof. unfold py_min. destruct (Qlt_le_dec b a); lra. Qed.

Lemma py_min_glb a b c : c <= a -> c <= b -> c <= py_min a b.
Proof. unfold py_min. destruct (Qlt_le_dec b a); lra. Qed.

(** [py_min] and [py_max] are the minimum and maximum of the rationals. *)
Lemma py_min_Qmin a b : py_min a b == Qmin a b.
Proof.
  unfold py_min. destruct (Qlt_le_dec b a).
  - rewrite Q.min_r; lra.
  - rewrite Q.min_l; lra.
Qed.

Lemma py_max_Qmax a b : py_max a b == Qmax a b.
Proof.
  unfold py_max. destruct (Qlt_le_dec a b).
  - rewrite Q.max_r; lra.
  - rewrite Q.max_l; lra.
Qed.

Lemma py_min_compat a a' b b' :
  a == a' -> b == b' -> py_min a b == py_min a' b'.
Proof.
  intros Ha Hb. unfold py_min.
  destruct (Qlt_le_dec b a), (Qlt_le_dec b' a'); lra.
Qed.

Lemma py_max_compat a a' b b' :
  a == a' -> b == b' -> py_max a b == py_max a' b'.
Proof.
  intros Ha Hb. unfold py_max.
  destruct (Qlt_le_dec a b), (Qlt_le_dec a' b'); lra.
Qed.

Lemma py_max_ge_l a b : a <= py_max a b.
Proof. unfold py_max. destruct (Qlt_le_dec a b); lra. Qed.

Lemma py_max_ge_r a b : b <= py_max a b.
Proof. unfold py_max. destruct (Qlt_le_dec a b); lra. Qed.

Lemma gtb_spec a b : gtb a b = true <-> b < a.
Proof.
  unfold gtb. destruct (Qlt_le_dec b a); split; intros; try lra; congruence.
Qed.

Lemma ltb_spec a b : ltb a b = true <-> a < b.
Proof.
  unfold ltb. destruct (Qlt_le_dec a b); split; intros; try lra; congruence.
Qed.

Lemma py_sum_snoc xs x : py_sum (xs ++ [x]) = py_sum xs + x.
Proof. unfold py_sum. rewrite fold_left_app. reflexivity. Qed.

Lemma py_sum_scale {A} (c : Q) (f : A -> Q) (l : list A) :
  py_sum (map (fun k => c * f k) l) == c * py_sum (map f l).
Proof.
  induction l as [|k l IH] using rev_ind.
  - unfold py_sum. cbn. ring.
  - rewrite !map_app. cbn [map]. rewrite !py_sum_snoc, IH. ring.
Qed.

Lemma div_nonneg a c : 0 <= a -> 0 < c -> 0 <= a / c.
Proof. intros. apply Qle_shift_div_l; lra. Qed.

(** ** Running the monad *)

Lemma bind_ret {A B} (c : M A) (k : A -> M B) t a t' :
  c t = (Ret a, t') -> bind c k t = k a t'.
Proof. unfold bind. intros ->. reflexivity. Qed.

Lemma bind_raise {A B} (c : M A) (k : A -> M B) t msg t' :
  c t = (Raise msg, t') -> bind c k t = (Raise msg, t').
Proof. unfold bind. intros ->. reflexivity. Qed.

Lemma try_except_ret {A} (c : M A) h t a t' :
  c t = (Ret a, t') -> try_except c h t = (Ret a, t').
Proof. unfold try_except. intros ->. reflexivity. Qed.

Lemma try_except_raise {A} (c : M A) h t msg t' :
  c t = (Raise msg, t') -> try_except c h t = h msg t'.
Proof. unfold try_except. intros ->. reflexivity. Qed.

Lemma bind_inv {A B} (c : M A) (k : A -> M B) t b t' :
  bind c k t = (Ret b, t') ->
  exists a t1, c t = (Ret a, t1) /\ k a t1 = (Ret b, t').
Proof.
  unfold bind. destruct (c t) as [[a|msg|] t1]; try discriminate.
  intros H. exists a, t1. split; [reflexivity|exact H].
Qed.

Lemma try_except_ret_inv {A} (c : M A) h t a t' :
  try_except c h t = (Ret a, t') ->
  c t = (Ret a, t')
  \/ exists msg t1, c t = (Raise msg, t1) /\ h msg t1 = (Ret a, t').
Proof.
  unfold try_except. destruct (c t) as [[a'|msg|] t1]; try discriminate.
  - intros H. left. exact H.
  - intros H. right. exists msg, t1. split; [reflexivity|exact H].
Qed.

Lemma getitem_some {V} (d : gmap string V) k v t :
  d !! k = Some v -> getitem d k t = (Ret v, t).
Proof. unfold getitem. intros ->. reflexivity. Qed.

Lemma np_div_nonzero a b t : ~ b == 0 -> np_div a b t = (Ret (a / b), t).
Proof.
  intros Hb. unfold np_div.
  destruct (Qeq_bool b 0) eqn:E; [|reflexivity].
  apply Qeq_bool_iff in E. contradiction.
Qed.

Lemma np_div_zero a b t : b == 0 -> np_div a b t = (NonFinite, t).
Proof.
  intros Hb. unfold np_div.
  destruct (Qeq_bool b 0) eqn:E; [reflexivity|].
  apply Qeq_bool_neq in E. contradiction.
Qed.

Module CarbonPredictorSpec.
Import CarbonPredictor.

(** *** The monthly breakdown *)

Lemma breakdown_rows annual n :
  fold_left (month_step annual) (seq 0 n) [] = map (row annual) (seq 0 n).
Proof.
  induction n as [|n IH].
  - reflexivity.
  - rewrite seq_S, fold_left_app, IH, map_app. cbn [fold_left map Nat.add].
    unfold month_step. do 2 f_equal. unfold row, tonnes, factor. f_equal.
    rewrite map_map. reflexivity.
Qed.

Lemma factors_sum : py_sum (map factor (seq 0 12)) == 11.3.
Proof. reflexivity. Qed.

Lemma twelve_months_sum annual :
  py_sum (map co2_capture_tonnes (map (row annual) (seq 0 12)))
  == annual * 11.3 / 12.
Proof.
  rewrite map_map. cbn [co2_capture_tonnes row].
  change (map (fun x => tonnes annual x) (seq 0 12))
    with (map (fun k => annual / 12 * factor k) (seq 0 12)).
  rewrite py_sum_scale, factors_sum. field.
Qed.

(** C3: for every annual estimate and horizon the breakdown has
    min(timeframe_days div 30, 12) records, at most 12; record k (from 0)
    is month k+1, carries the seasonal factor table[k mod 12] and
    annual/12 times that factor, and its cumulative total is the sum of
    the monthly tonnes of the records up to and including it; over a
    12-month horizon the monthly tonnes add up to annual * 11.3 / 12,
    which differs from the annual estimate unless that is zero. *)
Theorem monthly_breakdown_spec (annual : Q) (timeframe_days : Z) (w : bool) :
  let rows := _calculate_monthly_breakdown annual timeframe_days w in
  length rows = Z.to_nat (Z.min (timeframe_days / 30) 12)
  /\ (length rows <= 12)%nat
  /\ (forall k r, rows !! k = Some r ->
        month r = (Z.of_nat k + 1)%Z
        /\ seasonal_factor r = nth (k mod 12) seasonal_factors 0
        /\ co2_capture_tonnes r = (annual / 12) * seasonal_factor r
        /\ cumulative_co2 r = py_sum (map co2_capture_tonnes (take (S k) rows)))
  /\ ((360 <= timeframe_days)%Z ->
        length rows = 12%nat
        /\ py_sum (map co2_capture_tonnes rows) == annual * 11.3 / 12
        /\ (~ annual == 0 -> ~ py_sum (map co2_capture_tonnes rows) == annual)).
Proof.
  intros rows. subst rows. unfold _calculate_monthly_breakdown.
  set (n := Z.to_nat (Z.min (timeframe_days / 30) 12)).
  assert (Hn : (n <= 12)%nat) by (subst n; lia).
  rewrite breakdown_rows.
  assert (Hlen : length (map (row annual) (seq 0 n)) = n)
    by (rewrite length_map, length_seq; reflexivity).
  split; [exact Hlen|]. split; [lia|]. split.
  - intros k r Hk.
    rewrite list_lookup_fmap in Hk.
    destruct (seq 0 n !! k) as [j|] eqn:Hj; [|discriminate].
    apply lookup_seq in Hj as [-> Hlt]. cbn in Hk. injection Hk as <-.
    cbn [month seasonal_factor co2_capture_tonnes cumulative_co2 row].
    repeat split.
    rewrite <- fmap_take, take_seq, Nat.min_l by lia.
    change (fmap (row annual)) with (map (row annual)).
    rewrite map_map. cbn [co2_capture_tonnes row].
    rewrite seq_S, map_app. cbn [map Nat.add]. rewrite py_sum_snoc.
    reflexivity.
  - intros Hd.
    assert (n = 12%nat) as ->.
    { subst n.
      assert (12 <= timeframe_days / 30)%Z by (apply Z.div_le_lower_bound; lia).
      lia. }
    split; [reflexivity|]. split; [apply twelve_months_sum|].
    intros Hne Heq. rewrite twelve_months_sum in Heq. apply Hne.
    assert (E : annual * 11.3 / 12 == annual * (113 # 120)) by field.
    rewrite E in Heq. lra.
Qed.

(** A year of 1200 tonnes: twelve records that add up to 1130 tonnes. *)
Lemma monthly_breakdown_witness :
  let rows := _calculate_monthly_breakdown 1200 365 true in
  length rows = 12%nat
  /\ py_sum (map co2_capture_tonnes rows) == 1130
  /\ ~ py_sum (map co2_capture_tonnes rows) == 1200.
Proof.
  destruct (monthly_breakdown_spec 1200 365 true) as (_ & _ & _ & H).
  destruct H as (Hlen & Hsum & Hne); [lia|].
  split; [exact Hlen|]. split.
  - rewrite Hsum. reflexivity.
  - apply Hne. discriminate.
Defined.

(** *** The feasibility score *)

Lemma feasibility_factors_run features prediction vc sq pm ah t :
  features !! "vegetation_coverage"%string = Some vc ->
  features !! "soil_quality_index"%string = Some sq ->
  features !! "precipitation_mm"%string = Some pm ->
  features !! "area_hectares"%string = Some ah ->
  ~ ah == 0 ->
  feasibility_factors features prediction t =
    (Ret [ py_min (vc / 80.0) 1.0; sq; py_min (pm / 1000.0) 1.0;
           py_min (ah / 100.0) 1.0; py_min (prediction / (ah * 5)) 1.0 ], t).
Proof.
  intros Hvc Hsq Hpm Hah Hne. unfold feasibility_factors.
  rewrite (bind_ret _ _ _ _ _ (getitem_some _ _ _ t Hvc)).
  rewrite (bind_ret _ _ _ _ _ (getitem_some _ _ _ t Hsq)).
  rewrite (bind_ret _ _ _ _ _ (getitem_some _ _ _ t Hpm)).
  rewrite (bind_ret _ _ _ _ _ (getitem_some _ _ _ t Hah)).
  rewrite (bind_ret _ _ _ _ _ (getitem_some _ _ _ t Hah)).
  rewrite (bind_ret _ _ _ _ _
             (np_div_nonzero prediction (ah * 5) t ltac:(lra))).
  reflexivity.
Qed.

Lemma average_of_factors a b c d e :
  py_sum (map (fun vw => fst vw * snd vw) (combine [a; b; c; d; e] weights))
  / py_sum weights
  == 0.25 * a + 0.20 * b + 0.20 * c + 0.15 * d + 0.20 * e.
Proof. unfold py_sum, weights. cbn [combine map fold_left fst snd]. field. Qed.

Lemma feasibility_run features prediction vc sq pm ah t :
  features !! "vegetation_coverage"%string = Some vc ->
  features !! "soil_quality_index"%string = Some sq ->
  features !! "precipitation_mm"%string = Some pm ->
  features !! "area_hectares"%string = Some ah ->
  ~ ah == 0 ->
  exists f,
    _calculate_feasibility features prediction t = (Ret f, t)
    /\ f == py_min (weighted_factors vc sq pm ah prediction) 1.0.
Proof.
  intros Hvc Hsq Hpm Hah Hne. unfold _calculate_feasibility.
  rewrite (bind_ret _ _ _ _ _
             (feasibility_factors_run _ prediction _ _ _ _ t
                                      Hvc Hsq Hpm Hah Hne)).
  unfold np_average. cbn [length negb Nat.eqb weights].
  change (Qeq_bool (py_sum [0.25; 0.20; 0.20; 0.15; 0.20]) 0) with false.
  cbv beta iota. eexists. split; [reflexivity|].
  fold weights.
  set (avg := _ / _).
  assert (E : avg == weighted_factors vc sq pm ah prediction)
    by (subst avg; rewrite average_of_factors; reflexivity).
  rewrite !py_min_Qmin, E. reflexivity.
Qed.

(** C2, as the code has it: for a feature mapping that holds the four keys
    and a non-zero area, the feasibility score is the weighted average of
    the five sub-factors capped at 1; it never exceeds 1, and it is at
    least 0 when the features and the prediction are not negative. *)
Theorem feasibility_capped_above features prediction vc sq pm ah t :
  features !! "vegetation_coverage"%string = Some vc ->
  features !! "soil_quality_index"%string = Some sq ->
  features !! "precipitation_mm"%string = Some pm ->
  features !! "area_hectares"%string = Some ah ->
  ~ ah == 0 ->
  exists f,
    _calculate_feasibility features prediction t = (Ret f, t)
    /\ f == py_min (weighted_factors vc sq pm ah prediction) 1.0
    /\ f <= 1
    /\ (0 <= vc -> 0 <= sq -> 0 <= pm -> 0 < ah -> 0 <= prediction -> 0 <= f).
Proof.
  intros Hvc Hsq Hpm Hah Hne.
  destruct (feasibility_run features prediction vc sq pm ah t
                            Hvc Hsq Hpm Hah Hne) as (f & Hrun & Hf).
  exists f. split; [exact Hrun|]. split; [exact Hf|]. split.
  - rewrite Hf.
    pose proof (py_min_le_r (weighted_factors vc sq pm ah prediction) 1.0).
    lra.
  - intros ? ? ? ? ?. rewrite Hf. apply py_min_glb; [|lra].
    unfold weighted_factors.
    assert (0 <= py_min (vc / 80.0) 1.0)
      by (apply py_min_glb; [apply div_nonneg|]; lra).
    assert (0 <= py_min (pm / 1000.0) 1.0)
      by (apply py_min_glb; [apply div_nonneg|]; lra).
    assert (0 <= py_min (ah / 100.0) 1.0)
      by (apply py_min_glb; [apply div_nonneg|]; lra).
    assert (0 <= py_min (prediction / (ah * 5)) 1.0)
      by (apply py_min_glb; [apply div_nonneg|]; lra).
    lra.
Qed.

(** One hectare at the defaults with a prediction of 3 tonnes: 0.6559. *)
Lemma feasibility_capped_above_witness :
  exists f,
    _calculate_feasibility Examples.one_hectare_features 3 [] = (Ret f, [])
    /\ f == 0.655875 /\ f <= 1 /\ 0 <= f.
Proof.
  assert (Hne : ~ 1 == 0) by (intros H; discriminate H).
  destruct (feasibility_capped_above Examples.one_hectare_features 3
              75.0 0.7 800.0 1 [] eq_refl eq_refl eq_refl eq_refl Hne)
    as (f & Hrun & Hf & Hle & Hge).
  exists f. split; [exact Hrun|]. split; [|split; [exact Hle|]].
  - rewrite Hf. reflexivity.
  - apply Hge; lra.
Defined.

(** C2, as stated, fails: a prediction of -1000 tonnes for one hectare
    gives a feasibility of -39.464125. *)
Lemma feasibility_below_zero :
  exists f,
    _calculate_feasibility Examples.one_hectare_features (-1000) [] = (Ret f, [])
    /\ f == -39.464125
    /\ ~ (0 <= f <= 1).
Proof.
  eexists. split; [vm_compute; reflexivity|]. split; [reflexivity|].
  intros [H _]. revert H. vm_compute. intros H; apply H; reflexivity.
Qed.

(** *** Estimates *)

Section Estimates.

Variable np_std : list Q -> Q.
Variable environment : gmap string Q -> gmap string Q.
Variable now : Z.
Variable isoformat : Z -> string.

Lemma repeat_shift {A} (a : A) n l : repeat a n ++ a :: l = a :: repeat a n ++ l.
Proof. induction n as [|n IH]; cbn; [reflexivity|]. rewrite IH. reflexivity. Qed.

Lemma tree_predictions_run (trees : list (list Q -> Q)) x acc t :
  for_each (fun acc estimator =>
              emit Inference ;;; ret (acc ++ [estimator x])) trees acc t
  = (Ret (acc ++ map (fun tree => tree x) trees),
     repeat Inference (length trees) ++ t).
Proof.
  revert acc t. induction trees as [|tree trees IH]; intros acc t.
  - cbn. rewrite app_nil_r. reflexivity.
  - cbn [for_each]. unfold bind at 1. cbn. rewrite IH.
    rewrite <- app_assoc, repeat_shift. reflexivity.
Qed.

Lemma uncertainty_run self m x t :
  model self = Some m ->
  _estimate_prediction_uncertainty np_std self x t
  = (Ret (uncertainty np_std m x), uncertainty_events m ++ t).
Proof.
  intros Hm. unfold _estimate_prediction_uncertainty, uncertainty,
    uncertainty_events, model_predict, the_model.
  rewrite Hm. destruct m as [p [trees|] imp]; cbn [estimators_ predict].
  - unfold bind at 1. rewrite tree_predictions_run. reflexivity.
  - reflexivity.
Qed.

(** The extraction returns for a naive start date and raises
    [TypeError] for an aware one. *)
Lemma extract_run project t :
  utcoffset (start_date project) = None ->
  _extract_project_features environment now project t
  = (Ret (project_features environment now project), t).
Proof.
  intros Hnaive. unfold _extract_project_features, datetime_sub, naive.
  cbn [utcoffset]. rewrite Hnaive. reflexivity.
Qed.

Lemma extract_aware project offset t :
  utcoffset (start_date project) = Some offset ->
  _extract_project_features environment now project t
  = (Raise "can't subtract offset-naive and offset-aware datetimes", t).
Proof.
  intros Haware. unfold _extract_project_features, datetime_sub, naive.
  cbn [utcoffset]. rewrite Haware. reflexivity.
Qed.

(** A loaded predictor returns an estimate for every project of
    non-zero area whose start date is naive, and the estimate is the
    following one. *)
Lemma estimate_run self m project t :
  is_model_loaded self = true ->
  model self = Some m ->
  ~ area_hectares project == 0 ->
  utcoffset (start_date project) = None ->
  let x := scaler_transform self (feature_vector environment now project) in
  let p := predict m x in
  let sigma := uncertainty np_std m x in
  exists f,
    estimate_co2_capture np_std environment now isoformat self project t
    = (Ret {| annual_co2_tonnes := py_max p 0.0;
              confidence_lower := py_max (p - 1.96 * sigma) 0.0;
              confidence_upper := p + 1.96 * sigma;
              feasibility := f;
              key_factors := _get_feature_importance self;
              recommendation := _generate_recommendation p f;
              analysis_timestamp := isoformat now |},
       uncertainty_events m ++ Inference :: t)
    /\ f == py_min
              (weighted_factors
                 75.0
                 (default 0.7 (environment (location project) !! "soil_quality"%string))
                 (default 800.0 (environment (location project) !! "precipitation"%string))
                 (area_hectares project) p)
              1.0.
Proof.
  intros Hloaded Hm Hne Hnaive x p sigma.
  destruct (feasibility_run (project_features environment now project) p
              75.0
              (default 0.7 (environment (location project) !! "soil_quality"%string))
              (default 800.0 (environment (location project) !! "precipitation"%string))
              (area_hectares project)
              (uncertainty_events m ++ Inference :: t)
              eq_refl eq_refl eq_refl eq_refl Hne) as (f & Hrun & Hf).
  exists f. split; [|exact Hf].
  unfold estimate_co2_capture. rewrite Hloaded. cbn [negb].
  apply try_except_ret.
  rewrite (bind_ret _ _ _ _ _ (extract_run project t Hnaive)).
  rewrite (bind_ret _ _ t (feature_vector environment now project) t eq_refl).
  fold x.
  assert (Hp : model_predict self x t = (Ret p, Inference :: t))
    by (unfold model_predict, the_model; rewrite Hm; reflexivity).
  rewrite (bind_ret _ _ _ _ _ Hp).
  rewrite (bind_ret _ _ _ _ _ (uncertainty_run self m x _ Hm)).
  fold sigma.
  rewrite (bind_ret _ _ _ _ _ Hrun).
  reflexivity.
Qed.

(** The interval of every estimate: the lower bound is
    max(p - 1.96 sigma, 0) and never negative, the upper bound is
    p + 1.96 sigma, and it is at least the point estimate as soon as the
    prediction and sigma are not negative. *)
Lemma confidence_interval_bounds self m project t :
  is_model_loaded self = true ->
  model self = Some m ->
  ~ area_hectares project == 0 ->
  utcoffset (start_date project) = None ->
  let x := scaler_transform self (feature_vector environment now project) in
  let p := predict m x in
  let sigma := uncertainty np_std m x in
  exists e t',
    estimate_co2_capture np_std environment now isoformat self project t
    = (Ret e, t')
    /\ annual_co2_tonnes e = py_max p 0.0
    /\ confidence_lower e = py_max (p - 1.96 * sigma) 0.0
    /\ confidence_upper e = p + 1.96 * sigma
    /\ 0 <= confidence_lower e
    /\ (0 <= p -> 0 <= sigma -> annual_co2_tonnes e <= confidence_upper e).
Proof.
  intros Hloaded Hm Hne Hnaive x p sigma.
  destruct (estimate_run self m project t Hloaded Hm Hne Hnaive)
    as (f & Hrun & _).
  eexists. eexists. split; [exact Hrun|].
  cbn [annual_co2_tonnes confidence_lower confidence_upper].
  fold x. fold p. fold sigma.
  repeat split.
  - pose proof (py_max_ge_r (p - 1.96 * sigma) 0.0). lra.
  - intros Hp Hs. unfold py_max. destruct (Qlt_le_dec p 0.0); lra.
Qed.

(** What a returned estimate tells: the predictor was loaded with a
    model and the start date of the project is naive. *)
Lemma estimate_inv self project t e t' :
  estimate_co2_capture np_std environment now isoformat self project t
  = (Ret e, t') ->
  exists m,
    is_model_loaded self = true
    /\ model self = Some m
    /\ utcoffset (start_date project) = None.
Proof.
  unfold estimate_co2_capture.
  destruct (is_model_loaded self); cbn [negb]; [|discriminate].
  intros Hrun. apply try_except_ret_inv in Hrun as [Hrun|(msg & t1 & _ & Hh)].
  2:{ unfold bind, emit, raise in Hh. discriminate Hh. }
  apply bind_inv in Hrun as (features & t1 & Hextract & Hrun).
  destruct (utcoffset (start_date project)) as [offset|] eqn:Hzone.
  { rewrite (extract_aware project offset t Hzone) in Hextract.
    discriminate Hextract. }
  apply bind_inv in Hrun as (row & t2 & Hrow & Hrun).
  apply bind_inv in Hrun as (p & t3 & Hp & _).
  destruct (model self) as [m|] eqn:Hm.
  2:{ unfold model_predict, the_model in Hp. rewrite Hm in Hp.
      discriminate Hp. }
  exists m. repeat split.
Qed.

(** C10: whenever [_extract_project_features] returns (it does for every
    project whose start date is naive, and raises [TypeError] before it
    builds anything for an aware one), the vegetation-coverage feature is
    the constant 75.0, whatever the provider, the clock and the project,
    and the first entry of the feasibility factors is min(75/80, 1) =
    0.9375; every estimate that [estimate_co2_capture] returns for a
    project of non-zero area has the
    feasibility min(0.25 * 0.9375 + 0.20 * soil quality + 0.20 *
    min(precipitation/1000, 1) + 0.15 * min(area/100, 1) + 0.20 *
    min(prediction/(5 area), 1), 1), with the soil quality and the
    precipitation of the provider and the prediction of the model at the
    scaled feature row; and an estimate is returned by every loaded
    predictor for every project of non-zero area with a naive start
    date. *)
Theorem vegetation_feature_constant (project : ProjectData) (t : trace) :
  (forall features t',
      _extract_project_features environment now project t = (Ret features, t') ->
      features !! "vegetation_coverage"%string = Some 75.0
      /\ forall prediction t'',
           ~ area_hectares project == 0 ->
           exists rest,
             feasibility_factors features prediction t''
             = (Ret (py_min (75.0 / 80.0) 1.0 :: rest), t''))
  /\ (utcoffset (start_date project) = None ->
      exists features,
        _extract_project_features environment now project t = (Ret features, t))
  /\ (forall offset,
        utcoffset (start_date project) = Some offset ->
        _extract_project_features environment now project t
        = (Raise "can't subtract offset-naive and offset-aware datetimes", t))
  /\ py_min (75.0 / 80.0) 1.0 == 0.9375
  /\ (forall self e t',
        ~ area_hectares project == 0 ->
        estimate_co2_capture np_std environment now isoformat self project t
        = (Ret e, t') ->
        exists m,
          model self = Some m
          /\ feasibility e
             == py_min
                  (0.25 * 0.9375
                   + 0.20 * default 0.7
                              (environment (location project)
                                 !! "soil_quality"%string)
                   + 0.20 * py_min
                              (default 800.0
                                 (environment (location project)
                                    !! "precipitation"%string) / 1000.0) 1.0
                   + 0.15 * py_min (area_hectares project / 100.0) 1.0
                   + 0.20 * py_min
                              (predict m
                                 (scaler_transform self
                                    (feature_vector environment now project))
                               / (area_hectares project * 5)) 1.0)
                  1.0)
  /\ (forall self m,
        is_model_loaded self = true ->
        model self = Some m ->
        ~ area_hectares project == 0 ->
        utcoffset (start_date project) = None ->
        exists e t',
          estimate_co2_capture np_std environment now isoformat self project t
          = (Ret e, t')).
Proof.
  split; [|split; [|split; [|split; [|split]]]].
  - intros features t' Hextract.
    destruct (utcoffset (start_date project)) as [offset|] eqn:Hzone.
    { rewrite (extract_aware project offset t Hzone) in Hextract.
      discriminate Hextract. }
    rewrite (extract_run project t Hzone) in Hextract.
    injection Hextract as <- <-.
    split; [reflexivity|].
    intros prediction t'' Hne. eexists.
    apply (feasibility_factors_run
             (project_features environment now project) prediction
             75.0
             (default 0.7 (environment (location project) !! "soil_quality"%string))
             (default 800.0 (environment (location project) !! "precipitation"%string))
             (area_hectares project) t'' eq_refl eq_refl eq_refl eq_refl Hne).
  - intros Hnaive. eexists. apply extract_run. exact Hnaive.
  - intros offset Haware. apply (extract_aware project offset t Haware).
  - reflexivity.
  - intros self e t' Hne Hrun.
    destruct (estimate_inv self project t e t' Hrun)
      as (m & Hloaded & Hm & Hnaive).
    destruct (estimate_run self m project t Hloaded Hm Hne Hnaive)
      as (f & Hrun' & Hf).
    rewrite Hrun in Hrun'. injection Hrun' as -> _.
    exists m. split; [exact Hm|].
    cbn [feasibility]. rewrite Hf.
    apply py_min_compat; [|reflexivity].
    unfold weighted_factors.
    assert (E : py_min (75.0 / 80.0) 1.0 == 0.9375) by reflexivity.
    revert E. generalize (py_min (75.0 / 80.0) 1.0). intros v E. lra.
  - intros self m Hloaded Hm Hne Hnaive.
    destruct (estimate_run self m project t Hloaded Hm Hne Hnaive)
      as (f & Hrun & _).
    eexists. eexists. exact Hrun.
Qed.

End Estimates.

(** The example project, whose start date is naive: the feature is 75.0,
    and the forest that answers 164.0625 tonnes gives the feasibility
    0.25 * 0.9375 + 0.20 * 0.7 + 0.20 * 0.8 + 0.15 * 1 + 0.20 * 0.328125
    = 0.75; the same project with a start date in UTC is refused. *)
Lemma vegetation_feature_constant_witness :
  (exists features,
      _extract_project_features Examples.no_environment Examples.clock
                                Examples.project [] = (Ret features, [])
      /\ features !! "vegetation_coverage"%string = Some 75.0)
  /\ (exists e t',
        estimate_co2_capture Examples.no_spread Examples.no_environment
          Examples.clock Examples.iso_text (Examples.predictor 164.0625)
          Examples.project [] = (Ret e, t')
        /\ feasibility e == 0.75)
  /\ _extract_project_features Examples.no_environment Examples.clock
       Examples.aware_project []
     = (Raise "can't subtract offset-naive and offset-aware datetimes", []).
Proof.
  destruct (vegetation_feature_constant Examples.no_spread
              Examples.no_environment Examples.clock Examples.iso_text
              Examples.project []) as (H1 & H2 & _ & _ & H5 & H6).
  destruct (vegetation_feature_constant Examples.no_spread
              Examples.no_environment Examples.clock Examples.iso_text
              Examples.aware_project []) as (_ & _ & H3 & _).
  split; [|split].
  - destruct (H2 eq_refl) as (features & Hrun).
    exists features. split; [exact Hrun|].
    apply (H1 features [] Hrun).
  - destruct (H6 (Examples.predictor 164.0625)
                 (Examples.constant_regressor 164.0625)
                 eq_refl eq_refl ltac:(intros H; discriminate H) eq_refl)
      as (e & t' & Hrun).
    exists e, t'. split; [exact Hrun|].
    destruct (H5 _ _ _ ltac:(intros H; discriminate H) Hrun) as (m & Hm & Hf).
    injection Hm as <-. rewrite Hf. reflexivity.
  - apply (H3 0%Z). reflexivity.
Defined.

(** C4, at a regressor that answers -10 tonnes and exposes no trees
    (sigma falls back to 0.1 * 10 = 1): the point estimate and the lower
    bound are floored at 0, the upper bound is -10 + 1.96 = -8.04, below
    the point estimate. *)
Theorem interval_upper_below_estimate :
  exists e t,
    estimate_co2_capture Examples.no_spread Examples.no_environment
      Examples.clock Examples.iso_text (Examples.predictor (-10))
      Examples.project [] = (Ret e, t)
    /\ annual_co2_tonnes e == 0
    /\ confidence_lower e == 0
    /\ confidence_upper e == -8.04
    /\ ~ (annual_co2_tonnes e <= confidence_upper e).
Proof.
  eexists. eexists. split; [vm_compute; reflexivity|].
  cbn [annual_co2_tonnes confidence_lower confidence_upper].
  repeat split. intros H. vm_compute in H. apply H. reflexivity.
Qed.

End CarbonPredictorSpec.

Module SatelliteAnalyzerSpec.
Import SatelliteAnalyzer.

(** *** The CO2 potential *)

Lemma fold_plus_shift xs a : fold_left Qplus xs a == a + py_sum xs.
Proof.
  revert a. induction xs as [|x xs IH] using rev_ind; intros a.
  - unfold py_sum. cbn. ring.
  - rewrite py_sum_snoc, fold_left_app. cbn [fold_left]. rewrite IH. ring.
Qed.

Lemma py_sum_cons x xs : py_sum (x :: xs) == x + py_sum xs.
Proof. unfold py_sum at 1. cbn [fold_left]. rewrite fold_plus_shift. ring. Qed.

Lemma py_sum_app xs ys : py_sum (xs ++ ys) == py_sum xs + py_sum ys.
Proof.
  unfold py_sum at 1. rewrite fold_left_app, fold_plus_shift.
  reflexivity.
Qed.

(** The inner loop adds the contributions and the masses of one image. *)
Lemma accumulate_items items acc :
  fst (fold_left accumulate items acc)
    == fst acc + py_sum (map contribution items)
  /\ snd (fold_left accumulate items acc)
    == snd acc + py_sum (map mass items).
Proof.
  revert acc. induction items as [|item items IH]; intros acc.
  - unfold py_sum. cbn. split; ring.
  - cbn [fold_left map]. destruct (IH (accumulate acc item)) as [IH1 IH2].
    rewrite IH1, IH2, !py_sum_cons.
    unfold accumulate, contribution, mass.
    destruct (conversion_factors !! fst item); cbn [fst snd]; split; ring.
Qed.

(** The outer loop adds them over all images. *)
Lemma accumulate_results results acc :
  let totals :=
    fold_left (fun acc result =>
                 fold_left accumulate (class_probabilities result) acc)
              results acc in
  fst totals == fst acc + weighted_sum results
  /\ snd totals == snd acc + probability_mass results.
Proof.
  revert acc. unfold weighted_sum, probability_mass, all_probabilities.
  induction results as [|r results IH]; intros acc.
  - unfold py_sum. cbn. split; ring.
  - cbn [fold_left map concat].
    destruct (IH (fold_left accumulate (class_probabilities r) acc))
      as [IH1 IH2].
    destruct (accumulate_items (class_probabilities r) acc) as [H1 H2].
    cbv zeta in IH1, IH2 |- *.
    rewrite IH1, IH2, H1, H2, !map_app, !py_sum_app. split; ring.
Qed.

(** C5: the potential is area times the coverage fraction times the
    probability-weighted conversion factor, floored at 0: the sum over
    all images and classes of factor * P(class), divided by the total
    probability mass (0 when there is no mass), with the table forest 10,
    dense 6, moderate 3, sparse 1, none 0, reforestation 8,
    deforestation -5; one image that is 100% forest over a fully covered
    10-hectare area gives 100 tonnes a year. *)
Theorem co2_potential_formula (area coverage : Q) (results : list analysis) :
  (0 < probability_mass results ->
     _calculate_co2_potential area coverage results
     == py_max (area * (coverage / 100)
                * (weighted_sum results / probability_mass results)) 0)
  /\ (probability_mass results <= 0 ->
        _calculate_co2_potential area coverage results == 0)
  /\ (conversion_factors !! "forest"%string = Some 10.0
      /\ conversion_factors !! "dense_vegetation"%string = Some 6.0
      /\ conversion_factors !! "moderate_vegetation"%string = Some 3.0
      /\ conversion_factors !! "sparse_vegetation"%string = Some 1.0
      /\ conversion_factors !! "no_vegetation"%string = Some 0.0
      /\ conversion_factors !! "reforestation"%string = Some 8.0
      /\ conversion_factors !! "deforestation"%string = Some (-5.0))
  /\ _calculate_co2_potential 10 100
       [Examples.classified Examples.forest_scores 100] == 100.
Proof.
  split; [|split; [|split]].
  - intros Hm. unfold _calculate_co2_potential.
    destruct (accumulate_results results (0.0, 0.0)) as [H1 H2].
    cbv zeta in H1, H2. cbn [fst snd] in H1, H2.
    set (totals := fold_left _ results _) in *.
    assert (E1 : fst totals == weighted_sum results) by (rewrite H1; ring).
    assert (E2 : snd totals == probability_mass results) by (rewrite H2; ring).
    unfold gtb. destruct (Qlt_le_dec 0 (snd totals)) as [_|Hle]; [|lra].
    apply py_max_compat; [|reflexivity].
    rewrite E1, E2. field. lra.
  - intros Hm. unfold _calculate_co2_potential.
    destruct (accumulate_results results (0.0, 0.0)) as [_ H2].
    cbv zeta in H2. cbn [fst snd] in H2.
    set (totals := fold_left _ results _) in *.
    assert (E2 : snd totals == probability_mass results) by (rewrite H2; ring).
    unfold gtb. destruct (Qlt_le_dec 0 (snd totals)) as [Hlt|_]; [lra|].
    unfold py_max.
    destruct (Qlt_le_dec (area * 0.0 * (coverage / 100.0)) 0.0); [reflexivity|].
    ring_simplify. reflexivity.
  - repeat split.
  - reflexivity.
Qed.

(** One forest image gives 100 tonnes; an image that is half forest and
    half deforestation gives (10 - 5) / 2 per hectare, 25 tonnes; an image
    that is all deforestation is floored at 0. *)
Lemma co2_potential_formula_witness :
  _calculate_co2_potential 10 100
    [Examples.classified Examples.forest_scores 100] == 100
  /\ _calculate_co2_potential 10 100
       [Examples.classified Examples.cleared_scores 100]
     == py_max (10 * (100 / 100) * ((10.0 * 0.5 + -5.0 * 0.5) / 1)) 0
  /\ _calculate_co2_potential 10 100 [] == 0.
Proof.
  destruct (co2_potential_formula 10 100
              [Examples.classified Examples.cleared_scores 100])
    as (Hpos & _ & _ & Hforest).
  destruct (co2_potential_formula 10 100 []) as (_ & Hzero & _).
  split; [exact Hforest|]. split.
  - rewrite Hpos by reflexivity. reflexivity.
  - apply Hzero. discriminate.
Defined.

(** *** The vegetation coverage *)

Section Coverage.

Variable cv2_cvtColor : list nat -> list Q -> string + list pixel.

Lemma vegetation_fraction_bounds (pixels : list pixel) :
  pixels <> [] ->
  0 <= vegetation_fraction pixels <= 1.
Proof.
  intros Hne. unfold vegetation_fraction.
  assert (Hlen : (0 < length pixels)%nat)
    by (destruct pixels; [contradiction|cbn; lia]).
  pose proof (List.filter_length_le ndvi_above pixels) as Hle.
  set (v := length (List.filter ndvi_above pixels)) in *.
  set (n := length pixels) in *.
  assert (Hn : 0 < inject_Z (Z.of_nat n))
    by (rewrite <- (Zlt_Qlt 0); lia).
  assert (Hv0 : 0 <= inject_Z (Z.of_nat v))
    by (rewrite <- (Zle_Qle 0); lia).
  assert (Hvn : inject_Z (Z.of_nat v) <= inject_Z (Z.of_nat n))
    by (rewrite <- Zle_Qle; lia).
  split.
  - apply Qle_shift_div_l; [exact Hn|]. lra.
  - apply Qle_shift_div_r; [exact Hn|]. lra.
Qed.

Lemma coverage_run image_data pixels t :
  to_rgb cv2_cvtColor image_data = inr pixels ->
  pixels <> [] ->
  _calculate_vegetation_coverage cv2_cvtColor image_data t
  = (Ret (py_min (vegetation_fraction pixels * 100) 100.0), t).
Proof.
  intros Hrgb Hne. unfold _calculate_vegetation_coverage.
  apply try_except_ret. rewrite Hrgb. cbn [lift].
  rewrite (bind_ret _ _ t pixels t eq_refl).
  assert (Hn : ~ inject_Z (Z.of_nat (length pixels)) == 0).
  { destruct pixels; [contradiction|]. cbn [length].
    intros H. unfold Qeq in H. cbn [Qnum Qden inject_Z] in H. lia. }
  rewrite (bind_ret _ _ _ _ _ (np_div_nonzero _ _ t Hn)).
  reflexivity.
Qed.

(** A conversion that OpenCV rejects is caught: the coverage is 0.0. *)
Lemma coverage_of_rejected_image image_data msg t :
  to_rgb cv2_cvtColor image_data = inl msg ->
  _calculate_vegetation_coverage cv2_cvtColor image_data t
  = (Ret 0.0,
     LogError ("Vegetation coverage calculation failed: " ++ msg) :: t).
Proof.
  intros Hrgb. unfold _calculate_vegetation_coverage.
  rewrite (try_except_raise _ _ t msg t).
  - reflexivity.
  - rewrite Hrgb. reflexivity.
Qed.

(** A tensor without pixels: the fraction is 0/0, which is not a number
    and which the handler does not catch. *)
Lemma coverage_of_empty_image t :
  _calculate_vegetation_coverage cv2_cvtColor (Image3 []) t = (NonFinite, t).
Proof. reflexivity. Qed.

(** A tensor with at least one pixel in its three-channel view: the
    coverage is the share of the pixels whose index exceeds 0.2, times
    100 and capped at 100 (0.0 when the colour conversion is rejected),
    and it lies in [0, 100]. *)
Lemma coverage_with_pixels (image_data : image) (t : trace) :
  (forall pixels, to_rgb cv2_cvtColor image_data = inr pixels -> pixels <> []) ->
  exists c t',
    _calculate_vegetation_coverage cv2_cvtColor image_data t = (Ret c, t')
    /\ 0 <= c <= 100
    /\ (forall pixels,
          to_rgb cv2_cvtColor image_data = inr pixels ->
          c = py_min (vegetation_fraction pixels * 100) 100.0).
Proof.
  intros Hpixels.
  destruct (to_rgb cv2_cvtColor image_data) as [msg|pixels] eqn:Hrgb.
  - eexists. eexists. split; [apply coverage_of_rejected_image; exact Hrgb|].
    split; [split; discriminate|]. intros pixels H. discriminate H.
  - specialize (Hpixels pixels eq_refl).
    eexists. eexists. split; [apply (coverage_run _ pixels); assumption|].
    destruct (vegetation_fraction_bounds pixels Hpixels) as [H0 H1].
    split.
    + split.
      * apply py_min_glb; lra.
      * pose proof (py_min_le_r (vegetation_fraction pixels * 100) 100.0).
        lra.
    + intros pixels' H. injection H as <-. reflexivity.
Qed.

End Coverage.

(** *** The coverage of a classification *)

Section Classification.

Variable cv2_resize : image -> string + image.
Variable cv2_cvtColor : list nat -> list Q -> string + list pixel.
Variable now : Z.
Variable isoformat : Z -> string.

(** [cv2.resize] rejects a tensor that has no pixels, so a tensor that
    passes preprocessing keeps at least one pixel in its three-channel
    view. *)
Hypothesis resize_rejects_empty :
  forall image_data resized pixels,
    cv2_resize image_data = inr resized ->
    to_rgb cv2_cvtColor image_data = inr pixels ->
    pixels <> [].

Lemma preprocess_inv image_data batch t t' :
  preprocess_image cv2_resize image_data t = (Ret batch, t') ->
  exists resized, cv2_resize image_data = inr resized.
Proof.
  unfold preprocess_image, try_except, bind, lift.
  destruct (cv2_resize image_data) as [msg|resized]; cbn.
  - discriminate.
  - intros _. exists resized. reflexivity.
Qed.

(** Every classification that [analyze_single_image] returns carries a
    coverage within [0, 100]. *)
Lemma analysis_coverage_in_range self image_data t result t' :
  analyze_single_image cv2_resize cv2_cvtColor now isoformat self
                       image_data t = (Ret result, t') ->
  0 <= vegetation_coverage_percent result <= 100.
Proof.
  unfold analyze_single_image.
  destruct (is_model_loaded self); cbn [negb]; [|discriminate].
  intros Hrun. apply try_except_ret_inv in Hrun as [Hrun|(msg & t1 & _ & Hh)].
  2:{ unfold bind, emit, raise in Hh. discriminate Hh. }
  apply bind_inv in Hrun as (batch & t1 & Hpre & Hrun).
  apply bind_inv in Hrun as (prediction & t2 & _ & Hrun).
  apply bind_inv in Hrun as (scores & t3 & _ & Hrun).
  apply bind_inv in Hrun as (idx & t4 & _ & Hrun).
  apply bind_inv in Hrun as (cls & t5 & _ & Hrun).
  apply bind_inv in Hrun as (conf & t6 & _ & Hrun).
  apply bind_inv in Hrun as (coverage & t7 & Hcov & Hrun).
  apply bind_inv in Hrun as (change & t8 & _ & Hrun).
  unfold ret in Hrun. injection Hrun as <- _.
  cbn [vegetation_coverage_percent].
  destruct (preprocess_inv _ _ _ _ Hpre) as (resized & Hresized).
  destruct (to_rgb cv2_cvtColor image_data) as [msg|pixels] eqn:Hrgb.
  - rewrite (coverage_of_rejected_image _ _ msg t6 Hrgb) in Hcov.
    injection Hcov as <- _. split; discriminate.
  - pose proof (resize_rejects_empty _ _ _ Hresized Hrgb) as Hne.
    rewrite (coverage_run _ _ pixels t6 Hrgb Hne) in Hcov.
    injection Hcov as <- _.
    destruct (vegetation_fraction_bounds pixels Hne) as [H0 H1].
    pose proof (py_min_le_r (vegetation_fraction pixels * 100) 100.0).
    split; [apply py_min_glb|]; lra.
Qed.

(** C6: the coverage is computed on the raw image of a classification,
    after [preprocess_image] has accepted it, so on a tensor with at
    least one pixel.  For every image tensor, the coverage of every
    classification that [analyze_single_image] returns lies in [0, 100]:
    it is the share of the pixels whose index (green - red) / (green +
    red + epsilon) exceeds 0.2, times 100 and capped at 100, and 0.0
    when the colour conversion of the tensor is rejected.  The same holds
    of the computation alone on every tensor that has a pixel. *)
Theorem coverage_in_range (self : t) (image_data : image) (t : trace) :
  (forall result t',
      analyze_single_image cv2_resize cv2_cvtColor now isoformat self
                           image_data t = (Ret result, t') ->
      0 <= vegetation_coverage_percent result <= 100
      /\ (forall pixels,
            to_rgb cv2_cvtColor image_data = inr pixels ->
            pixels <> []
            /\ vegetation_coverage_percent result
               = py_min (vegetation_fraction pixels * 100) 100.0)
      /\ (forall msg,
            to_rgb cv2_cvtColor image_data = inl msg ->
            vegetation_coverage_percent result = 0.0))
  /\ ((forall pixels,
         to_rgb cv2_cvtColor image_data = inr pixels -> pixels <> []) ->
      exists c t',
        _calculate_vegetation_coverage cv2_cvtColor image_data t = (Ret c, t')
        /\ 0 <= c <= 100
        /\ (forall pixels,
              to_rgb cv2_cvtColor image_data = inr pixels ->
              c = py_min (vegetation_fraction pixels * 100) 100.0))
  /\ (forall pixels,
        vegetation_fraction pixels
        = inject_Z (Z.of_nat (length (List.filter ndvi_above pixels)))
          / inject_Z (Z.of_nat (length pixels)))
  /\ (forall p,
        ~ green p + red p + 1e-8 == 0 ->
        ndvi_above p = gtb ((green p - red p) / (green p + red p + 1e-8)) 0.2).
Proof.
  split; [|split; [|split]].
  - intros result t' Hrun.
    split; [exact (analysis_coverage_in_range self image_data t result t' Hrun)|].
    revert Hrun. unfold analyze_single_image.
    destruct (is_model_loaded self); cbn [negb]; [|discriminate].
    intros Hrun.
    apply try_except_ret_inv in Hrun as [Hrun|(msg & t1 & _ & Hh)].
    2:{ unfold bind, emit, raise in Hh. discriminate Hh. }
    apply bind_inv in Hrun as (batch & t1 & Hpre & Hrun).
    apply bind_inv in Hrun as (prediction & t2 & _ & Hrun).
    apply bind_inv in Hrun as (scores & t3 & _ & Hrun).
    apply bind_inv in Hrun as (idx & t4 & _ & Hrun).
    apply bind_inv in Hrun as (cls & t5 & _ & Hrun).
    apply bind_inv in Hrun as (conf & t6 & _ & Hrun).
    apply bind_inv in Hrun as (coverage & t7 & Hcov & Hrun).
    apply bind_inv in Hrun as (change & t8 & _ & Hrun).
    unfold ret in Hrun. injection Hrun as <- _.
    cbn [vegetation_coverage_percent].
    destruct (preprocess_inv _ _ _ _ Hpre) as (resized & Hresized).
    split.
    + intros pixels Hrgb.
      pose proof (resize_rejects_empty _ _ _ Hresized Hrgb) as Hne.
      rewrite (coverage_run _ _ pixels t6 Hrgb Hne) in Hcov.
      injection Hcov as <- _. split; [exact Hne|reflexivity].
    + intros msg Hrgb.
      rewrite (coverage_of_rejected_image _ _ msg t6 Hrgb) in Hcov.
      injection Hcov as <- _. reflexivity.
  - apply coverage_with_pixels.
  - reflexivity.
  - intros p Hne. unfold ndvi_above.
    destruct (Qeq_bool (green p + red p + 1e-8) 0) eqn:E; [|reflexivity].
    apply Qeq_bool_iff in E. contradiction.
Qed.

End Classification.

(** The resize of the examples rejects the tensors without pixels. *)
Lemma example_resize_rejects_empty image_data resized pixels :
  Examples.resize image_data = inr resized ->
  to_rgb Examples.cvt_color image_data = inr pixels ->
  pixels <> [].
Proof.
  destruct image_data as [[|p ps]|shape data]; cbn; try discriminate.
  intros _ H. injection H as <-. discriminate.
Qed.

(** Eight vegetated pixels out of twenty: the classification reports 40
    percent, and so does the computation alone; a tensor without pixels
    is refused by the preprocessing. *)
Lemma coverage_in_range_witness :
  (exists result t',
      analyze_single_image Examples.resize Examples.cvt_color Examples.clock
        Examples.iso_text (Examples.analyzer Examples.confident_scores)
        (Examples.field_image 8 12) [] = (Ret result, t')
      /\ 0 <= vegetation_coverage_percent result <= 100
      /\ vegetation_coverage_percent result == 40)
  /\ (exists c t',
         _calculate_vegetation_coverage Examples.cvt_color
           (Examples.field_image 8 12) [] = (Ret c, t')
         /\ 0 <= c <= 100 /\ c == 40)
  /\ exists msg t',
       analyze_single_image Examples.resize Examples.cvt_color Examples.clock
         Examples.iso_text (Examples.analyzer Examples.confident_scores)
         (Image3 []) [] = (Raise msg, t').
Proof.
  destruct (coverage_in_range Examples.resize Examples.cvt_color
              Examples.clock Examples.iso_text example_resize_rejects_empty
              (Examples.analyzer Examples.confident_scores)
              (Examples.field_image 8 12) []) as (Hrun & Halone & _).
  split; [|split].
  - eexists. eexists. split; [vm_compute; reflexivity|].
    edestruct Hrun as (Hrange & Hshare & _); [vm_compute; reflexivity|].
    split; [exact Hrange|].
    destruct (Hshare _ eq_refl) as [_ ->]. reflexivity.
  - destruct Halone as (c & t' & Hc & Hrange & Hshare).
    + intros pixels H. injection H as <-. discriminate.
    + exists c, t'. split; [exact Hc|]. split; [exact Hrange|].
      rewrite (Hshare _ eq_refl). reflexivity.
  - eexists. eexists. vm_compute. reflexivity.
Defined.

(** *** The vegetation trend *)

Lemma trend_type_cases (slope : Q) :
  (trend_type slope = "increasing"%string <-> 1 < slope)
  /\ (trend_type slope = "decreasing"%string <-> slope < -1)
  /\ (trend_type slope = "stable"%string <-> -1 <= slope <= 1).
Proof.
  unfold trend_type, gtb, ltb.
  destruct (Qlt_le_dec 1.0 slope) as [H1|H1];
    [|destruct (Qlt_le_dec slope (-1.0)) as [H2|H2]];
    repeat split; intros;
    first [reflexivity | congruence | lra | (exfalso; lra)].
Qed.

Lemma trend_type_compat a b : a == b -> trend_type a = trend_type b.
Proof.
  intros E. unfold trend_type, gtb, ltb.
  destruct (Qlt_le_dec 1.0 a), (Qlt_le_dec 1.0 b); try lra; try reflexivity.
  destruct (Qlt_le_dec a (-1.0)), (Qlt_le_dec b (-1.0)); try lra; reflexivity.
Qed.

(** Two datetimes of one kind are subtracted on the clock of [instant]. *)
Lemma datetime_sub_same (a b : datetime) :
  aware a = aware b ->
  datetime_sub a b = inr (instant a - instant b)%Z.
Proof.
  unfold aware, datetime_sub, instant.
  destruct (utcoffset a), (utcoffset b); intros H; try discriminate H;
    cbn [default from_option id]; f_equal; lia.
Qed.

Lemma datetime_sub_mixed (a b : datetime) :
  aware a <> aware b ->
  datetime_sub a b
  = inl "can't subtract offset-naive and offset-aware datetimes"%string.
Proof.
  unfold aware, datetime_sub.
  destruct (utcoffset a), (utcoffset b); intros H;
    first [reflexivity | contradiction H; reflexivity].
Qed.

Lemma dates_run (rs : list analysis) (dates acc : list datetime) t :
  map date rs = map Some dates ->
  for_each (fun acc r =>
              match date r with
              | Some d => ret (acc ++ [d])
              | None => raise "'date'"
              end) rs acc t
  = (Ret (acc ++ dates), t).
Proof.
  revert dates acc. induction rs as [|r rs IH]; intros dates acc Hd.
  - destruct dates; [|discriminate]. cbn. rewrite app_nil_r. reflexivity.
  - destruct dates as [|d dates]; [discriminate|].
    cbn [map] in Hd. injection Hd as Hr Hrs.
    cbn [for_each]. unfold bind at 1. rewrite Hr. cbn.
    rewrite (IH dates (acc ++ [d]) Hrs), <- app_assoc. reflexivity.
Qed.

(** The comprehension [(d - dates[0]).days for d in dates] over dates of
    the kind of the first one. *)
Lemma elapsed_run (all dates : list datetime) (d0 : datetime)
  (acc : list Z) t :
  all !! 0%nat = Some d0 ->
  Forall (fun d => aware d = aware d0) dates ->
  for_each (fun acc d =>
              first_date <- list_item all 0 ;;
              elapsed <- checked (datetime_sub d first_date) ;;
              ret (acc ++ [(elapsed / microseconds_per_day)%Z]))
           dates acc t
  = (Ret (acc ++ map (fun d => timedelta_days (instant d) (instant d0)) dates),
     t).
Proof.
  intros Hfirst. revert acc.
  induction dates as [|d dates IH]; intros acc Hkind.
  - cbn. rewrite app_nil_r. reflexivity.
  - apply Forall_cons in Hkind as [Hd Hkind].
    cbn [for_each map].
    assert (Hstep :
      (first_date <- list_item all 0 ;;
       elapsed <- checked (datetime_sub d first_date) ;;
       ret (acc ++ [(elapsed / microseconds_per_day)%Z])) t
      = (Ret (acc ++ [timedelta_days (instant d) (instant d0)]), t)).
    { unfold bind, list_item. rewrite Hfirst. unfold ret at 1.
      rewrite (datetime_sub_same d d0 Hd). reflexivity. }
    rewrite (bind_ret _ _ _ _ _ Hstep).
    rewrite (IH _ Hkind), <- app_assoc. reflexivity.
Qed.

(** The comprehension stops with [TypeError] at the first date that is
    not of the kind of the first one. *)
Lemma elapsed_mixed (all before after : list datetime) (d0 d : datetime)
  (acc : list Z) t :
  all !! 0%nat = Some d0 ->
  Forall (fun d => aware d = aware d0) before ->
  aware d <> aware d0 ->
  for_each (fun acc d =>
              first_date <- list_item all 0 ;;
              elapsed <- checked (datetime_sub d first_date) ;;
              ret (acc ++ [(elapsed / microseconds_per_day)%Z]))
           (before ++ d :: after) acc t
  = (Raise "can't subtract offset-naive and offset-aware datetimes", t).
Proof.
  intros Hfirst Hkind Hd. revert acc.
  induction before as [|b before IH]; intros acc.
  - cbn [app for_each]. apply bind_raise.
    unfold bind, list_item. rewrite Hfirst. unfold ret at 1.
    rewrite (datetime_sub_mixed d d0 Hd). reflexivity.
  - apply Forall_cons in Hkind as [Hb Hkind].
    cbn [app for_each].
    assert (Hstep :
      (first_date <- list_item all 0 ;;
       elapsed <- checked (datetime_sub b first_date) ;;
       ret (acc ++ [(elapsed / microseconds_per_day)%Z])) t
      = (Ret (acc ++ [timedelta_days (instant b) (instant d0)]), t)).
    { unfold bind, list_item. rewrite Hfirst. unfold ret at 1.
      rewrite (datetime_sub_same b d0 Hb). reflexivity. }
    rewrite (bind_ret _ _ _ _ _ Hstep).
    apply (IH Hkind).
Qed.

Section TrendSpec.

Variable rounding : list Q -> list Q -> Q.

Lemma polyfit_run (xs ys : list Q) t :
  length xs = length ys ->
  xs <> [] ->
  ~ inject_Z (Z.of_nat (length xs)) * py_sum (map (fun x => x * x) xs)
    - py_sum xs * py_sum xs == 0 ->
  exists intercept,
    np_polyfit1 rounding xs ys t
    = (Ret (fitted_slope rounding xs ys, intercept), t).
Proof.
  intros Hlen Hne Hden. unfold np_polyfit1.
  rewrite Hlen, Nat.eqb_refl. cbn [negb].
  destruct (Nat.eqb (length ys) 0) eqn:E.
  - apply Nat.eqb_eq in E. destruct xs; [contradiction|].
    cbn in Hlen. lia.
  - rewrite <- Hlen.
    destruct (Qeq_bool _ 0) eqn:Hzero.
    + apply Qeq_bool_iff in Hzero. contradiction.
    + eexists. reflexivity.
Qed.

Lemma squares_of_zeros (xs : list Q) :
  Forall (fun x => x == 0) xs ->
  py_sum xs == 0 /\ py_sum (map (fun x => x * x) xs) == 0.
Proof.
  induction 1 as [|x xs Hx _ [IH1 IH2]].
  - split; reflexivity.
  - cbn [map]. rewrite !py_sum_cons, IH1, IH2, Hx. split; ring.
Qed.

(** Abscissas that are all 0: the solver does not converge. *)
Lemma polyfit_zeros (xs ys : list Q) t :
  length xs = length ys ->
  xs <> [] ->
  Forall (fun x => x == 0) xs ->
  np_polyfit1 rounding xs ys t
  = (Raise "SVD did not converge in Linear Least Squares", t).
Proof.
  intros Hlen Hne Hzeros. unfold np_polyfit1.
  rewrite Hlen, Nat.eqb_refl. cbn [negb].
  destruct (Nat.eqb (length ys) 0) eqn:E.
  - apply Nat.eqb_eq in E. destruct xs; [contradiction|].
    cbn in Hlen. lia.
  - destruct (squares_of_zeros xs Hzeros) as [Hs Hss].
    assert (H1 : Qeq_bool (inject_Z (Z.of_nat (length ys))
                           * py_sum (map (fun x => x * x) xs)
                           - py_sum xs * py_sum xs) 0 = true).
    { apply Qeq_bool_iff. rewrite Hs, Hss. ring. }
    assert (H2 : Qeq_bool (py_sum (map (fun x => x * x) xs)) 0 = true).
    { apply Qeq_bool_iff. exact Hss. }
    rewrite H1, H2. reflexivity.
Qed.

(** The trend of at least two dated samples of one kind whose days do
    not all coincide. *)
Lemma trend_run (rs : list analysis) (dates : list datetime) (kind : bool) t :
  (2 <= length rs)%nat ->
  map date rs = map Some dates ->
  Forall (fun d => aware d = kind) dates ->
  let xs := elapsed_days dates in
  let ys := map vegetation_coverage_percent rs in
  ~ inject_Z (Z.of_nat (length xs)) * py_sum (map (fun x => x * x) xs)
    - py_sum xs * py_sum xs == 0 ->
  _calculate_vegetation_trend rounding rs t
  = (Ret (TrendFull (trend_type (fitted_slope rounding xs ys))
                    (fitted_slope rounding xs ys)
                    (nth 0 ys 0) (List.last ys 0)
                    (List.last ys 0 - nth 0 ys 0)), t).
Proof.
  intros Hlen Hdates Hkind xs ys Hden.
  assert (Hl : length dates = length rs).
  { rewrite <- (length_map Some dates), <- Hdates, length_map. reflexivity. }
  unfold _calculate_vegetation_trend.
  destruct (length rs <? 2)%nat eqn:E; [apply Nat.ltb_lt in E; lia|].
  rewrite (bind_ret _ _ _ _ _ (dates_run rs dates [] t Hdates)).
  cbn [app].
  destruct dates as [|d0 dates']; [cbn in Hl; lia|].
  assert (Hkind0 : Forall (fun d => aware d = aware d0) (d0 :: dates')).
  { pose proof Hkind as Hall. apply Forall_cons in Hall as [H0 _].
    eapply Forall_impl; [exact Hkind|]. cbn. intros d ->.
    symmetry. exact H0. }
  rewrite (bind_ret _ _ _ _ _
             (elapsed_run (d0 :: dates') (d0 :: dates') d0 [] t eq_refl Hkind0)).
  cbn [app]. rewrite map_map.
  change (map (fun x => inject_Z (timedelta_days (instant x) (instant d0)))
              (d0 :: dates'))
    with xs.
  fold ys.
  destruct (polyfit_run xs ys t) as (icpt & Hfit).
  - subst xs ys. unfold elapsed_days. rewrite !length_map. exact Hl.
  - subst xs. discriminate.
  - exact Hden.
  - rewrite (bind_ret _ _ _ _ _ Hfit). reflexivity.
Qed.

(** At least two dated samples of one kind that all fall on the day of
    the first one: the fit raises. *)
Lemma trend_same_day (rs : list analysis) (dates : list datetime)
  (kind : bool) t :
  (2 <= length rs)%nat ->
  map date rs = map Some dates ->
  Forall (fun d => aware d = kind) dates ->
  Forall (fun x => x == 0) (elapsed_days dates) ->
  _calculate_vegetation_trend rounding rs t
  = (Raise "SVD did not converge in Linear Least Squares", t).
Proof.
  intros Hlen Hdates Hkind Hzeros.
  assert (Hl : length dates = length rs).
  { rewrite <- (length_map Some dates), <- Hdates, length_map. reflexivity. }
  unfold _calculate_vegetation_trend.
  destruct (length rs <? 2)%nat eqn:E; [apply Nat.ltb_lt in E; lia|].
  rewrite (bind_ret _ _ _ _ _ (dates_run rs dates [] t Hdates)).
  cbn [app].
  destruct dates as [|d0 dates']; [cbn in Hl; lia|].
  assert (Hkind0 : Forall (fun d => aware d = aware d0) (d0 :: dates')).
  { pose proof Hkind as Hall. apply Forall_cons in Hall as [H0 _].
    eapply Forall_impl; [exact Hkind|]. cbn. intros d ->.
    symmetry. exact H0. }
  rewrite (bind_ret _ _ _ _ _
             (elapsed_run (d0 :: dates') (d0 :: dates') d0 [] t eq_refl Hkind0)).
  cbn [app]. rewrite map_map.
  apply bind_raise. apply polyfit_zeros.
  - rewrite !length_map. exact Hl.
  - discriminate.
  - exact Hzeros.
Qed.

(** Dated samples of which one is not of the kind of the first: the
    difference of the two dates raises. *)
Lemma trend_mixed (rs : list analysis) (d0 d : datetime)
  (before after : list datetime) t :
  map date rs = map Some (d0 :: before ++ d :: after) ->
  Forall (fun x => aware x = aware d0) before ->
  aware d <> aware d0 ->
  _calculate_vegetation_trend rounding rs t
  = (Raise "can't subtract offset-naive and offset-aware datetimes", t).
Proof.
  intros Hdates Hkind Hd.
  assert (Hl : length rs = S (length (before ++ d :: after))).
  { rewrite <- (length_map date rs), Hdates, length_map. reflexivity. }
  rewrite length_app in Hl. cbn [length] in Hl.
  unfold _calculate_vegetation_trend.
  destruct (length rs <? 2)%nat eqn:E; [apply Nat.ltb_lt in E; lia|].
  rewrite (bind_ret _ _ _ _ _ (dates_run rs _ [] t Hdates)).
  cbn [app]. apply bind_raise.
  apply (elapsed_mixed (d0 :: before ++ d :: after) (d0 :: before) after
                       d0 d [] t eq_refl).
  - constructor; [reflexivity|exact Hkind].
  - exact Hd.
Qed.

End TrendSpec.

Lemma elapsed_since_epoch (d : Z) :
  timedelta_days (instant (naive (d * microseconds_per_day)))
                 (instant (naive (0 * microseconds_per_day))) = d.
Proof.
  unfold timedelta_days, instant, naive. cbn [wall utcoffset default from_option id].
  rewrite Z.mul_0_l, !Z.sub_0_r.
  apply Z.div_mul. discriminate.
Qed.

Lemma inject_Z_pos (s : Z) : (0 < s)%Z -> 0 < inject_Z s.
Proof. intros H. rewrite <- (Zlt_Qlt 0). exact H. Qed.

Lemma rising_denominator (s : Z) :
  (0 < s)%Z ->
  let xs := [inject_Z 0; inject_Z s; inject_Z (2 * s); inject_Z (3 * s)] in
  ~ inject_Z (Z.of_nat (length xs)) * py_sum (map (fun x => x * x) xs)
    - py_sum xs * py_sum xs == 0.
Proof.
  intros Hs xs. subst xs. pose proof (inject_Z_pos s Hs) as Hq.
  unfold py_sum. cbn [length map fold_left]. rewrite !inject_Z_mult.
  change (inject_Z (Z.of_nat 4)) with 4. change (inject_Z 0) with 0.
  change (inject_Z 2) with 2. change (inject_Z 3) with 3.
  set (q := inject_Z s) in *.
  assert (E : 4 * (0 + 0 * 0 + q * q + 2 * q * (2 * q) + 3 * q * (3 * q))
              - (0 + 0 + q + 2 * q + 3 * q) * (0 + 0 + q + 2 * q + 3 * q)
              == 20 * (q * q)) by ring.
  rewrite E. intros H.
  assert (0 < q * q) by (apply Qmult_lt_0_compat; exact Hq). lra.
Qed.

Lemma rising_slope (s : Z) :
  (0 < s)%Z ->
  least_squares_slope
    [inject_Z 0; inject_Z s; inject_Z (2 * s); inject_Z (3 * s)]
    [40; 45; 50; 55]
  == 5 / inject_Z s.
Proof.
  intros Hs. pose proof (inject_Z_pos s Hs) as Hq.
  unfold least_squares_slope, py_sum.
  cbn [length map fold_left combine fst snd]. rewrite !inject_Z_mult.
  change (inject_Z (Z.of_nat 4)) with 4. change (inject_Z 0) with 0.
  change (inject_Z 2) with 2. change (inject_Z 3) with 3.
  set (q := inject_Z s) in *. field. split; [lra|].
  assert (E : 4 * (q * q + 2 * q * (2 * q) + 3 * q * (3 * q))
              - (q + 2 * q + 3 * q) * (q + 2 * q + 3 * q)
              == 20 * (q * q)) by ring.
  rewrite E. intros H.
  assert (0 < q * q) by (apply Qmult_lt_0_compat; exact Hq). lra.
Qed.

(** The abscissas of four and of three samples taken every [s] days. *)
Definition four_days (s : Z) : list Q :=
  [inject_Z 0; inject_Z s; inject_Z (2 * s); inject_Z (3 * s)].

Definition three_days (s : Z) : list Q :=
  [inject_Z 0; inject_Z s; inject_Z (2 * s)].

Lemma five_over_spacing_bounds (s : Z) :
  (0 < s)%Z ->
  ((s < 5)%Z -> 5 # 4 <= 5 / inject_Z s)
  /\ ((6 <= s)%Z -> 0 <= 5 / inject_Z s <= 5 # 6)
  /\ (s = 5%Z -> 5 / inject_Z s == 1).
Proof.
  intros Hs. pose proof (inject_Z_pos s Hs) as Hq.
  split; [|split].
  - intros Hlt. apply Qle_shift_div_l; [exact Hq|].
    assert (inject_Z s <= inject_Z 4) by (rewrite <- Zle_Qle; lia).
    change (inject_Z 4) with 4 in *. lra.
  - intros Hge.
    assert (inject_Z 6 <= inject_Z s) by (rewrite <- Zle_Qle; exact Hge).
    change (inject_Z 6) with 6 in *. split.
    + apply div_nonneg; lra.
    + apply Qle_shift_div_r; [exact Hq|]. lra.
  - intros ->. reflexivity.
Qed.

Section SeriesSpec.

Variable rounding : list Q -> list Q -> Q.

Lemma rising_series_run (s : Z) t :
  (0 < s)%Z ->
  exists m,
    _calculate_vegetation_trend rounding (Examples.rising_series s) t
    = (Ret (TrendFull (trend_type m) m 40 55 (55 - 40)), t)
    /\ m == 5 / inject_Z s + rounding (four_days s) [40; 45; 50; 55].
Proof.
  intros Hs.
  pose proof (trend_run rounding (Examples.rising_series s)
                [ naive (0 * microseconds_per_day);
                  naive (s * microseconds_per_day);
                  naive (2 * s * microseconds_per_day);
                  naive (3 * s * microseconds_per_day) ] false t) as Hrun.
  cbv zeta in Hrun.
  assert (Hx : elapsed_days
                 [ naive (0 * microseconds_per_day);
                   naive (s * microseconds_per_day);
                   naive (2 * s * microseconds_per_day);
                   naive (3 * s * microseconds_per_day) ]
               = four_days s).
  { unfold elapsed_days, four_days. cbn [map nth].
    rewrite !elapsed_since_epoch. reflexivity. }
  rewrite Hx in Hrun.
  change (map vegetation_coverage_percent (Examples.rising_series s))
    with [40; 45; 50; 55] in Hrun.
  eexists. split.
  - apply Hrun.
    + cbn. lia.
    + reflexivity.
    + repeat constructor.
    + apply (rising_denominator s Hs).
  - unfold fitted_slope. rewrite (rising_slope s Hs). reflexivity.
Qed.

Lemma flat_series_run (s : Z) t :
  (0 < s)%Z ->
  exists m,
    _calculate_vegetation_trend rounding (Examples.flat_series s) t
    = (Ret (TrendFull (trend_type m) m 50 50 (50 - 50)), t)
    /\ m == rounding (three_days s) [50; 50; 50].
Proof.
  intros Hs. pose proof (inject_Z_pos s Hs) as Hq.
  pose proof (trend_run rounding (Examples.flat_series s)
                [ naive (0 * microseconds_per_day);
                  naive (s * microseconds_per_day);
                  naive (2 * s * microseconds_per_day) ] false t) as Hrun.
  cbv zeta in Hrun.
  assert (Hx : elapsed_days
                 [ naive (0 * microseconds_per_day);
                   naive (s * microseconds_per_day);
                   naive (2 * s * microseconds_per_day) ]
               = three_days s).
  { unfold elapsed_days, three_days. cbn [map nth].
    rewrite !elapsed_since_epoch. reflexivity. }
  rewrite Hx in Hrun.
  change (map vegetation_coverage_percent (Examples.flat_series s))
    with [50; 50; 50] in Hrun.
  assert (Hden : ~ inject_Z (Z.of_nat 3)
                   * py_sum (map (fun x => x * x) (three_days s))
                   - py_sum (three_days s) * py_sum (three_days s) == 0).
  { unfold py_sum, three_days. cbn [map fold_left]. rewrite !inject_Z_mult.
    change (inject_Z (Z.of_nat 3)) with 3. change (inject_Z 0) with 0.
    change (inject_Z 2) with 2. set (q := inject_Z s) in *.
    assert (E : 3 * (0 + 0 * 0 + q * q + 2 * q * (2 * q))
                - (0 + 0 + q + 2 * q) * (0 + 0 + q + 2 * q)
                == 6 * (q * q)) by ring.
    rewrite E. intros H.
    assert (0 < q * q) by (apply Qmult_lt_0_compat; exact Hq). lra. }
  assert (Hslope : least_squares_slope (three_days s) [50; 50; 50] == 0).
  { unfold least_squares_slope.
    set (den := _ - _ * _) in *.
    assert (En : inject_Z (Z.of_nat (length (three_days s)))
                 * py_sum (map (fun xy => fst xy * snd xy)
                             (combine (three_days s) [50; 50; 50]))
                 - py_sum (three_days s) * py_sum [50; 50; 50] == 0).
    { unfold py_sum, three_days. cbn [length map fold_left combine fst snd].
      change (inject_Z (Z.of_nat 3)) with 3. ring. }
    rewrite En. field. exact Hden. }
  eexists. split.
  - apply Hrun.
    + cbn. lia.
    + reflexivity.
    + repeat constructor.
    + exact Hden.
  - unfold fitted_slope. rewrite Hslope. ring.
Qed.

(** C7, as the code has it: fewer than two samples give
    "insufficient_data" with change rate 0.0 and no error; two or more
    dated samples, all naive or all aware, whose days do not all
    coincide give the slope that [np.polyfit] fits to coverage against
    the days elapsed since the first sample (the least-squares slope
    with the rounding of the solver), classified "increasing" iff slope
    > 1, "decreasing" iff slope < -1 and "stable" otherwise, with the
    initial coverage, the final coverage and their difference; samples
    that all fall on the day of the first one make the fit raise, and so
    does a sample that is not of the kind of the first one; coverage 40,
    45, 50, 55 sampled every s days has the least-squares slope 5/s, so
    it is "increasing" for s < 5 and "stable" for s >= 6 as long as the
    rounding stays below 1/4 and 1/6, and at s = 5, where 5/s is the
    threshold itself, "increasing" exactly when the solver rounds up;
    coverage 50, 50, 50 is "stable". *)
Theorem vegetation_trend_spec :
  (forall rs t,
      (length rs < 2)%nat ->
      _calculate_vegetation_trend rounding rs t
      = (Ret (TrendShort "insufficient_data" 0.0), t))
  /\ (forall rs dates kind t,
        (2 <= length rs)%nat ->
        map date rs = map Some dates ->
        Forall (fun d => aware d = kind) dates ->
        let xs := elapsed_days dates in
        let ys := map vegetation_coverage_percent rs in
        (~ inject_Z (Z.of_nat (length xs)) * py_sum (map (fun x => x * x) xs)
           - py_sum xs * py_sum xs == 0 ->
         _calculate_vegetation_trend rounding rs t
         = (Ret (TrendFull
                   (trend_type (least_squares_slope xs ys + rounding xs ys))
                   (least_squares_slope xs ys + rounding xs ys)
                   (nth 0 ys 0) (List.last ys 0)
                   (List.last ys 0 - nth 0 ys 0)), t))
        /\ (Forall (fun x => x == 0) xs ->
            _calculate_vegetation_trend rounding rs t
            = (Raise "SVD did not converge in Linear Least Squares", t)))
  /\ (forall rs d0 d before after t,
        map date rs = map Some (d0 :: before ++ d :: after) ->
        Forall (fun x => aware x = aware d0) before ->
        aware d <> aware d0 ->
        _calculate_vegetation_trend rounding rs t
        = (Raise "can't subtract offset-naive and offset-aware datetimes", t))
  /\ (forall slope,
        (trend_type slope = "increasing"%string <-> 1 < slope)
        /\ (trend_type slope = "decreasing"%string <-> slope < -1)
        /\ (trend_type slope = "stable"%string <-> -1 <= slope <= 1))
  /\ (forall s t,
        (0 < s)%Z ->
        let e := rounding (four_days s) [40; 45; 50; 55] in
        exists m,
          _calculate_vegetation_trend rounding (Examples.rising_series s) t
          = (Ret (TrendFull (trend_type m) m 40 55 (55 - 40)), t)
          /\ m == 5 / inject_Z s + e
          /\ ((s < 5)%Z -> Qabs e < 1 # 4 ->
              trend_type m = "increasing"%string)
          /\ ((6 <= s)%Z -> Qabs e <= 1 # 6 ->
              trend_type m = "stable"%string)
          /\ (s = 5%Z -> Qabs e <= 1 ->
              (trend_type m = "increasing"%string <-> 0 < e)
              /\ (trend_type m = "stable"%string <-> e <= 0)))
  /\ (forall s t,
        (0 < s)%Z ->
        let e := rounding (three_days s) [50; 50; 50] in
        exists m,
          _calculate_vegetation_trend rounding (Examples.flat_series s) t
          = (Ret (TrendFull (trend_type m) m 50 50 (50 - 50)), t)
          /\ m == e
          /\ (Qabs e <= 1 -> trend_type m = "stable"%string)).
Proof.
  split; [|split; [|split; [|split; [|split]]]].
  - intros rs t Hlen. unfold _calculate_vegetation_trend.
    destruct (length rs <? 2)%nat eqn:E; [reflexivity|].
    apply Nat.ltb_ge in E. lia.
  - intros rs dates kind t Hlen Hdates Hkind xs ys. split.
    + apply (trend_run rounding rs dates kind t Hlen Hdates Hkind).
    + apply (trend_same_day rounding rs dates kind t Hlen Hdates Hkind).
  - intros rs d0 d before after t. apply trend_mixed.
  - apply trend_type_cases.
  - intros s t Hs e.
    destruct (rising_series_run s t Hs) as (m & Hrun & Hm). fold e in Hm.
    destruct (five_over_spacing_bounds s Hs) as (Hlow & Hhigh & Hfive).
    destruct (trend_type_cases m) as (Hinc & _ & Hst).
    exists m. split; [exact Hrun|]. split; [exact Hm|].
    split; [|split].
    + intros Hlt He. apply Qabs_Qlt_condition in He.
      specialize (Hlow Hlt). apply Hinc. lra.
    + intros Hge He. apply Qabs_Qle_condition in He.
      specialize (Hhigh Hge). apply Hst. lra.
    + intros H5 He. apply Qabs_Qle_condition in He.
      specialize (Hfive H5). split.
      * rewrite Hinc. split; intros; lra.
      * rewrite Hst. split; intros; lra.
  - intros s t Hs e.
    destruct (flat_series_run s t Hs) as (m & Hrun & Hm). fold e in Hm.
    destruct (trend_type_cases m) as (_ & _ & Hst).
    exists m. split; [exact Hrun|]. split; [exact Hm|].
    intros He. apply Qabs_Qle_condition in He. apply Hst. lra.
Qed.

End SeriesSpec.

(** A single sample is insufficient; daily samples of 40, 45, 50, 55 rise
    by 5 a day, "increasing"; 50, 50, 50 is "stable"; at a spacing of
    five days, where the exact slope is 1, a fit without rounding says
    "stable" and a fit that rounds up by 2^-51 says "increasing"; two
    samples of the same day make the fit raise. *)
Lemma vegetation_trend_spec_witness :
  _calculate_vegetation_trend Examples.exact_fit [Examples.sample 40 0] []
  = (Ret (TrendShort "insufficient_data" 0.0), [])
  /\ (exists m,
         _calculate_vegetation_trend Examples.rounded_up_fit
           (Examples.rising_series 1) []
         = (Ret (TrendFull "increasing" m 40 55 (55 - 40)), []))
  /\ (exists m,
         _calculate_vegetation_trend Examples.rounded_up_fit
           (Examples.flat_series 1) []
         = (Ret (TrendFull "stable" m 50 50 (50 - 50)), []))
  /\ (exists m,
         _calculate_vegetation_trend Examples.exact_fit
           (Examples.rising_series 5) []
         = (Ret (TrendFull "stable" m 40 55 (55 - 40)), []))
  /\ (exists m,
         _calculate_vegetation_trend Examples.rounded_up_fit
           (Examples.rising_series 5) []
         = (Ret (TrendFull "increasing" m 40 55 (55 - 40)), []))
  /\ _calculate_vegetation_trend Examples.exact_fit
       [Examples.sample 40 0; Examples.sample 45 0] []
     = (Raise "SVD did not converge in Linear Least Squares", []).
Proof.
  destruct (vegetation_trend_spec Examples.exact_fit)
    as (Hshort & Hfit & _ & _ & Hrise0 & _).
  destruct (vegetation_trend_spec Examples.rounded_up_fit)
    as (_ & _ & _ & _ & Hrise & Hflat).
  split; [apply Hshort; cbn; lia|].
  split; [|split; [|split; [|split]]].
  - destruct (Hrise 1%Z [] eq_refl) as (m & Hrun & _ & Hinc & _).
    exists m. rewrite <- (Hinc eq_refl eq_refl). exact Hrun.
  - destruct (Hflat 1%Z [] eq_refl) as (m & Hrun & _ & Hst).
    exists m. rewrite <- (Hst ltac:(discriminate)). exact Hrun.
  - destruct (Hrise0 5%Z [] eq_refl) as (m & Hrun & _ & _ & _ & Hfive).
    destruct (Hfive eq_refl ltac:(discriminate)) as [_ Hst].
    exists m. rewrite <- (proj2 Hst ltac:(discriminate)). exact Hrun.
  - destruct (Hrise 5%Z [] eq_refl) as (m & Hrun & _ & _ & _ & Hfive).
    destruct (Hfive eq_refl ltac:(discriminate)) as [Hinc _].
    exists m. rewrite <- (proj2 Hinc eq_refl). exact Hrun.
  - destruct (Hfit [Examples.sample 40 0; Examples.sample 45 0]
                   [naive (0 * microseconds_per_day);
                    naive (0 * microseconds_per_day)] false []
                   ltac:(cbn; lia) eq_refl ltac:(repeat constructor))
      as [_ Hsame].
    apply Hsame. repeat constructor.
Defined.

(** C7, as stated, fails: sampled every 30 days, as the time-series
    provider does, coverage 40, 45, 50, 55 has slope 1/6 and is
    "stable", not "increasing", with or without the rounding of the
    fit. *)
Lemma rising_series_monthly_is_stable :
  (exists m,
      _calculate_vegetation_trend Examples.exact_fit
        (Examples.rising_series 30) []
      = (Ret (TrendFull "stable" m 40 55 (55 - 40)), [])
      /\ m == 1 # 6)
  /\ (exists m,
         _calculate_vegetation_trend Examples.rounded_up_fit
           (Examples.rising_series 30) []
         = (Ret (TrendFull "stable" m 40 55 (55 - 40)), [])
         /\ m == (1 # 6) + (1 # 2251799813685248))
  /\ "stable"%string <> "increasing"%string.
Proof.
  split; [|split].
  - eexists. split; [vm_compute; reflexivity|reflexivity].
  - eexists. split; [vm_compute; reflexivity|reflexivity].
  - discriminate.
Qed.

(** *** Project areas *)

Section Areas.

Variable cv2_resize : image -> string + image.
Variable cv2_cvtColor : list nat -> list Q -> string + list pixel.
Variable _fetch_satellite_images : gmap string Q -> Q -> list image.
Variable now : Z.
Variable isoformat : Z -> string.

(** The report of a project area: the potential is the one of the mean
    coverage and of the classified images, and vegetation is detected
    when the mean confidence exceeds 0.8 and the mean coverage 60. *)
Lemma area_report_fields self location area t report t' :
  analyze_project_area cv2_resize cv2_cvtColor _fetch_satellite_images
                       now isoformat self location area t
  = (Ret report, t') ->
  co2_sequestration_potential_tonnes_year report
  = _calculate_co2_potential area (area_vegetation_coverage_percent report)
                             (detailed_analysis report)
  /\ area_vegetation_detected report
     = gtb (area_confidence report) 0.8
       && gtb (area_vegetation_coverage_percent report) 60
  /\ images_analyzed report = length (_fetch_satellite_images location area).
Proof.
  unfold analyze_project_area. intros Hrun.
  apply try_except_ret_inv in Hrun as [Hrun|(msg & t1 & _ & Hh)].
  2:{ unfold bind, emit, raise in Hh. discriminate Hh. }
  apply bind_inv in Hrun as ([] & t1 & _ & Hrun).
  destruct (_fetch_satellite_images location area) as [|image_data images];
    [discriminate Hrun|].
  apply bind_inv in Hrun as (results & t2 & _ & Hrun).
  apply bind_inv in Hrun as (confidence & t3 & _ & Hrun).
  apply bind_inv in Hrun as (coverage & t4 & _ & Hrun).
  unfold ret in Hrun. injection Hrun as <- _.
  repeat split.
Qed.

End Areas.

(** Ten fully covered hectares whose single image is classified 100%
    forest: 100 tonnes a year. *)
Lemma forest_area_potential :
  exists report t,
    analyze_project_area Examples.resize Examples.cvt_color
      Examples.one_green_image Examples.clock Examples.iso_text
      (Examples.analyzer Examples.forest_scores)
      (location Examples.project) 10 [] = (Ret report, t)
    /\ area_vegetation_coverage_percent report == 100
    /\ co2_sequestration_potential_tonnes_year report == 100.
Proof.
  eexists. eexists. split; [vm_compute; reflexivity|].
  split; reflexivity.
Qed.

(** *** Batches *)

Section Batches.

Variable cv2_resize : image -> string + image.
Variable cv2_cvtColor : list nat -> list Q -> string + list pixel.
Variable now : Z.
Variable isoformat : Z -> string.
Variable self : t.

Local Abbreviation analyze :=
  (analyze_single_image cv2_resize cv2_cvtColor now isoformat self).
Local Abbreviation recorded :=
  (entry_of cv2_resize cv2_cvtColor now isoformat self).

(** One pass of the loop appends exactly one entry, the one of the
    image, whether its classification returns or raises. *)
Lemma batch_step_run results image_data t :
  fst (analyze image_data t) <> NonFinite ->
  exists entry t',
    batch_step cv2_resize cv2_cvtColor now isoformat self results image_data t
    = (Ret (results ++ [entry]), t')
    /\ recorded image_data entry.
Proof.
  intros Hfinite. unfold batch_step, try_except, bind.
  unfold entry_of.
  destruct (analyze image_data t) as [[result|msg|] t1] eqn:E.
  - exists (Analysed result), t1. split; [reflexivity|].
    left. exists result, t, t1. split; [exact E|reflexivity].
  - eexists (Failed msg false 0.0), _. split; [reflexivity|].
    right. exists msg, t, t1. split; [exact E|reflexivity].
  - contradiction Hfinite. reflexivity.
Qed.

(** The loop keeps the entries in the order of the images. *)
Lemma batch_loop_run images results t :
  (forall image_data t,
      In image_data images -> fst (analyze image_data t) <> NonFinite) ->
  exists entries t',
    for_each (batch_step cv2_resize cv2_cvtColor now isoformat self)
             images results t
    = (Ret (results ++ entries), t')
    /\ Forall2 recorded images entries.
Proof.
  revert results t. induction images as [|image_data images IH];
    intros results t Hfinite.
  - exists [], t. rewrite app_nil_r. split; [reflexivity|constructor].
  - destruct (batch_step_run results image_data t) as (entry & t1 & Hstep & He).
    { apply Hfinite. left. reflexivity. }
    destruct (IH (results ++ [entry]) t1) as (entries & t2 & Hloop & Hes).
    { intros i t0 Hi. apply Hfinite. right. exact Hi. }
    exists (entry :: entries), t2. split.
    + cbn [for_each]. rewrite (bind_ret _ _ _ _ _ Hstep), Hloop.
      rewrite <- app_assoc. reflexivity.
    + constructor; assumption.
Qed.

(** C8: with a loaded classifier, when the classification of exactly
    one image of the list (the one at position k) raises and that of
    every other image returns, batch analysis returns as many results as
    there are images, in their order: the entry at k is the error-tagged
    one, with vegetation_detected false, confidence 0.0 and the message
    of the exception, and every other entry is the classification of its
    image. *)
Theorem batch_isolates_failure (images : list image) (k : nat)
  (bad : image) (msg : string) (t : trace) :
  is_model_loaded self = true ->
  images !! k = Some bad ->
  (forall t, exists t', analyze bad t = (Raise msg, t')) ->
  (forall i image_data,
      i <> k -> images !! i = Some image_data ->
      forall t, exists result t', analyze image_data t = (Ret result, t')) ->
  exists results t',
    batch_analyze cv2_resize cv2_cvtColor now isoformat self images t
    = (Ret results, t')
    /\ length results = length images
    /\ results !! k = Some (Failed msg false 0.0)
    /\ (forall i image_data,
          i <> k -> images !! i = Some image_data ->
          exists result t1 t2,
            analyze image_data t1 = (Ret result, t2)
            /\ results !! i = Some (Analysed result)).
Proof.
  intros Hloaded Hk Hbad Hgood.
  destruct (batch_loop_run images [] t) as (entries & t' & Hrun & Hes).
  { intros image_data t0 Hin.
    apply list_elem_of_In, list_elem_of_lookup in Hin as [i Hi].
    destruct (decide (i = k)) as [->|Hne].
    - rewrite Hk in Hi. injection Hi as <-.
      destruct (Hbad t0) as [t1 ->]. discriminate.
    - destruct (Hgood i image_data Hne Hi t0) as (r & t1 & ->). discriminate. }
  cbn [app] in Hrun.
  exists entries, t'. unfold batch_analyze. rewrite Hloaded. cbn [negb].
  split; [exact Hrun|]. split; [symmetry; exact (Forall2_length _ _ _ Hes)|].
  split.
  - destruct (Forall2_lookup_l _ _ _ _ _ Hes Hk) as (entry & Hentry & He).
    rewrite Hentry. f_equal.
    destruct He as [(r & t1 & t2 & Hr & _)|(msg' & t1 & t2 & Hr & ->)].
    + destruct (Hbad t1) as [t3 H3].
      rewrite H3 in Hr. discriminate.
    + destruct (Hbad t1) as [t3 H3].
      rewrite H3 in Hr. injection Hr as -> _. reflexivity.
  - intros i image_data Hne Hi.
    destruct (Forall2_lookup_l _ _ _ _ _ Hes Hi) as (entry & Hentry & He).
    destruct He as [(r & t1 & t2 & Hr & ->)|(msg' & t1 & t2 & Hr & _)].
    + exists r, t1, t2. split; [exact Hr|exact Hentry].
    + destruct (Hgood i image_data Hne Hi t1) as (r & t3 & H3).
      rewrite H3 in Hr. discriminate.
Qed.

End Batches.

(** Three images, the second one malformed: three results, the second one
    error-tagged with the message of OpenCV, the others classified. *)
Lemma batch_isolates_failure_witness :
  let images :=
    [Examples.field_image 20 0; Examples.malformed_image;
     Examples.field_image 8 12] in
  let analyze :=
    analyze_single_image Examples.resize Examples.cvt_color Examples.clock
      Examples.iso_text (Examples.analyzer Examples.confident_scores) in
  exists results t',
    batch_analyze Examples.resize Examples.cvt_color Examples.clock
      Examples.iso_text (Examples.analyzer Examples.confident_scores)
      images [] = (Ret results, t')
    /\ length results = 3%nat
    /\ results !! 1%nat
       = Some (Failed
                 "OpenCV: (-215:Assertion failed) !ssize.empty() in function 'resize'"
                 false 0.0)
    /\ (exists r0 r2 t0 t0' t2 t2',
           analyze (Examples.field_image 20 0) t0 = (Ret r0, t0')
           /\ analyze (Examples.field_image 8 12) t2 = (Ret r2, t2')
           /\ results !! 0%nat = Some (Analysed r0)
           /\ results !! 2%nat = Some (Analysed r2)).
Proof.
  intros images analyze.
  destruct (batch_isolates_failure Examples.resize Examples.cvt_color
              Examples.clock Examples.iso_text
              (Examples.analyzer Examples.confident_scores)
              images 1 Examples.malformed_image
              "OpenCV: (-215:Assertion failed) !ssize.empty() in function 'resize'"
              [])
    as (results & t' & Hrun & Hlen & Hbad & Hgood).
  - reflexivity.
  - reflexivity.
  - intros t. eexists. reflexivity.
  - intros i image_data Hne Hi t.
    destruct i as [|[|[|i]]]; cbn in Hi; try discriminate Hi;
      [|contradiction Hne; reflexivity|];
      injection Hi as <-; eexists; eexists; vm_compute; reflexivity.
  - exists results, t'. split; [exact Hrun|]. split; [exact Hlen|].
    split; [exact Hbad|].
    destruct (Hgood 0%nat (Examples.field_image 20 0)) as (r0 & t0 & t0' & H0 & L0);
      [discriminate|reflexivity|].
    destruct (Hgood 2%nat (Examples.field_image 8 12)) as (r2 & t2 & t2' & H2 & L2);
      [discriminate|reflexivity|].
    exists r0, r2, t0, t0', t2, t2'. repeat split; assumption.
Defined.

End SatelliteAnalyzerSpec.

(** ** Across the components *)

Module EndpointSpec.

Section Lifecycle.

Variable cv2_resize : SatelliteAnalyzer.image -> string + SatelliteAnalyzer.image.
Variable cv2_cvtColor : list nat -> list Q -> string + list SatelliteAnalyzer.pixel.
Variable np_std : list Q -> Q.
Variable environment : gmap string Q -> gmap string Q.
Variable now : Z.
Variable isoformat : Z -> string.

(** C9: a predictor or a classifier whose loaded flag is false raises
    its "model not loaded" error on every inference request (estimate,
    detailed prediction, single image, batch, project area with at least
    one image); nothing is returned and the model is not called: the log
    gains no inference event. *)
Theorem unloaded_models_reject
  (predictor : CarbonPredictor.t) (analyzer : SatelliteAnalyzer.t)
  (project : ProjectData) (timeframe_days : Z) (weather : bool)
  (image_data : SatelliteAnalyzer.image)
  (images : list SatelliteAnalyzer.image) (t : trace) :
  CarbonPredictor.is_model_loaded predictor = false ->
  SatelliteAnalyzer.is_model_loaded analyzer = false ->
  CarbonPredictor.estimate_co2_capture
    np_std environment now isoformat predictor project t
  = (Raise "Carbon predictor model not loaded", t)
  /\ CarbonPredictor.predict_capture
       np_std environment now isoformat predictor project
       timeframe_days weather t
     = (Raise "Carbon predictor model not loaded",
        [LogError "Detailed prediction failed: Carbon predictor model not loaded"]
        ++ t)
  /\ SatelliteAnalyzer.analyze_single_image
       cv2_resize cv2_cvtColor now isoformat analyzer image_data t
     = (Raise "CNN model not loaded", t)
  /\ SatelliteAnalyzer.batch_analyze
       cv2_resize cv2_cvtColor now isoformat analyzer images t
     = (Raise "CNN model not loaded", t)
  /\ SatelliteAnalyzer.analyze_project_area
       cv2_resize cv2_cvtColor (fun _ _ => image_data :: images)
       now isoformat analyzer (location project) (area_hectares project) t
     = (Raise "CNN model not loaded",
        [LogError "Project area analysis failed: CNN model not loaded";
         LogInfo "Fetching satellite images"] ++ t).
Proof.
  intros Hp Ha.
  unfold CarbonPredictor.predict_capture,
    CarbonPredictor.estimate_co2_capture,
    SatelliteAnalyzer.analyze_project_area,
    SatelliteAnalyzer.batch_analyze.
  cbn [for_each].
  unfold SatelliteAnalyzer.analyze_single_image.
  rewrite Hp, Ha. repeat split.
Qed.

End Lifecycle.

(** The predictor and the analyzer left by a failed load reject a
    request for the example project and for a fully vegetated image. *)
Lemma unloaded_models_reject_witness :
  CarbonPredictor.estimate_co2_capture Examples.no_spread
    Examples.no_environment Examples.clock Examples.iso_text
    Examples.failed_predictor Examples.project []
  = (Raise "Carbon predictor model not loaded", [])
  /\ SatelliteAnalyzer.analyze_single_image Examples.resize
       Examples.cvt_color Examples.clock Examples.iso_text
       Examples.failed_analyzer (Examples.field_image 20 0) []
     = (Raise "CNN model not loaded", []).
Proof.
  destruct (unloaded_models_reject Examples.resize Examples.cvt_color
              Examples.no_spread Examples.no_environment Examples.clock
              Examples.iso_text Examples.failed_predictor
              Examples.failed_analyzer Examples.project 365 true
              (Examples.field_image 20 0) [] [] eq_refl eq_refl)
    as (He & _ & Ha & _).
  split; [exact He|exact Ha].
Defined.

Section Verification.

Variable satellite_analyzer : SatelliteAnalyzer.t.
Variable carbon_predictor : CarbonPredictor.t.
Variable assess_project_legitimacy : ProjectData -> M (gmap string Q).
Variable cv2_resize : SatelliteAnalyzer.image -> string + SatelliteAnalyzer.image.
Variable cv2_cvtColor : list nat -> list Q -> string + list SatelliteAnalyzer.pixel.
Variable _fetch_satellite_images : gmap string Q -> Q -> list SatelliteAnalyzer.image.
Variable np_std : list Q -> Q.
Variable environment : gmap string Q -> gmap string Q.
Variable now : Z.
Variable isoformat : Z -> string.

Lemma gather3_ret {A B C} (a : M A) (b : M B) (c : M C) t x t1 y t2 z t3 :
  a t = (Ret x, t1) -> b t1 = (Ret y, t2) -> c t2 = (Ret z, t3) ->
  Main.gather3 a b c t = (Ret (x, y, z), t3).
Proof. unfold Main.gather3. intros -> -> ->. reflexivity. Qed.

Lemma combine_results_run project satellite_result fraud_result legitimacy
  carbon_result t :
  fraud_result !! "legitimacy_score"%string = Some legitimacy ->
  Main.combine_results now project satellite_result fraud_result
                       carbon_result t
  = (Ret {| Main.result_project_id := project_id project;
            Main.verification_status :=
              SatelliteAnalyzer.area_vegetation_detected satellite_result
              && gtb legitimacy 0.8
              && gtb (CarbonPredictor.feasibility carbon_result) 0.7;
            Main.confidence_score :=
              py_min3 (SatelliteAnalyzer.area_confidence satellite_result)
                      legitimacy
                      (CarbonPredictor.feasibility carbon_result);
            Main.co2_capture_estimate :=
              CarbonPredictor.annual_co2_tonnes carbon_result;
            Main.fraud_risk_score := 1.0 - legitimacy;
            Main.satellite_analysis := satellite_result;
            Main.fraud_assessment := fraud_result;
            Main.carbon_estimation := carbon_result;
            Main.satellite_images :=
              SatelliteAnalyzer.image_urls satellite_result;
            Main.timestamp := now |}, t).
Proof.
  intros Hleg. unfold Main.combine_results.
  rewrite (bind_ret _ _ _ _ _ (getitem_some _ _ _ t Hleg)).
  rewrite (bind_ret _ _ _ _ _ (getitem_some _ _ _ t Hleg)).
  rewrite (bind_ret _ _ _ _ _ (getitem_some _ _ _ t Hleg)).
  reflexivity.
Qed.

(** C1: when the three analyses of a project complete, the endpoint
    returns a result whose status is vegetation_detected and
    legitimacy > 0.8 and feasibility > 0.7, whose confidence is the
    minimum of the vegetation confidence, the legitimacy and the
    feasibility, and whose fraud risk is 1 - legitimacy; with vegetation
    detected at confidence 0.85, legitimacy 0.9 and feasibility 0.75
    these are true, 0.75 and 0.1. *)
Theorem verification_combines (project : ProjectData)
  (satellite_result : SatelliteAnalyzer.area_report)
  (fraud_result : gmap string Q) (legitimacy : Q)
  (carbon_result : CarbonPredictor.estimate) (t t1 t2 t3 : trace) :
  SatelliteAnalyzer.analyze_project_area
    cv2_resize cv2_cvtColor _fetch_satellite_images now isoformat
    satellite_analyzer (location project) (area_hectares project)
    (LogInfo ("Starting verification for project " ++ project_id project) :: t)
  = (Ret satellite_result, t1) ->
  assess_project_legitimacy project t1 = (Ret fraud_result, t2) ->
  fraud_result !! "legitimacy_score"%string = Some legitimacy ->
  CarbonPredictor.estimate_co2_capture
    np_std environment now isoformat carbon_predictor project t2
  = (Ret carbon_result, t3) ->
  let vegetation := SatelliteAnalyzer.area_vegetation_detected satellite_result in
  let confidence := SatelliteAnalyzer.area_confidence satellite_result in
  let feasibility := CarbonPredictor.feasibility carbon_result in
  exists v t',
    Main.verify_carbon_project satellite_analyzer carbon_predictor
      assess_project_legitimacy cv2_resize cv2_cvtColor
      _fetch_satellite_images np_std environment now isoformat project t
    = (Ret v, t')
    /\ Main.verification_status v
       = vegetation && gtb legitimacy 0.8 && gtb feasibility 0.7
    /\ Main.confidence_score v = py_min3 confidence legitimacy feasibility
    /\ Main.confidence_score v == Qmin (Qmin confidence legitimacy) feasibility
    /\ Main.fraud_risk_score v = 1.0 - legitimacy
    /\ (vegetation = true -> confidence == 0.85 -> legitimacy == 0.9 ->
        feasibility == 0.75 ->
        Main.verification_status v = true
        /\ Main.confidence_score v == 0.75
        /\ Main.fraud_risk_score v == 0.1).
Proof.
  intros Hsat Hfraud Hleg Hcarbon vegetation confidence feasibility.
  eexists. eexists. split.
  - unfold Main.verify_carbon_project. apply try_except_ret.
    unfold bind at 1. cbn [emit].
    rewrite (bind_ret _ _ _ _ _ (gather3_ret _ _ _ _ _ _ _ _ _ _
                                   Hsat Hfraud Hcarbon)).
    cbv beta iota.
    rewrite (bind_ret _ _ _ _ _
               (combine_results_run project satellite_result fraud_result
                  legitimacy carbon_result t3 Hleg)).
    reflexivity.
  - cbn [Main.verification_status Main.confidence_score Main.fraud_risk_score].
    fold vegetation. fold confidence. fold feasibility.
    split; [reflexivity|]. split; [reflexivity|]. split.
    { unfold py_min3. rewrite !py_min_Qmin. reflexivity. }
    split; [reflexivity|].
    intros Hv Hc Hl Hf. rewrite Hv. split; [|split].
    + assert (G1 : gtb legitimacy 0.8 = true) by (apply gtb_spec; lra).
      assert (G2 : gtb feasibility 0.7 = true) by (apply gtb_spec; lra).
      rewrite G1, G2. reflexivity.
    + unfold py_min3, py_min.
      destruct (Qlt_le_dec legitimacy confidence);
        destruct (Qlt_le_dec feasibility _); lra.
    + lra.
Qed.

End Verification.

(** The example project end to end: one fully vegetated image classified
    "forest" at 0.85, a legitimacy of 0.9 and a prediction of 164.0625
    tonnes, whose feasibility is 0.75. *)
Lemma verification_combines_witness :
  exists v t',
    Main.verify_carbon_project
      (Examples.analyzer Examples.confident_scores)
      (Examples.predictor 164.0625) (Examples.legitimacy 0.9)
      Examples.resize Examples.cvt_color Examples.one_green_image
      Examples.no_spread Examples.no_environment Examples.clock
      Examples.iso_text Examples.project [] = (Ret v, t')
    /\ Main.verification_status v = true
    /\ Main.confidence_score v == 0.75
    /\ Main.fraud_risk_score v == 0.1.
Proof.
  edestruct (verification_combines
              (Examples.analyzer Examples.confident_scores)
              (Examples.predictor 164.0625) (Examples.legitimacy 0.9)
              Examples.resize Examples.cvt_color Examples.one_green_image
              Examples.no_spread Examples.no_environment Examples.clock
              Examples.iso_text Examples.project)
    as (v & t' & Hrun & _ & _ & _ & _ & Hvalues).
  - vm_compute. reflexivity.
  - vm_compute. reflexivity.
  - vm_compute. reflexivity.
  - vm_compute. reflexivity.
  - exists v, t'. split; [exact Hrun|].
    apply Hvalues; reflexivity.
Defined.

End EndpointSpec.

(** * Further properties *)

(** ** carbon_predictor.py *)

Module CarbonPredictorMore.
Import CarbonPredictor.

Lemma mult_le_l (c a b : Q) : 0 <= c -> a <= b -> c * a <= c * b.
Proof.
  intros Hc Hab. rewrite (Qmult_comm c a), (Qmult_comm c b).
  apply Qmult_le_compat_r; assumption.
Qed.

(** *** Recommendations *)

Lemma both_above (f a p b : Q) :
  gtb f a && gtb p b = true <-> a < f /\ b < p.
Proof. rewrite andb_true_iff, !gtb_spec. reflexivity. Qed.

Lemma both_above_mono (f f' a p p' b : Q) :
  p <= p' -> f <= f' ->
  gtb f a && gtb p b = true -> gtb f' a && gtb p' b = true.
Proof. rewrite !both_above. intros ? ? [? ?]. split; lra. Qed.

(** The rank of the text chosen for a prediction and a feasibility. *)
Lemma recommendation_rank_cases (prediction feasibility : Q) :
  CarbonTraining.recommendation_rank
    (_generate_recommendation prediction feasibility)
  = if gtb feasibility 0.8 && gtb prediction 100 then 3%nat
    else if gtb feasibility 0.6 && gtb prediction 50 then 2%nat
    else if gtb feasibility 0.4 && gtb prediction 20 then 1%nat
    else 0%nat.
Proof.
  unfold _generate_recommendation.
  destruct (gtb feasibility 0.8 && gtb prediction 100); [reflexivity|].
  destruct (gtb feasibility 0.6 && gtb prediction 50); [reflexivity|].
  destruct (gtb feasibility 0.4 && gtb prediction 20); reflexivity.
Qed.

(** X1: The recommendation never gets worse when feasibility and prediction
    both grow; the best text is given exactly for feasibility > 0.8 and
    prediction > 100, the worst exactly when feasibility <= 0.4 or
    prediction <= 20. *)
Theorem recommendation_monotone
  (prediction feasibility prediction' feasibility' : Q) :
  prediction <= prediction' ->
  feasibility <= feasibility' ->
  (CarbonTraining.recommendation_rank
     (_generate_recommendation prediction feasibility)
   <= CarbonTraining.recommendation_rank
        (_generate_recommendation prediction' feasibility'))%nat
  /\ (CarbonTraining.recommendation_rank
        (_generate_recommendation prediction feasibility) = 3%nat
      <-> 0.8 < feasibility /\ 100 < prediction)
  /\ (CarbonTraining.recommendation_rank
        (_generate_recommendation prediction feasibility) = 0%nat
      <-> feasibility <= 0.4 \/ prediction <= 20).
Proof.
  intros Hp Hf. rewrite !recommendation_rank_cases.
  pose proof (both_above_mono feasibility feasibility' 0.8
                prediction prediction' 100 Hp Hf) as M3.
  pose proof (both_above_mono feasibility feasibility' 0.6
                prediction prediction' 50 Hp Hf) as M2.
  pose proof (both_above_mono feasibility feasibility' 0.4
                prediction prediction' 20 Hp Hf) as M1.
  pose proof (both_above feasibility 0.8 prediction 100) as B3.
  pose proof (both_above feasibility 0.6 prediction 50) as B2.
  pose proof (both_above feasibility 0.4 prediction 20) as B1.
  destruct (gtb feasibility 0.8 && gtb prediction 100) eqn:E3.
  - rewrite (M3 eq_refl). destruct B3 as [B3 _]. specialize (B3 eq_refl).
    split; [lia|]. split; [tauto|].
    split; [discriminate|intros [?|?]; lra].
  - destruct (gtb feasibility 0.6 && gtb prediction 50) eqn:E2.
    + rewrite (M2 eq_refl). destruct B2 as [B2 _]. specialize (B2 eq_refl).
      split; [destruct (gtb feasibility' 0.8 && gtb prediction' 100); lia|].
      split; [split; [discriminate|intros H; apply B3 in H; discriminate H]|].
      split; [discriminate|intros [?|?]; lra].
    + destruct (gtb feasibility 0.4 && gtb prediction 20) eqn:E1.
      * rewrite (M1 eq_refl). destruct B1 as [B1 _]. specialize (B1 eq_refl).
        split; [destruct (gtb feasibility' 0.8 && gtb prediction' 100);
                 [lia|destruct (gtb feasibility' 0.6 && gtb prediction' 50); lia]|].
        split; [split; [discriminate|intros H; apply B3 in H; discriminate H]|].
        split; [discriminate|intros [?|?]; lra].
      * split; [lia|].
        split; [split; [discriminate|intros H; apply B3 in H; discriminate H]|].
        split; [intros _|reflexivity].
        destruct (Qlt_le_dec 0.4 feasibility) as [Hf4|Hf4]; [|left; exact Hf4].
        destruct (Qlt_le_dec 20 prediction) as [Hp2|Hp2]; [|right; exact Hp2].
        assert (H : false = true) by (apply B1; split; assumption).
        discriminate H.
Qed.

(** A feasibility of 0.9 with 120 tonnes ranks at least as high as 0.5
    with 30 tonnes. *)
Lemma recommendation_monotone_witness :
  (CarbonTraining.recommendation_rank (_generate_recommendation 30 0.5)
   <= CarbonTraining.recommendation_rank (_generate_recommendation 120 0.9))%nat.
Proof.
  destruct (recommendation_monotone 30 0.5 120 0.9) as [H _].
  - discriminate.
  - discriminate.
  - exact H.
Defined.

(** *** Feature importance *)

Lemma insert_desc_perm x l : Permutation (insert_desc x l) (x :: l).
Proof.
  induction l as [|y l IH]; cbn [insert_desc].
  - reflexivity.
  - destruct (Qlt_le_dec (snd y) (snd x)); [reflexivity|].
    rewrite IH. apply perm_swap.
Qed.

Lemma insert_desc_sorted x l :
  StronglySorted CarbonTraining.by_importance l ->
  StronglySorted CarbonTraining.by_importance (insert_desc x l).
Proof.
  induction 1 as [|y l Hs IH Hy]; cbn [insert_desc].
  - repeat constructor.
  - destruct (Qlt_le_dec (snd y) (snd x)) as [Hlt|Hle].
    + constructor; [constructor; assumption|].
      constructor; [unfold CarbonTraining.by_importance; lra|].
      eapply Forall_impl; [exact Hy|].
      unfold CarbonTraining.by_importance. intros z Hz. lra.
    + constructor; [exact IH|].
      apply List.Forall_forall. intros z Hin.
      apply (Permutation_in _ (insert_desc_perm x l)) in Hin.
      destruct Hin as [<-|Hin]; [exact Hle|].
      rewrite List.Forall_forall in Hy. apply Hy. exact Hin.
Qed.

Lemma sorted_desc_spec l acc :
  StronglySorted CarbonTraining.by_importance acc ->
  StronglySorted CarbonTraining.by_importance
    (fold_left (fun acc x => insert_desc x acc) l acc)
  /\ Permutation (fold_left (fun acc x => insert_desc x acc) l acc)
                 (acc ++ l).
Proof.
  revert acc. induction l as [|x l IH]; intros acc Hacc; cbn [fold_left].
  - rewrite app_nil_r. split; [exact Hacc|reflexivity].
  - destruct (IH (insert_desc x acc) (insert_desc_sorted x acc Hacc))
      as [Hs Hp].
    split; [exact Hs|]. rewrite Hp, insert_desc_perm.
    cbn [app]. apply Permutation_middle.
Qed.

(** X2: The importances come back largest first, each column once with the
    importance the model gives it; a model without importances, or no
    model, gives the empty mapping, and there are never more entries than
    columns. *)
Theorem feature_importance_sorted (self : t) :
  StronglySorted CarbonTraining.by_importance (_get_feature_importance self)
  /\ (forall m importances,
        model self = Some m ->
        feature_importances_ m = Some importances ->
        Permutation (_get_feature_importance self)
                    (combine feature_columns importances))
  /\ (forall m,
        model self = Some m -> feature_importances_ m = None ->
        _get_feature_importance self = [])
  /\ (model self = None -> _get_feature_importance self = [])
  /\ (length (_get_feature_importance self) <= 10)%nat.
Proof.
  unfold _get_feature_importance, sorted_desc.
  destruct (model self) as [m|] eqn:Hm0.
  - destruct (feature_importances_ m) as [importances|] eqn:Hi0.
    + destruct (sorted_desc_spec (combine feature_columns importances) [])
        as [Hs Hp]; [constructor|].
      split; [exact Hs|]. split.
      { intros m' i' Hm Hi. injection Hm as <-.
        assert (i' = importances) as -> by congruence. exact Hp. }
      split; [intros m' Hm Hi; injection Hm as <-; congruence|].
      split; [discriminate|].
      rewrite (Permutation_length Hp). cbn [app].
      rewrite length_combine. cbn [length feature_columns]. lia.
    + split; [constructor|]. split.
      { intros m' i' Hm Hi. injection Hm as <-. congruence. }
      split; [reflexivity|]. split; [reflexivity|]. cbn. lia.
  - split; [constructor|]. split; [discriminate|].
    split; [discriminate|]. split; [reflexivity|]. cbn. lia.
Qed.

(** Three importances: the columns come back by decreasing importance. *)
Lemma feature_importance_sorted_witness :
  let self :=
    {| model := Some {| predict := fun _ => 1;
                        estimators_ := None;
                        feature_importances_ := Some [0.2; 0.5; 0.3] |};
       scaler_transform := fun x => x;
       is_model_loaded := true |} in
  Permutation (_get_feature_importance self)
    [("area_hectares", 0.2); ("vegetation_coverage", 0.5);
     ("temperature_avg", 0.3)]%string
  /\ map fst (_get_feature_importance self)
     = ["vegetation_coverage"; "temperature_avg"; "area_hectares"]%string.
Proof.
  intros self.
  destruct (feature_importance_sorted self) as (_ & Hp & _).
  split; [|reflexivity].
  exact (Hp _ _ eq_refl eq_refl).
Defined.

(** *** The monthly breakdown *)

Lemma months_of_horizon (d1 d2 : Z) :
  (d1 <= d2)%Z ->
  (Z.to_nat (Z.min (d1 / 30) 12) <= Z.to_nat (Z.min (d2 / 30) 12))%nat.
Proof.
  intros H. assert (d1 / 30 <= d2 / 30)%Z by (apply Z.div_le_mono; lia). lia.
Qed.

(** X3: A longer horizon only appends months: the breakdown of the shorter
    horizon is the beginning of the breakdown of the longer one, whatever
    the weather flag; below 30 days there is no month at all, and from 360
    days on the breakdown no longer changes. *)
Theorem monthly_breakdown_grows (annual : Q) (d1 d2 : Z) (w1 w2 : bool) :
  (d1 <= d2)%Z ->
  _calculate_monthly_breakdown annual d1 w1
    `prefix_of` _calculate_monthly_breakdown annual d2 w2
  /\ ((d1 < 30)%Z -> _calculate_monthly_breakdown annual d1 w1 = [])
  /\ ((360 <= d1)%Z ->
        _calculate_monthly_breakdown annual d2 w2
        = _calculate_monthly_breakdown annual d1 w1).
Proof.
  intros Hd. unfold _calculate_monthly_breakdown.
  rewrite !CarbonPredictorSpec.breakdown_rows.
  pose proof (months_of_horizon d1 d2 Hd) as Hn.
  set (n1 := Z.to_nat (Z.min (d1 / 30) 12)) in *.
  set (n2 := Z.to_nat (Z.min (d2 / 30) 12)) in *.
  split; [|split].
  - exists (map (row annual) (seq n1 (n2 - n1))).
    rewrite <- map_app, <- seq_app. do 2 f_equal. lia.
  - intros Hlt. assert (n1 = 0%nat) as ->; [|reflexivity].
    subst n1. assert (d1 / 30 <= 0)%Z; [|lia].
    assert (d1 / 30 < 1)%Z by (apply Z.div_lt_upper_bound; lia). lia.
  - intros Hge. assert (n1 = 12%nat /\ n2 = 12%nat) as [-> ->]; [|reflexivity].
    subst n1 n2.
    assert (12 <= d1 / 30)%Z by (apply Z.div_le_lower_bound; lia).
    assert (12 <= d2 / 30)%Z by (apply Z.div_le_lower_bound; lia).
    lia.
Qed.

(** 100 days give the first three months of a year. *)
Lemma monthly_breakdown_grows_witness :
  _calculate_monthly_breakdown 1200 100 true
    `prefix_of` _calculate_monthly_breakdown 1200 365 false
  /\ length (_calculate_monthly_breakdown 1200 100 true) = 3%nat.
Proof.
  destruct (monthly_breakdown_grows 1200 100 365 true false) as [H _].
  - lia.
  - split; [exact H|reflexivity].
Defined.

Lemma factor_bounds (k : nat) : 0.5 <= factor k <= 1.4.
Proof.
  unfold factor.
  assert (Hk : (k mod 12 < 12)%nat) by (apply Nat.mod_upper_bound; lia).
  destruct (k mod 12)%nat as [|[|[|[|[|[|[|[|[|[|[|[|n]]]]]]]]]]]];
    try lia; cbn; split; discriminate.
Qed.

Lemma factor_prefix_sum (k : nat) :
  (k <= 12)%nat -> py_sum (map factor (seq 0 k)) <= 11.3.
Proof.
  intros Hk.
  destruct k as [|[|[|[|[|[|[|[|[|[|[|[|[|k]]]]]]]]]]]]];
    try lia; vm_compute; discriminate.
Qed.

Lemma cumulative_closed_form (annual : Q) (k : nat) :
  cumulative_co2 (row annual k)
  == annual / 12 * py_sum (map factor (seq 0 (S k))).
Proof.
  cbn [cumulative_co2 row]. rewrite seq_S, map_app. cbn [map Nat.add].
  rewrite py_sum_snoc.
  change (map (tonnes annual) (seq 0 k))
    with (map (fun j => annual / 12 * factor j) (seq 0 k)).
  rewrite py_sum_scale. unfold tonnes. ring.
Qed.

Lemma row_lookup (annual : Q) (n k : nat) (r : month_record) :
  map (row annual) (seq 0 n) !! k = Some r ->
  r = row annual k /\ (k < n)%nat.
Proof.
  intros Hk. rewrite list_lookup_fmap in Hk.
  destruct (seq 0 n !! k) as [j|] eqn:Hj; [|discriminate].
  apply lookup_seq in Hj as [-> Hlt]. cbn in Hk. injection Hk as <-.
  split; [reflexivity|exact Hlt].
Qed.

Lemma tonnes_bounds (annual : Q) (k : nat) :
  0 <= annual ->
  annual * (0.5 / 12) <= tonnes annual k <= annual * (1.4 / 12).
Proof.
  intros Ha. destruct (factor_bounds k) as [H0 H1]. unfold tonnes.
  assert (E : forall c, annual * (c / 12) == annual / 12 * c)
    by (intros c; field).
  rewrite !E.
  assert (0 <= annual / 12) by (apply div_nonneg; lra).
  split; apply mult_le_l; assumption.
Qed.

Lemma tonnes_nonneg (annual : Q) (k : nat) : 0 <= annual -> 0 <= tonnes annual k.
Proof.
  intros Ha. destruct (tonnes_bounds annual k Ha) as [H _].
  assert (0 <= annual * (0.5 / 12))
    by (apply Qmult_le_0_compat; [exact Ha|discriminate]).
  lra.
Qed.

Lemma tonnes_prefix_nonneg (annual : Q) (k : nat) :
  0 <= annual -> 0 <= py_sum (map (tonnes annual) (seq 0 k)).
Proof.
  intros Ha. induction k as [|k IH]; [discriminate|].
  rewrite seq_S, map_app. cbn [map Nat.add]. rewrite py_sum_snoc.
  pose proof (tonnes_nonneg annual k Ha). lra.
Qed.

Lemma cumulative_bound (annual : Q) (k : nat) :
  0 <= annual -> (k < 12)%nat ->
  cumulative_co2 (row annual k) <= annual * (11.3 / 12)
  /\ cumulative_co2 (row annual k) <= annual.
Proof.
  intros Ha Hk.
  assert (H : cumulative_co2 (row annual k) <= annual * (11.3 / 12)).
  { rewrite cumulative_closed_form.
    assert (E : annual * (11.3 / 12) == annual / 12 * 11.3) by field.
    rewrite E.
    pose proof (factor_prefix_sum (S k) ltac:(lia)).
    assert (0 <= annual / 12) by (apply div_nonneg; lra).
    apply mult_le_l; assumption. }
  split; [exact H|].
  assert (E : annual * (11.3 / 12) == annual * (113 # 120)) by field.
  rewrite E in H. lra.
Qed.

(** X4: For an annual estimate that is not negative (the estimate of
    [predict_capture] never is), every month is between 0.5/12 and 1.4/12
    of the year, the cumulative totals never decrease from one record to
    the next, and they stay within 11.3/12 of the annual estimate. *)
Theorem monthly_breakdown_bounds (annual : Q) (timeframe_days : Z) (w : bool) :
  0 <= annual ->
  let rows := _calculate_monthly_breakdown annual timeframe_days w in
  (forall k r, rows !! k = Some r ->
     annual * (0.5 / 12) <= co2_capture_tonnes r <= annual * (1.4 / 12)
     /\ co2_capture_tonnes r <= cumulative_co2 r
     /\ cumulative_co2 r <= annual * (11.3 / 12)
     /\ cumulative_co2 r <= annual)
  /\ (forall k r r', rows !! k = Some r -> rows !! S k = Some r' ->
        cumulative_co2 r' == cumulative_co2 r + co2_capture_tonnes r'
        /\ cumulative_co2 r <= cumulative_co2 r').
Proof.
  intros Ha rows. subst rows. unfold _calculate_monthly_breakdown.
  set (n := Z.to_nat (Z.min (timeframe_days / 30) 12)).
  assert (Hn : (n <= 12)%nat) by (subst n; lia).
  rewrite CarbonPredictorSpec.breakdown_rows.
  split.
  - intros k r Hk. destruct (row_lookup annual n k r Hk) as [-> Hlt].
    destruct (tonnes_bounds annual k Ha) as [Ht0 Ht1].
    pose proof (tonnes_prefix_nonneg annual k Ha) as Hsum0.
    destruct (cumulative_bound annual k Ha ltac:(lia)) as [Hc1 Hc2].
    cbn [co2_capture_tonnes row].
    split; [split; assumption|]. split; [cbn [cumulative_co2 row]; lra|].
    split; assumption.
  - intros k r r' Hk Hk'.
    destruct (row_lookup annual n k r Hk) as [-> _].
    destruct (row_lookup annual n (S k) r' Hk') as [-> _].
    pose proof (tonnes_nonneg annual (S k) Ha) as Ht0.
    assert (E : cumulative_co2 (row annual (S k))
                == cumulative_co2 (row annual k) + tonnes annual (S k)).
    { cbn [cumulative_co2 row]. rewrite seq_S, map_app. cbn [map Nat.add].
      rewrite py_sum_snoc. reflexivity. }
    cbn [co2_capture_tonnes row]. split; [exact E|]. rewrite E. lra.
Qed.

(** A year of 1200 tonnes: January gets 60 tonnes, and the total after
    February is the one after January plus February. *)
Lemma monthly_breakdown_bounds_witness :
  let rows := _calculate_monthly_breakdown 1200 365 true in
  exists january february,
    rows !! 0%nat = Some january /\ rows !! 1%nat = Some february
    /\ co2_capture_tonnes january == 60
    /\ cumulative_co2 january <= cumulative_co2 february
    /\ cumulative_co2 february <= 1200.
Proof.
  intros rows.
  destruct (monthly_breakdown_bounds 1200 365 true) as [Hrows Hnext];
    [discriminate|].
  exists (row 1200 0), (row 1200 1).
  split; [reflexivity|]. split; [reflexivity|].
  split; [reflexivity|]. split.
  - apply (Hnext 0%nat); reflexivity.
  - apply (Hrows 1%nat). reflexivity.
Defined.

(** *** Estimates and detailed predictions *)

Lemma poor_below_twenty (prediction feasibility : Q) :
  prediction <= 20 ->
  _generate_recommendation prediction feasibility
  = "Poor project feasibility. Not recommended for carbon credit investment."%string.
Proof.
  intros Hp. unfold _generate_recommendation.
  assert (G100 : gtb prediction 100 = false)
    by (unfold gtb; destruct (Qlt_le_dec 100 prediction); [lra|reflexivity]).
  assert (G50 : gtb prediction 50 = false)
    by (unfold gtb; destruct (Qlt_le_dec 50 prediction); [lra|reflexivity]).
  assert (G20 : gtb prediction 20 = false)
    by (unfold gtb; destruct (Qlt_le_dec 20 prediction); [lra|reflexivity]).
  rewrite G100, G50, G20, !andb_false_r. reflexivity.
Qed.

Section MoreEstimates.

Variable np_std : list Q -> Q.
Variable environment : gmap string Q -> gmap string Q.
Variable now : Z.
Variable isoformat : Z -> string.

(** [np.std] is never negative. *)
Hypothesis np_std_nonneg : forall predictions, 0 <= np_std predictions.

Lemma uncertainty_nonneg (m : regressor) (x : list Q) :
  0 <= uncertainty np_std m x.
Proof.
  unfold uncertainty. destruct (estimators_ m) as [trees|].
  - apply np_std_nonneg.
  - pose proof (Qabs_nonneg (predict m x)). lra.
Qed.

(** X5: A loaded predictor returns an estimate for every project of
    non-zero area whose start date is naive, and every estimate that
    [estimate_co2_capture] returns for a project of non-zero area has a
    point estimate that is not negative and a lower bound between 0 and
    the point estimate; an estimate of zero tonnes always comes with the
    "not recommended" text. *)
Theorem estimate_lower_within_point (self : t) (project : ProjectData)
  (tr : trace) :
  (forall m,
      is_model_loaded self = true ->
      model self = Some m ->
      ~ area_hectares project == 0 ->
      utcoffset (start_date project) = None ->
      exists e tr',
        estimate_co2_capture np_std environment now isoformat self project tr
        = (Ret e, tr'))
  /\ (forall e tr',
        ~ area_hectares project == 0 ->
        estimate_co2_capture np_std environment now isoformat self project tr
        = (Ret e, tr') ->
        0 <= confidence_lower e <= annual_co2_tonnes e
        /\ (annual_co2_tonnes e == 0 ->
            recommendation e
            = "Poor project feasibility. Not recommended for carbon credit investment."%string)).
Proof.
  split.
  { intros m Hloaded Hm Hne Hnaive.
    destruct (CarbonPredictorSpec.estimate_run np_std environment now isoformat
                self m project tr Hloaded Hm Hne Hnaive) as (f & Hrun & _).
    eexists. eexists. exact Hrun. }
  intros e tr' Hne Hreturned.
  destruct (CarbonPredictorSpec.estimate_inv np_std environment now isoformat
              self project tr e tr' Hreturned)
    as (m & Hloaded & Hm & Hnaive).
  assert (exists e0 tr0,
    estimate_co2_capture np_std environment now isoformat self project tr
    = (Ret e0, tr0)
    /\ 0 <= confidence_lower e0 <= annual_co2_tonnes e0
    /\ (annual_co2_tonnes e0 == 0 ->
        recommendation e0
        = "Poor project feasibility. Not recommended for carbon credit investment."%string))
    as (e0 & tr0 & Hrun0 & Hbounds).
  2:{ rewrite Hreturned in Hrun0. injection Hrun0 as <- _. exact Hbounds. }
  destruct (CarbonPredictorSpec.estimate_run np_std environment now isoformat
              self m project tr Hloaded Hm Hne Hnaive) as (f & Hrun & _).
  eexists. eexists. split; [exact Hrun|].
  cbn [confidence_lower annual_co2_tonnes recommendation].
  set (x := scaler_transform self (feature_vector environment now project)).
  pose proof (uncertainty_nonneg m x) as Hs.
  set (sigma := uncertainty np_std m x) in *.
  set (p := predict m x).
  split; [split|].
  - pose proof (py_max_ge_r (p - 1.96 * sigma) 0.0). lra.
  - unfold py_max.
    destruct (Qlt_le_dec (p - 1.96 * sigma) 0.0), (Qlt_le_dec p 0.0); lra.
  - intros Hzero. apply poor_below_twenty.
    unfold py_max in Hzero. destruct (Qlt_le_dec p 0.0); lra.
Qed.

(** X6: For a project of non-zero area whose start date is naive, the
    detailed prediction of a loaded predictor is its estimate with the
    breakdown of the floored annual tonnes: same point estimate,
    interval, recommendation and feasibility, confidence level 0.95, no
    further log entry; every month of the breakdown is non-negative and
    every running total stays within the point estimate. *)
Theorem detailed_prediction_composes (self : t) (m : regressor)
  (project : ProjectData) (timeframe_days : Z) (weather : bool) (tr : trace) :
  is_model_loaded self = true ->
  model self = Some m ->
  ~ area_hectares project == 0 ->
  utcoffset (start_date project) = None ->
  exists e report tr',
    estimate_co2_capture np_std environment now isoformat self project tr
    = (Ret e, tr')
    /\ predict_capture np_std environment now isoformat self project
                       timeframe_days weather tr
       = (Ret report, tr')
    /\ predicted_co2_capture report = annual_co2_tonnes e
    /\ 0 <= predicted_co2_capture report
    /\ lower_bound report = confidence_lower e
    /\ upper_bound report = confidence_upper e
    /\ confidence_level report == 0.95
    /\ report_recommendation report = recommendation e
    /\ feasibility_score report = feasibility e
    /\ monthly_breakdown report
       = _calculate_monthly_breakdown (predicted_co2_capture report)
                                      timeframe_days weather
    /\ (forall k r, monthly_breakdown report !! k = Some r ->
          0 <= co2_capture_tonnes r
          /\ cumulative_co2 r <= predicted_co2_capture report).
Proof.
  intros Hloaded Hm Hne Hnaive.
  destruct (CarbonPredictorSpec.estimate_run np_std environment now isoformat
              self m project tr Hloaded Hm Hne Hnaive) as (f & Hrun & _).
  eexists. eexists. eexists. split; [exact Hrun|]. split.
  { unfold predict_capture. apply try_except_ret.
    rewrite (bind_ret _ _ _ _ _ Hrun). reflexivity. }
  cbn [predicted_co2_capture lower_bound upper_bound confidence_level
       report_recommendation feasibility_score monthly_breakdown
       annual_co2_tonnes confidence_lower confidence_upper recommendation
       feasibility].
  set (p := predict m _).
  assert (Hp : 0 <= py_max p 0.0)
    by (pose proof (py_max_ge_r p 0.0); lra).
  repeat (split; [reflexivity || exact Hp|]).
  intros k r Hk. unfold _calculate_monthly_breakdown in Hk.
  rewrite CarbonPredictorSpec.breakdown_rows in Hk.
  apply row_lookup in Hk as [-> Hlt].
  split.
  - apply tonnes_nonneg. exact Hp.
  - apply cumulative_bound; [exact Hp|lia].
Qed.

End MoreEstimates.

(** The example project with a forest that answers 164.0625 tonnes. *)
Lemma estimate_lower_within_point_witness :
  exists e tr',
    estimate_co2_capture Examples.no_spread Examples.no_environment
      Examples.clock Examples.iso_text (Examples.predictor 164.0625)
      Examples.project [] = (Ret e, tr')
    /\ 0 <= confidence_lower e <= annual_co2_tonnes e.
Proof.
  destruct (estimate_lower_within_point Examples.no_spread
              Examples.no_environment Examples.clock Examples.iso_text
              ltac:(intros l; discriminate)
              (Examples.predictor 164.0625) Examples.project [])
    as (Hreturns & Hbounds).
  destruct (Hreturns (Examples.constant_regressor 164.0625)
                     eq_refl eq_refl ltac:(intros H; discriminate H) eq_refl)
    as (e & tr' & Hrun).
  exists e, tr'. split; [exact Hrun|].
  apply (Hbounds e tr' ltac:(intros H; discriminate H) Hrun).
Defined.

(** The same project over 100 days: three months, none negative. *)
Lemma detailed_prediction_composes_witness :
  exists report tr',
    predict_capture Examples.no_spread Examples.no_environment
      Examples.clock Examples.iso_text (Examples.predictor 164.0625)
      Examples.project 100 true [] = (Ret report, tr')
    /\ 0 <= predicted_co2_capture report
    /\ monthly_breakdown report
       = _calculate_monthly_breakdown (predicted_co2_capture report) 100 true.
Proof.
  destruct (detailed_prediction_composes Examples.no_spread
              Examples.no_environment Examples.clock Examples.iso_text
              (Examples.predictor 164.0625)
              (Examples.constant_regressor 164.0625) Examples.project
              100 true [] eq_refl eq_refl ltac:(intros H; discriminate H)
              eq_refl)
    as (e & report & tr' & _ & Hrun & _ & Hp & _ & _ & _ & _ & _ & Hm & _).
  exists report, tr'. repeat split; assumption.
Defined.

(** ** Training data and loading *)

Import CarbonTraining.

(** *** The mock training target *)

Lemma product_bounds (x y lx ux ly uy : Q) :
  0 <= lx -> lx <= x <= ux -> 0 <= ly -> ly <= y <= uy ->
  lx * ly <= x * y <= ux * uy.
Proof.
  intros Hlx [Hx1 Hx2] Hly [Hy1 Hy2]. split.
  - apply Qle_trans with (x * ly).
    + apply Qmult_le_compat_r; assumption.
    + apply mult_le_l; lra.
  - apply Qle_trans with (x * uy).
    + apply mult_le_l; lra.
    + apply Qmult_le_compat_r; lra.
Qed.

Lemma expected_capture_bounds (r : training_row) :
  drawn r -> 0.0156 <= expected_capture r <= 5700.
Proof.
  unfold drawn, expected_capture.
  intros (Ha & Hv & _ & Hp & Hs & _).
  assert (B1 : 1 * 0.1 <= row_area_hectares r * 0.1 <= 10000 * 0.1) by lra.
  assert (B2 : 0.1 <= row_vegetation_coverage r / 100 <= 0.95).
  { assert (E : row_vegetation_coverage r / 100
                == row_vegetation_coverage r * (1 # 100)) by field.
    rewrite E. lra. }
  assert (B3 : 1.3 <= 1 + row_soil_quality_index r <= 2) by lra.
  assert (B4 : 1.2 <= 1 + row_precipitation_mm r / 1000 <= 3).
  { assert (E : row_precipitation_mm r / 1000
                == row_precipitation_mm r * (1 # 1000)) by field.
    rewrite E. lra. }
  assert (P1 : 1 * 0.1 * 0.1
               <= row_area_hectares r * 0.1 * (row_vegetation_coverage r / 100)
               <= 10000 * 0.1 * 0.95)
    by (apply product_bounds; [lra | exact B1 | lra | exact B2]).
  assert (P2 : 1 * 0.1 * 0.1 * 1.3
               <= row_area_hectares r * 0.1 * (row_vegetation_coverage r / 100)
                  * (1 + row_soil_quality_index r)
               <= 10000 * 0.1 * 0.95 * 2)
    by (apply product_bounds; [lra | exact P1 | lra | exact B3]).
  assert (P3 : 1 * 0.1 * 0.1 * 1.3 * 1.2
               <= row_area_hectares r * 0.1 * (row_vegetation_coverage r / 100)
                  * (1 + row_soil_quality_index r)
                  * (1 + row_precipitation_mm r / 1000)
               <= 10000 * 0.1 * 0.95 * 2 * 3)
    by (apply product_bounds; [lra | exact P2 | lra | exact B4]).
  destruct P3 as [L U]. split.
  - eapply Qle_trans; [|exact L]. vm_compute; discriminate.
  - eapply Qle_trans; [exact U|]. vm_compute; discriminate.
Qed.

(** X7: Every target of the mock frame is the deterministic product of area,
    vegetation share, soil quality and precipitation, moved by at most
    20%: it is positive, between 0.01248 and 6840 tonnes, and the frame
    has one target per drawn row. *)
Theorem mock_targets_bounded (draws : list training_row) :
  Forall drawn draws ->
  length (_generate_mock_training_data draws) = length draws
  /\ Forall (fun sample =>
               snd sample = co2_capture_tonnes_year (fst sample)
               /\ 0.8 * expected_capture (fst sample) <= snd sample
                  <= 1.2 * expected_capture (fst sample)
               /\ 0.01248 <= snd sample <= 6840)
            (_generate_mock_training_data draws).
Proof.
  intros Hd. unfold _generate_mock_training_data.
  split; [apply length_map|].
  apply List.Forall_map. eapply Forall_impl; [exact Hd|].
  intros r Hr. cbn [fst snd].
  pose proof (expected_capture_bounds r Hr) as [E0 E1].
  assert (Hv : 0.8 <= row_variation r <= 1.2) by (unfold drawn in Hr; tauto).
  assert (Et : co2_capture_tonnes_year r
               == expected_capture r * row_variation r)
    by (unfold co2_capture_tonnes_year, expected_capture; ring).
  split; [reflexivity|].
  assert (Hpos : 0 <= expected_capture r) by lra.
  assert (L : expected_capture r * 0.8 <= expected_capture r * row_variation r)
    by (apply mult_le_l; lra).
  assert (U : expected_capture r * row_variation r <= expected_capture r * 1.2)
    by (apply mult_le_l; lra).
  rewrite Et. split; [lra|]. lra.
Qed.

(** One row at the low end of every range: 0.01248 tonnes. *)
Lemma mock_targets_bounded_witness :
  let r := {| row_area_hectares := 1; row_vegetation_coverage := 10;
              row_temperature_avg := 5; row_precipitation_mm := 200;
              row_soil_quality_index := 0.3; row_elevation_m := 0;
              row_slope_degrees := 0; row_biodiversity_index := 0.2;
              row_human_activity_index := 0.0; row_project_age_months := 1;
              row_variation := 0.8 |} in
  Forall (fun sample => 0.01248 <= snd sample <= 6840)
         (_generate_mock_training_data [r])
  /\ co2_capture_tonnes_year r == 0.01248.
Proof.
  intros r.
  destruct (mock_targets_bounded [r]) as [_ H].
  - constructor; [|constructor].
    unfold drawn, r. cbn. repeat split; discriminate.
  - split; [|reflexivity].
    eapply Forall_impl; [exact H|]. intros s (_ & _ & Hs). exact Hs.
Defined.

(** *** [load_model] *)

Section LoadingSpec.

Variable model_file : artifact regressor.
Variable scaler_file : artifact (list Q -> list Q).
Variable fit : string + (regressor * (list Q -> list Q)).
Variable dump : option string.
Variable model_path : string.
Variable metrics : string.

Local Abbreviation load_model :=
  (CarbonTraining.load_model model_file scaler_file fit dump model_path metrics).

Lemma create_and_load_run (self : t) (tr : trace) :
  match fit with
  | inl msg =>
      create_and_load fit dump model_path metrics self tr
      = (Raise msg, LogInfo "Creating new carbon predictor model" :: tr)
  | inr (forest, transform) =>
      create_and_load fit dump model_path metrics self tr
      = (Ret {| model := Some forest;
                scaler_transform := transform;
                is_model_loaded := true |},
         match dump with
         | Some msg => LogWarning ("Failed to save model: " ++ msg)
         | None => LogInfo ("Model saved to " ++ model_path)
         end
         :: LogInfo ("Model trained - " ++ metrics)
         :: LogInfo "Creating new carbon predictor model" :: tr)
  end.
Proof.
  unfold create_and_load, _create_carbon_model.
  destruct fit as [msg | [forest transform]]; [reflexivity|].
  destruct dump; reflexivity.
Qed.

(** X8: Whatever is on disk and whatever the instance held, [load_model]
    ends in one of three ways.  It returns with the flag up and a model
    assigned; or it returns with the flag down, exactly when an artifact
    could not be read, having logged the error (the model read before an
    unreadable scaler stays assigned); or it raises, only when an artifact
    was missing and the training itself raised.  [is_loaded] agrees with
    the flag on every instance it returns. *)
Theorem load_model_outcomes (self : t) (tr : trace) :
  match load_model self tr with
  | (Ret self', tr') =>
      is_loaded self' = is_model_loaded self'
      /\ (is_model_loaded self' = true -> exists forest, model self' = Some forest)
      /\ (is_model_loaded self' = false <->
          (exists msg, model_file = Unreadable msg)
          \/ (exists forest msg,
                 model_file = Stored forest /\ scaler_file = Unreadable msg))
      /\ (forall forest msg,
             model_file = Stored forest -> scaler_file = Unreadable msg ->
             model self' = Some forest
             /\ tr' = LogError ("Failed to load carbon predictor model: " ++ msg)
                      :: tr)
  | (Raise msg, _) =>
      fit = inl msg
      /\ (model_file = FileMissing
          \/ exists forest,
               model_file = Stored forest /\ scaler_file = FileMissing)
  | (NonFinite, _) => False
  end.
Proof.
  unfold CarbonTraining.load_model.
  destruct model_file as [forest | | msg] eqn:Em.
  - destruct scaler_file as [transform | | msg] eqn:Es.
    + cbn. unfold is_loaded. cbn. repeat split.
      * intros _. eexists; reflexivity.
      * intros H; discriminate H.
      * intros [[m H] | (f & m & _ & H)]; discriminate H.
      * discriminate H0.
      * discriminate H0.
    + match goal with
      | |- context [create_and_load _ _ _ _ ?s ?t] =>
          pose proof (create_and_load_run s t) as R
      end.
      destruct fit as [msg | [forest' transform]]; rewrite R.
      * split; [reflexivity|]. right. eexists; split; reflexivity.
      * unfold is_loaded. cbn. repeat split.
        -- intros _. eexists; reflexivity.
        -- intros H; discriminate H.
        -- intros [[m H] | (f & m & _ & H)]; discriminate H.
        -- discriminate H0.
        -- discriminate H0.
    + cbn. unfold is_loaded. cbn. repeat split.
      * intros H; discriminate H.
      * intros _. right. do 2 eexists; split; reflexivity.
      * injection H as ->. reflexivity.
      * injection H0 as ->. reflexivity.
  - pose proof (create_and_load_run self tr) as R.
    destruct fit as [msg | [forest' transform]]; rewrite R.
    + split; [reflexivity|]. left; reflexivity.
    + unfold is_loaded. cbn. repeat split.
      * intros _. eexists; reflexivity.
      * intros H; discriminate H.
      * intros [[m H] | (f & m & H & _)]; discriminate H.
      * discriminate H.
      * discriminate H.
  - cbn. unfold is_loaded. cbn. repeat split.
    + intros H; discriminate H.
    + intros _. left. eexists; reflexivity.
    + discriminate H.
    + discriminate H.
Qed.

(** X9: With an artifact missing the predictor trains: when the fit succeeds
    the instance holds the fitted forest and the fitted scaler with the
    flag up, also when the artifacts cannot be saved, which only logs a
    warning; when the fit raises, its exception leaves [load_model]. *)
Theorem load_model_trains (self : t) (tr : trace) :
  model_file = FileMissing
  \/ (exists forest, model_file = Stored forest /\ scaler_file = FileMissing) ->
  match fit with
  | inl msg =>
      load_model self tr
      = (Raise msg, LogInfo "Creating new carbon predictor model" :: tr)
  | inr (forest, transform) =>
      load_model self tr
      = (Ret {| model := Some forest;
                scaler_transform := transform;
                is_model_loaded := true |},
         match dump with
         | Some msg => LogWarning ("Failed to save model: " ++ msg)
         | None => LogInfo ("Model saved to " ++ model_path)
         end
         :: LogInfo ("Model trained - " ++ metrics)
         :: LogInfo "Creating new carbon predictor model" :: tr)
  end.
Proof.
  unfold CarbonTraining.load_model.
  intros [-> | (forest & -> & ->)].
  - apply create_and_load_run.
  - match goal with
    | |- context [create_and_load _ _ _ _ ?s ?t] =>
        pose proof (create_and_load_run s t) as R
    end.
    destruct fit as [msg | [forest' transform]]; exact R.
Qed.

End LoadingSpec.

(** No artifacts on disk and a disk that cannot be written: the constant
    forest is trained and loaded. *)
Lemma load_model_trains_witness :
  fst (CarbonTraining.load_model FileMissing FileMissing
         (inr (Examples.constant_regressor 5, fun x => x))
         (Some "read-only file system"%string)
         "./models/carbon_predictor.joblib" "MSE: 0.00, R2: 1.000"
         Examples.failed_predictor [])
  = Ret {| model := Some (Examples.constant_regressor 5);
           scaler_transform := fun x => x;
           is_model_loaded := true |}.
Proof.
  rewrite (load_model_trains FileMissing FileMissing
             (inr (Examples.constant_regressor 5, fun x => x))
             (Some "read-only file system"%string)
             "./models/carbon_predictor.joblib" "MSE: 0.00, R2: 1.000"
             Examples.failed_predictor [] (or_introl eq_refl)).
  reflexivity.
Defined.

(** *** Feasibility under the mock environment *)

Lemma capped_share (x : Q) : 0 <= x -> 0 <= py_min x 1.0 <= 1.
Proof.
  intros Hx. pose proof (py_min_le_r x 1.0).
  split; [apply py_min_glb; lra|lra].
Qed.

Section MockEnvironment.

Variable np_std : list Q -> Q.
Variable environment : gmap string Q -> gmap string Q.
Variable now : Z.
Variable isoformat : Z -> string.

(** The provider is the mock of the source. *)
Hypothesis environment_is_mock :
  forall location, CarbonTraining.mock_environmental_data (environment location).

(** X10: With the environmental data of the source, whose soil quality is
    at most 0.9 and whose precipitation is at least 500 mm, the
    feasibility of a project of positive area with a naive start date is
    at most 0.964375, so the
    cap at 1.0 never binds; when the model's prediction is not negative
    it is at least 0.414375, so the "not recommended" text is given
    exactly when the prediction is at most 20 tonnes. *)
Theorem mock_environment_feasibility (self : t) (m : regressor)
  (project : ProjectData) (t0 : trace) :
  is_model_loaded self = true ->
  model self = Some m ->
  0 < area_hectares project ->
  utcoffset (start_date project) = None ->
  let p := predict m (scaler_transform self
                        (feature_vector environment now project)) in
  exists e t',
    estimate_co2_capture np_std environment now isoformat self project t0
    = (Ret e, t')
    /\ feasibility e <= 0.964375
    /\ (0 <= p ->
        0.414375 <= feasibility e
        /\ (recommendation e
            = "Poor project feasibility. Not recommended for carbon credit investment."%string
            <-> p <= 20)).
Proof.
  intros Hloaded Hm Harea Hnaive p.
  assert (Hne : ~ area_hectares project == 0) by lra.
  destruct (CarbonPredictorSpec.estimate_run np_std environment now isoformat
              self m project t0 Hloaded Hm Hne Hnaive) as (f & Hrun & Hf).
  cbv zeta in Hrun, Hf. fold p in Hrun, Hf.
  destruct (environment_is_mock (location project))
    as (te & pr & sq & el & sl & bi & hu & Henv & _ & Hpr & Hsq & _).
  assert (Esq : environment (location project) !! "soil_quality"%string
                = Some sq) by (rewrite Henv; vm_compute; reflexivity).
  assert (Epr : environment (location project) !! "precipitation"%string
                = Some pr) by (rewrite Henv; vm_compute; reflexivity).
  rewrite Esq, Epr in Hf. cbn [default] in Hf. clear Henv Esq Epr.
  unfold weighted_factors in Hf.
  assert (Hveg : py_min (75.0 / 80.0) 1.0 == 0.9375) by reflexivity.
  assert (Hprec : 0.5 <= py_min (pr / 1000.0) 1.0 <= 1).
  { pose proof (py_min_le_r (pr / 1000.0) 1.0). split; [|lra].
    apply py_min_glb; [|lra]. apply Qle_shift_div_l; lra. }
  assert (Hsize : 0 <= py_min (area_hectares project / 100.0) 1.0 <= 1).
  { apply capped_share. apply div_nonneg; lra. }
  assert (Hreason : py_min (p / (area_hectares project * 5)) 1.0 <= 1).
  { pose proof (py_min_le_r (p / (area_hectares project * 5)) 1.0). lra. }
  set (v := py_min (75.0 / 80.0) 1.0) in *.
  set (a := py_min (pr / 1000.0) 1.0) in *.
  set (b := py_min (area_hectares project / 100.0) 1.0) in *.
  set (c := py_min (p / (area_hectares project * 5)) 1.0) in *.
  assert (Hcap : py_min (0.25 * v + 0.20 * sq + 0.20 * a + 0.15 * b
                         + 0.20 * c) 1.0
                 == 0.25 * v + 0.20 * sq + 0.20 * a + 0.15 * b + 0.20 * c).
  { unfold py_min. destruct (Qlt_le_dec 1.0 _) as [H|H]; [lra|reflexivity]. }
  pose proof (Qeq_trans _ _ _ Hf Hcap) as Hf'. clear Hf Hcap.
  eexists. eexists. split; [exact Hrun|].
  cbn [feasibility recommendation].
  split; [lra|]. intros Hp.
  assert (Hc0 : 0 <= c).
  { unfold c. apply capped_share. apply div_nonneg; lra. }
  assert (Hlow : 0.414375 <= f) by lra.
  split; [exact Hlow|]. split.
  - intros Hpoor. destruct (Qlt_le_dec 20 p) as [Hgt|Hle]; [|exact Hle].
    exfalso. unfold _generate_recommendation in Hpoor.
    assert (G : gtb f 0.4 && gtb p 20 = true)
      by (apply both_above; split; lra).
    destruct (gtb f 0.8 && gtb p 100); [discriminate Hpoor|].
    destruct (gtb f 0.6 && gtb p 50); [discriminate Hpoor|].
    rewrite G in Hpoor. discriminate Hpoor.
  - apply poor_below_twenty.
Qed.

End MockEnvironment.

(** The example project with a soil quality of 0.9 and 500 mm of
    precipitation, predicted at 164.0625 tonnes. *)
Lemma mock_environment_feasibility_witness :
  exists e t',
    estimate_co2_capture Examples.no_spread
      (fun _ => list_to_map
                  [ ("temperature", 20); ("precipitation", 500);
                    ("soil_quality", 0.9); ("elevation", 500);
                    ("slope", 10); ("biodiversity", 0.6);
                    ("human_activity", 0.3) ]%string)
      Examples.clock Examples.iso_text (Examples.predictor 164.0625)
      Examples.project []
    = (Ret e, t')
    /\ 0.414375 <= feasibility e <= 0.964375.
Proof.
  destruct (mock_environment_feasibility Examples.no_spread
              (fun _ => list_to_map
                          [ ("temperature", 20); ("precipitation", 500);
                            ("soil_quality", 0.9); ("elevation", 500);
                            ("slope", 10); ("biodiversity", 0.6);
                            ("human_activity", 0.3) ]%string)
              Examples.clock Examples.iso_text)
    with (self := Examples.predictor 164.0625)
         (m := Examples.constant_regressor 164.0625)
         (project := Examples.project) (t0 := @nil event)
    as (e & t' & Hrun & Hup & Hlow).
  - intros location. exists 20, 500, 0.9, 500, 10, 0.6, 0.3.
    split; [reflexivity|]. repeat split; discriminate.
  - reflexivity.
  - reflexivity.
  - reflexivity.
  - reflexivity.
  - exists e, t'. split; [exact Hrun|].
    destruct Hlow as [Hlow _]; [discriminate|]. split; assumption.
Defined.
End CarbonPredictorMore.

(** ** satellite_analyzer.py *)

Module SatelliteAnalyzerMore.
Import SatelliteAnalyzer SatelliteLifecycle.

(** *** The classification of one image *)

(** [np.argmax] scans from the left and keeps the first largest score. *)
Lemma argmax_from_spec (seen xs : list Q) (best_i : nat) (best : Q) :
  seen !! best_i = Some best ->
  (forall j y, seen !! j = Some y -> y <= best) ->
  (forall j y, (j < best_i)%nat -> seen !! j = Some y -> y < best) ->
  let idx := argmax_from best_i best (length seen) xs in
  exists top,
    (seen ++ xs) !! idx = Some top
    /\ (forall j y, (seen ++ xs) !! j = Some y -> y <= top)
    /\ (forall j y, (j < idx)%nat -> (seen ++ xs) !! j = Some y -> y < top).
Proof.
  revert seen best_i best. induction xs as [|x xs IH];
    intros seen best_i best Hbest Hmax Hfirst; cbn [argmax_from].
  - rewrite app_nil_r. exists best. auto.
  - destruct (Qlt_le_dec best x) as [Hlt|Hle].
    + specialize (IH (seen ++ [x]) (length seen) x).
      rewrite length_app, Nat.add_1_r, <- app_assoc in IH. apply IH.
      * rewrite lookup_app_r by lia. rewrite Nat.sub_diag. reflexivity.
      * intros j y Hj. apply lookup_app_Some in Hj as [Hj|[_ Hj]].
        -- specialize (Hmax j y Hj). lra.
        -- apply list_lookup_singleton_Some in Hj as [_ <-]. lra.
      * intros j y Hlt' Hj. rewrite lookup_app_l in Hj by exact Hlt'.
        specialize (Hmax j y Hj). lra.
    + specialize (IH (seen ++ [x]) best_i best).
      rewrite length_app, Nat.add_1_r, <- app_assoc in IH. apply IH.
      * apply lookup_app_l_Some. exact Hbest.
      * intros j y Hj. apply lookup_app_Some in Hj as [Hj|[_ Hj]].
        -- exact (Hmax j y Hj).
        -- apply list_lookup_singleton_Some in Hj as [_ <-]. exact Hle.
      * intros j y Hlt' Hj.
        assert (Hb : (best_i < length seen)%nat)
          by (apply lookup_lt_is_Some; eexists; exact Hbest).
        rewrite lookup_app_l in Hj by lia. exact (Hfirst j y Hlt' Hj).
Qed.

Lemma np_argmax_spec (scores : list Q) (idx : nat) t t' :
  np_argmax scores t = (Ret idx, t') ->
  t' = t
  /\ exists top,
       scores !! idx = Some top
       /\ (forall j y, scores !! j = Some y -> y <= top)
       /\ (forall j y, (j < idx)%nat -> scores !! j = Some y -> y < top).
Proof.
  destruct scores as [|x xs]; cbn; [discriminate|].
  intros H. injection H as <- <-. split; [reflexivity|].
  apply (argmax_from_spec [x] xs 0 x).
  - reflexivity.
  - intros [|j] y Hj; cbn in Hj; [|discriminate Hj].
    injection Hj as <-. lra.
  - intros j y Hj. lia.
Qed.

Lemma array_item_inv {A} (xs : list A) (i : nat) (x : A) t t' :
  array_item xs i t = (Ret x, t') -> xs !! i = Some x /\ t' = t.
Proof.
  unfold array_item. destruct (xs !! i); cbn; [|discriminate].
  intros H. injection H as -> ->. split; reflexivity.
Qed.

Lemma list_item_inv {A} (xs : list A) (i : nat) (x : A) t t' :
  list_item xs i t = (Ret x, t') -> xs !! i = Some x /\ t' = t.
Proof.
  unfold list_item. destruct (xs !! i); cbn; [|discriminate].
  intros H. injection H as <- <-. split; reflexivity.
Qed.

Section Classification.

Variable cv2_resize : image -> string + image.
Variable cv2_cvtColor : list nat -> list Q -> string + list pixel.
Variable now : Z.
Variable isoformat : Z -> string.

Local Abbreviation analyze :=
  (analyze_single_image cv2_resize cv2_cvtColor now isoformat).

Lemma coverage_trace image_data t c t' :
  _calculate_vegetation_coverage cv2_cvtColor image_data t = (Ret c, t') ->
  t' = t
  \/ exists msg,
       t' = LogError ("Vegetation coverage calculation failed: " ++ msg) :: t.
Proof.
  destruct (to_rgb cv2_cvtColor image_data) as [msg|pixels] eqn:Hrgb.
  - rewrite (SatelliteAnalyzerSpec.coverage_of_rejected_image _ _ msg t Hrgb).
    intros H. injection H as _ <-. right. exists msg. reflexivity.
  - unfold _calculate_vegetation_coverage, try_except, bind.
    rewrite Hrgb. cbn [lift ret]. unfold np_div.
    destruct (Qeq_bool _ 0); cbn; [discriminate|].
    intros H. injection H as _ <-. left. reflexivity.
Qed.


End Classification.


(** *** Pixels and coverage *)

(** On non-negative channels the index exceeds 0.2 exactly when green
    exceeds one and a half times red (plus 2.5e-9). *)
Lemma ndvi_above_greener (p : pixel) :
  0 <= red p -> 0 <= green p -> ndvi_above p = greener p.
Proof.
  intros Hr Hg. unfold ndvi_above, greener.
  assert (He : 0 < 1e-8) by reflexivity.
  assert (Ec : 2.5e-9 == 0.25 * 1e-8) by reflexivity.
  set (e := 1e-8) in *. set (c := 2.5e-9) in *. clearbody e c.
  assert (Hd : 0 < green p + red p + e) by lra.
  destruct (Qeq_bool (green p + red p + e) 0) eqn:E.
  - apply Qeq_bool_iff in E. lra.
  - assert (Hiff : 0.2 < (green p - red p) / (green p + red p + e)
                   <-> 1.5 * red p + c < green p).
    { split; intros H.
      - apply (Qmult_lt_compat_r _ _ _ Hd) in H.
        assert (E0 : (green p - red p) / (green p + red p + e)
                     * (green p + red p + e) == green p - red p)
          by (field; lra).
        rewrite E0 in H. lra.
      - apply Qlt_shift_div_l; [exact Hd|]. lra. }
    unfold gtb.
    destruct (Qlt_le_dec 0.2 _) as [H1|H1],
             (Qlt_le_dec (1.5 * red p + c) (green p)) as [H2|H2];
      try reflexivity.
    + apply Hiff in H1. lra.
    + apply Hiff in H2. lra.
Qed.

Lemma filter_greener (pixels : list pixel) :
  Forall (fun p => 0 <= red p /\ 0 <= green p) pixels ->
  List.filter ndvi_above pixels = List.filter greener pixels.
Proof.
  induction 1 as [|p pixels [Hr Hg] _ IH]; [reflexivity|].
  cbn [List.filter]. rewrite (ndvi_above_greener p Hr Hg), IH. reflexivity.
Qed.

Section CoverageMore.

Variable cv2_cvtColor : list nat -> list Q -> string + list pixel.

(** X12: The coverage never raises: a failure is caught, logged and answered
    with 0.0.  For a three-channel image of non-negative channels (the
    blue channel is not read) it is 100 times the share of the pixels
    whose green exceeds 1.5 times their red by more than 2.5e-9, and the
    cap at 100 never binds. *)
Theorem coverage_counts_green_pixels (image_data : image) (t : trace) :
  (forall msg t',
      _calculate_vegetation_coverage cv2_cvtColor image_data t
      <> (Raise msg, t'))
  /\ (forall msg,
         to_rgb cv2_cvtColor image_data = inl msg ->
         _calculate_vegetation_coverage cv2_cvtColor image_data t
         = (Ret 0.0,
            LogError ("Vegetation coverage calculation failed: " ++ msg) :: t))
  /\ (forall pixels,
         image_data = Image3 pixels ->
         pixels <> [] ->
         Forall (fun p => 0 <= red p /\ 0 <= green p) pixels ->
         exists c,
           _calculate_vegetation_coverage cv2_cvtColor image_data t = (Ret c, t)
           /\ c == 100 * inject_Z (Z.of_nat (length (List.filter greener pixels)))
                  / inject_Z (Z.of_nat (length pixels))).
Proof.
  split; [|split].
  - intros msg t'. unfold _calculate_vegetation_coverage, try_except, bind.
    destruct (to_rgb cv2_cvtColor image_data) as [e|pixels]; cbn [lift raise ret].
    + cbn. discriminate.
    + unfold np_div. destruct (Qeq_bool _ 0); cbn; discriminate.
  - intros msg Hrgb.
    apply SatelliteAnalyzerSpec.coverage_of_rejected_image. exact Hrgb.
  - intros pixels -> Hne Hpix.
    eexists. split.
    + apply (SatelliteAnalyzerSpec.coverage_run _ _ pixels);
        [reflexivity|exact Hne].
    + destruct (SatelliteAnalyzerSpec.vegetation_fraction_bounds pixels Hne)
        as [H0 H1].
      unfold py_min.
      destruct (Qlt_le_dec 100.0 (vegetation_fraction pixels * 100)) as [H|_];
        [lra|].
      unfold vegetation_fraction. rewrite (filter_greener pixels Hpix).
      assert (Hn : ~ inject_Z (Z.of_nat (length pixels)) == 0).
      { destruct pixels; [contradiction|]. cbn [length].
        intros H. unfold Qeq in H. cbn [Qnum Qden inject_Z] in H. lia. }
      field. exact Hn.
Qed.

End CoverageMore.

(** Eight green pixels and twelve red-dominated ones: 40 percent. *)
Lemma coverage_counts_green_pixels_witness :
  exists c,
    _calculate_vegetation_coverage Examples.cvt_color
      (Examples.field_image 8 12) [] = (Ret c, [])
    /\ c == 40.
Proof.
  destruct (coverage_counts_green_pixels Examples.cvt_color
              (Examples.field_image 8 12) []) as (_ & _ & H).
  destruct (H _ eq_refl) as (c & Hrun & Hc).
  - discriminate.
  - unfold Examples.field_image. cbn [repeat app].
    repeat (constructor; [split; discriminate|]). constructor.
  - exists c. split; [exact Hrun|]. rewrite Hc. reflexivity.
Defined.

(** *** The CO2 potential *)

Lemma conversion_factor_range (cls : string) (co2_factor : Q) :
  conversion_factors !! cls = Some co2_factor -> -5 <= co2_factor <= 10.
Proof.
  intros H. unfold conversion_factors in H.
  apply elem_of_list_to_map_2 in H.
  repeat (apply elem_of_cons in H as [H|H];
          [injection H as _ ->; split; discriminate|]).
  apply elem_of_nil in H. contradiction.
Qed.

Lemma contribution_range (items : list (string * Q)) :
  Forall (fun item => 0 <= snd item) items ->
  0 <= py_sum (map mass items)
  /\ -5 * py_sum (map mass items) <= py_sum (map contribution items)
     <= 10 * py_sum (map mass items).
Proof.
  induction 1 as [|item items Hitem _ IH].
  - unfold py_sum. cbn. split; [|split]; discriminate.
  - cbn [map]. rewrite !SatelliteAnalyzerSpec.py_sum_cons.
    destruct IH as (IH0 & IH1 & IH2).
    assert (Hc : 0 <= mass item
                 /\ -5 * mass item <= contribution item <= 10 * mass item).
    { unfold mass, contribution.
      destruct (conversion_factors !! fst item) as [f|] eqn:E.
      - destruct (conversion_factor_range _ _ E) as [F1 F2].
        pose proof (CarbonPredictorMore.mult_le_l (snd item) (-5) f Hitem F1).
        pose proof (CarbonPredictorMore.mult_le_l (snd item) f 10 Hitem F2).
        split; [exact Hitem|]. split; lra.
      - split; [|split]; discriminate. }
    lra.
Qed.

(** X13: The potential is never negative.  When no probability is negative
    it is at most 10 tonnes per covered hectare, the factor of forest:
    area times coverage / 100 times 10, hence at most 10 times the area
    for a coverage within [0, 100]. *)
Theorem co2_potential_bounds (area coverage : Q) (results : list analysis) :
  0 <= _calculate_co2_potential area coverage results
  /\ (0 <= area -> 0 <= coverage ->
      Forall (fun item => 0 <= snd item) (all_probabilities results) ->
      _calculate_co2_potential area coverage results
      <= 10 * area * (coverage / 100)
      /\ (coverage <= 100 ->
          _calculate_co2_potential area coverage results <= 10 * area)).
Proof.
  split.
  - unfold _calculate_co2_potential. cbv zeta.
    eapply Qle_trans; [|apply py_max_ge_r]. lra.
  - intros Ha Hc Hp.
    destruct (contribution_range _ Hp) as (M0 & _ & M2).
    fold (probability_mass results) in M0, M2.
    fold (weighted_sum results) in M2.
    assert (Hcov : 0 <= coverage / 100.0) by (apply div_nonneg; lra).
    assert (Hbase : 0 <= area * (coverage / 100.0))
      by (apply Qmult_le_0_compat; assumption).
    assert (Hmain : _calculate_co2_potential area coverage results
                    <= 10 * area * (coverage / 100)).
    { unfold _calculate_co2_potential.
      destruct (SatelliteAnalyzerSpec.accumulate_results results (0.0, 0.0))
        as [H1 H2].
      cbv zeta in H1, H2 |- *. cbn [fst snd] in H1, H2.
      set (totals := fold_left _ results _) in *.
      assert (E1 : fst totals == weighted_sum results) by (rewrite H1; ring).
      assert (E2 : snd totals == probability_mass results) by (rewrite H2; ring).
      assert (Hw : (if gtb (snd totals) 0 then fst totals / snd totals else 0.0)
                   <= 10).
      { unfold gtb. destruct (Qlt_le_dec 0 (snd totals)) as [Hpos|_];
          [|discriminate].
        apply Qle_shift_div_r; [exact Hpos|]. lra. }
      set (w := if gtb (snd totals) 0 then _ else _) in *.
      assert (Hprod : area * w * (coverage / 100.0)
                      <= 10 * area * (coverage / 100)).
      { pose proof (CarbonPredictorMore.mult_le_l
                      (area * (coverage / 100.0)) w 10 Hbase Hw) as Hm.
        assert (Ec : coverage / 100 == coverage / 100.0) by field.
        rewrite Ec.
        assert (El : area * w * (coverage / 100.0)
                     == area * (coverage / 100.0) * w) by ring.
        assert (Er : 10 * area * (coverage / 100.0)
                     == area * (coverage / 100.0) * 10) by ring.
        rewrite El, Er. exact Hm. }
      unfold py_max.
      destruct (Qlt_le_dec (area * w * (coverage / 100.0)) 0.0) as [_|_];
        [|exact Hprod].
      assert (Er : 10 * area * (coverage / 100)
                   == 10 * (area * (coverage / 100.0))) by (field).
      rewrite Er. lra. }
    split; [exact Hmain|]. intros Hc100.
    eapply Qle_trans; [exact Hmain|].
    assert (Hfrac : coverage / 100 <= 1)
      by (apply Qle_shift_div_r; [reflexivity|lra]).
    assert (Hx : 10 * area * (coverage / 100) <= 10 * area * 1).
    { apply CarbonPredictorMore.mult_le_l; [lra|exact Hfrac]. }
    lra.
Qed.

(** Ten fully covered hectares, half forest and half cleared: 25 tonnes,
    below the bound of 100. *)
Lemma co2_potential_bounds_witness :
  _calculate_co2_potential 10 100
    [Examples.classified Examples.cleared_scores 100] <= 10 * 10.
Proof.
  destruct (co2_potential_bounds 10 100
              [Examples.classified Examples.cleared_scores 100]) as [_ H].
  destruct H as [_ H].
  - discriminate.
  - discriminate.
  - cbn. repeat (constructor; [cbn; discriminate|]). constructor.
  - apply H. discriminate.
Defined.

(** *** Project areas *)

Lemma for_each_app {A S} (body : S -> A -> M S) (xs ys : list A) (acc : S) t :
  for_each body (xs ++ ys) acc t
  = (acc' <- for_each body xs acc ;; for_each body ys acc') t.
Proof.
  revert acc t. induction xs as [|x xs IH]; intros acc t; [reflexivity|].
  cbn [app for_each]. unfold bind.
  destruct (body acc x t) as [[acc1|msg|] t1]; [|reflexivity|reflexivity].
  rewrite IH. unfold bind. reflexivity.
Qed.

Lemma py_sum_between (lo hi : Q) (xs : list Q) :
  Forall (fun x => lo <= x <= hi) xs ->
  inject_Z (Z.of_nat (length xs)) * lo <= py_sum xs
  <= inject_Z (Z.of_nat (length xs)) * hi.
Proof.
  induction 1 as [|x xs [Hlo Hhi] _ IH].
  - cbn [length]. change (inject_Z (Z.of_nat 0)) with 0.
    change (py_sum []) with 0. lra.
  - rewrite SatelliteAnalyzerSpec.py_sum_cons. cbn [length].
    rewrite Nat2Z.inj_succ, <- Z.add_1_r, inject_Z_plus.
    change (inject_Z 1) with 1. lra.
Qed.

Lemma np_mean_inv (xs : list Q) (m : Q) t t' :
  np_mean xs t = (Ret m, t') ->
  xs <> [] /\ m = py_sum xs / inject_Z (Z.of_nat (length xs)) /\ t' = t.
Proof.
  unfold np_mean, np_div.
  destruct (Qeq_bool (inject_Z (Z.of_nat (length xs))) 0) eqn:E;
    cbn; [discriminate|].
  intros H. injection H as <- <-. split; [|split; reflexivity].
  intros ->. cbn in E. discriminate E.
Qed.

Lemma mean_between (lo hi : Q) (xs : list Q) :
  xs <> [] ->
  Forall (fun x => lo <= x <= hi) xs ->
  lo <= py_sum xs / inject_Z (Z.of_nat (length xs)) <= hi.
Proof.
  intros Hne Hxs. destruct (py_sum_between lo hi xs Hxs) as [H1 H2].
  assert (Hn : 0 < inject_Z (Z.of_nat (length xs))).
  { rewrite <- (Zlt_Qlt 0). destruct xs; [contradiction|]. cbn [length]. lia. }
  split.
  - apply Qle_shift_div_l; [exact Hn|]. lra.
  - apply Qle_shift_div_r; [exact Hn|]. lra.
Qed.

Section AreasMore.

Variable cv2_resize : image -> string + image.
Variable cv2_cvtColor : list nat -> list Q -> string + list pixel.
Variable _fetch_satellite_images : gmap string Q -> Q -> list image.
Variable now : Z.
Variable isoformat : Z -> string.

Local Abbreviation analyze :=
  (analyze_single_image cv2_resize cv2_cvtColor now isoformat).
Local Abbreviation analyze_area :=
  (analyze_project_area cv2_resize cv2_cvtColor _fetch_satellite_images
                        now isoformat).

(** The loop of [analyze_project_area] over images that can all be
    classified. *)
Lemma collect_run (self : t) (images : list image) (acc : list analysis) t :
  (forall image_data t, In image_data images ->
     exists result t', analyze self image_data t = (Ret result, t')) ->
  exists results t',
    for_each (fun acc image_data =>
                result <- analyze self image_data ;; ret (acc ++ [result]))
             images acc t
    = (Ret (acc ++ results), t').
Proof.
  revert acc t. induction images as [|image_data images IH]; intros acc t Hall.
  - exists [], t. rewrite app_nil_r. reflexivity.
  - destruct (Hall image_data t (or_introl eq_refl)) as (r & t1 & Hr).
    destruct (IH (acc ++ [r]) t1) as (rs & t2 & Hrs).
    { intros i t0 Hi. apply Hall. right. exact Hi. }
    exists (r :: rs), t2. cbn [for_each].
    rewrite (bind_ret _ _ t (acc ++ [r]) t1).
    + rewrite Hrs, <- app_assoc. reflexivity.
    + rewrite (bind_ret _ _ _ _ _ Hr). reflexivity.
Qed.

Lemma collect_inv (self : t) (images : list image) (acc results : list analysis)
  t t' :
  for_each (fun acc image_data =>
              result <- analyze self image_data ;; ret (acc ++ [result]))
           images acc t
  = (Ret results, t') ->
  exists new,
    results = acc ++ new
    /\ Forall2 (fun image_data result =>
                  exists t1 t2, analyze self image_data t1 = (Ret result, t2))
               images new.
Proof.
  revert acc t. induction images as [|image_data images IH]; intros acc t.
  - cbn. intros H. injection H as <- _. exists []. rewrite app_nil_r.
    split; [reflexivity|constructor].
  - cbn [for_each]. intros H.
    apply bind_inv in H as (acc1 & t1 & Hstep & Hrest).
    apply bind_inv in Hstep as (r & t2 & Hr & Hret).
    unfold ret in Hret. injection Hret as <- <-.
    destruct (IH _ _ Hrest) as (new & -> & Hnew).
    exists (r :: new). rewrite <- app_assoc. split; [reflexivity|].
    constructor; [|exact Hnew]. exists t, t2. exact Hr.
Qed.

(** X14: The analysis of a project area fails as a whole: without images it
    raises its own error, and one image whose classification raises
    aborts it with that exception, whatever the images after it; each
    failure is logged once by the area analysis. *)
Theorem area_analysis_fails_as_a_whole (self : t) (location : gmap string Q)
  (area : Q) (t : trace) :
  (_fetch_satellite_images location area = [] ->
   analyze_area self location area t
   = (Raise "No satellite images available for the specified area",
      [LogError "Project area analysis failed: No satellite images available for the specified area";
       LogInfo "Fetching satellite images"] ++ t))
  /\ (forall (before : list image) (bad : image) (after : list image)
             (msg : string),
         _fetch_satellite_images location area = before ++ bad :: after ->
         (forall image_data t, In image_data before ->
            exists result t', analyze self image_data t = (Ret result, t')) ->
         (forall t, exists t', analyze self bad t = (Raise msg, t')) ->
         exists t',
           analyze_area self location area t
           = (Raise msg,
              LogError ("Project area analysis failed: " ++ msg) :: t')).
Proof.
  split.
  - intros Hnone. unfold analyze_project_area, try_except, bind.
    rewrite Hnone. reflexivity.
  - intros before bad after msg Himages Hbefore Hbad.
    destruct (collect_run self before []
                (LogInfo "Fetching satellite images" :: t) Hbefore)
      as (results & t1 & Hresults).
    destruct (Hbad t1) as (t2 & Hraise).
    exists t2. unfold analyze_project_area.
    rewrite (try_except_raise _ _ t msg t2); [reflexivity|].
    unfold bind at 1. cbn [emit]. rewrite Himages.
    assert (Hloop :
      for_each (fun acc image_data =>
                  result <- analyze self image_data ;; ret (acc ++ [result]))
               (before ++ bad :: after) []
               (LogInfo "Fetching satellite images" :: t)
      = (Raise msg, t2)).
    { rewrite for_each_app, (bind_ret _ _ _ _ _ Hresults).
      cbn [for_each app]. apply bind_raise. apply bind_raise. exact Hraise. }
    destruct (before ++ bad :: after) as [|i0 is0] eqn:E.
    + destruct before; discriminate E.
    + apply bind_raise. exact Hloop.
Qed.

(** [cv2.resize] rejects a tensor that has no pixels. *)
Hypothesis resize_rejects_empty :
  forall image_data resized pixels,
    cv2_resize image_data = inr resized ->
    to_rgb cv2_cvtColor image_data = inr pixels ->
    pixels <> [].

(** X15: A returned report aggregates the classifications of all the
    fetched images, in their order: confidence and coverage are their
    means, the coverage lies in [0, 100], vegetation is reported exactly
    when the mean confidence exceeds 0.8 and the mean coverage 60, the
    potential is not negative, and there is one image name per image. *)
Theorem area_report_aggregates (self : t) (location : gmap string Q)
  (area : Q) (t : trace) (report : area_report) (t' : trace) :
  analyze_area self location area t = (Ret report, t') ->
  let images := _fetch_satellite_images location area in
  let results := detailed_analysis report in
  let count := inject_Z (Z.of_nat (length images)) in
  images <> []
  /\ Forall2 (fun image_data result =>
                exists t1 t2, analyze self image_data t1 = (Ret result, t2))
             images results
  /\ images_analyzed report = length images
  /\ image_urls report
     = map (fun i : nat => ("satellite_image_" ++ pretty i ++ ".jpg")%string)
           (seq 0 (length images))
  /\ area_confidence report = py_sum (map confidence results) / count
  /\ area_vegetation_coverage_percent report
     = py_sum (map vegetation_coverage_percent results) / count
  /\ 0 <= area_vegetation_coverage_percent report <= 100
  /\ (area_vegetation_detected report = true
      <-> 0.8 < area_confidence report
          /\ 60 < area_vegetation_coverage_percent report)
  /\ 0 <= co2_sequestration_potential_tonnes_year report.
Proof.
  unfold analyze_project_area. intros Hrun.
  apply try_except_ret_inv in Hrun as [Hrun|(msg & t1 & _ & Hh)].
  2:{ unfold bind, emit, raise in Hh. discriminate Hh. }
  apply bind_inv in Hrun as ([] & t1 & _ & Hrun).
  cbv zeta.
  destruct (_fetch_satellite_images location area) as [|image_data images]
    eqn:Himages; [discriminate Hrun|].
  apply bind_inv in Hrun as (results & t2 & Hloop & Hrun).
  apply bind_inv in Hrun as (avg_confidence & t3 & Hconf & Hrun).
  apply bind_inv in Hrun as (avg_coverage & t4 & Hcov & Hrun).
  unfold ret in Hrun. injection Hrun as <- _.
  cbn [detailed_analysis images_analyzed image_urls area_confidence
       area_vegetation_coverage_percent area_vegetation_detected
       co2_sequestration_potential_tonnes_year].
  apply collect_inv in Hloop as (new & -> & Hnew). cbn [app] in *.
  apply np_mean_inv in Hconf as (_ & -> & _).
  apply np_mean_inv in Hcov as (Hne & -> & _).
  pose proof (Forall2_length _ _ _ Hnew) as Hlen.
  rewrite !length_map, <- Hlen.
  split; [discriminate|]. split; [exact Hnew|].
  split; [reflexivity|]. split; [reflexivity|].
  split; [reflexivity|]. split; [reflexivity|].
  assert (Hrange : 0 <= py_sum (map vegetation_coverage_percent new)
                        / inject_Z (Z.of_nat (length (image_data :: images)))
                   <= 100).
  { rewrite Hlen, <- (length_map vegetation_coverage_percent new).
    apply mean_between; [exact Hne|].
    apply List.Forall_map.
    apply (Forall2_Forall_r _ _ _ _ Hnew).
    apply List.Forall_forall. intros i _ r (t5 & t6 & Hr).
    exact (SatelliteAnalyzerSpec.analysis_coverage_in_range
             cv2_resize cv2_cvtColor now isoformat resize_rejects_empty
             self i t5 r t6 Hr). }
  split; [exact Hrange|]. split.
  - rewrite andb_true_iff, !gtb_spec. reflexivity.
  - unfold _calculate_co2_potential. cbv zeta.
    eapply Qle_trans; [|apply py_max_ge_r]. lra.
Qed.

End AreasMore.

(** One fully vegetated image classified "forest" at 0.85 over the
    example project: vegetation is reported for the area. *)
Lemma area_report_aggregates_witness :
  exists report t',
    analyze_project_area Examples.resize Examples.cvt_color
      Examples.one_green_image Examples.clock Examples.iso_text
      (Examples.analyzer Examples.confident_scores)
      (location Examples.project) 10 [] = (Ret report, t')
    /\ 0 <= area_vegetation_coverage_percent report <= 100
    /\ images_analyzed report = 1%nat.
Proof.
  eexists. eexists. split; [vm_compute; reflexivity|].
  destruct (area_report_aggregates Examples.resize Examples.cvt_color
              Examples.one_green_image Examples.clock Examples.iso_text
              SatelliteAnalyzerSpec.example_resize_rejects_empty
              (Examples.analyzer Examples.confident_scores)
              (location Examples.project) 10 [] _ _ eq_refl)
    as (_ & _ & Hn & _ & _ & _ & Hc & _).
  split; [exact Hc|exact Hn].
Defined.

(** Two images, the second one malformed: the area analysis raises the
    message of OpenCV. *)
Lemma area_analysis_fails_as_a_whole_witness :
  exists t',
    analyze_project_area Examples.resize Examples.cvt_color
      (fun _ _ => [Examples.field_image 20 0; Examples.malformed_image])
      Examples.clock Examples.iso_text
      (Examples.analyzer Examples.confident_scores)
      (location Examples.project) 10 []
    = (Raise "OpenCV: (-215:Assertion failed) !ssize.empty() in function 'resize'",
       LogError "Project area analysis failed: OpenCV: (-215:Assertion failed) !ssize.empty() in function 'resize'"
       :: t').
Proof.
  destruct (area_analysis_fails_as_a_whole Examples.resize Examples.cvt_color
              (fun _ _ => [Examples.field_image 20 0; Examples.malformed_image])
              Examples.clock Examples.iso_text
              (Examples.analyzer Examples.confident_scores)
              (location Examples.project) 10 []) as [_ H].
  apply (H [Examples.field_image 20 0] Examples.malformed_image []).
  - reflexivity.
  - intros image_data t [<-|[]]. eexists. eexists. vm_compute. reflexivity.
  - intros t. eexists. reflexivity.
Defined.

(** *** Loading the classifier *)

Section LoadingMore.

Variable gfile_exists : string -> string + bool.
Variable keras_load_model : string -> string + classifier.
Variable _create_vegetation_cnn : string + classifier.
Variable cv2_resize : image -> string + image.
Variable cv2_cvtColor : list nat -> list Q -> string + list pixel.
Variable now : Z.
Variable isoformat : Z -> string.

(** X16: Constructing an analyzer never raises.  The flag is up exactly when
    the stored network was read or, no file being there, a new one was
    built; [is_loaded] agrees with the flag.  After any failure (a stored
    file that cannot be read is not replaced by a new network) the
    instance has no model, the error is logged, and every classification
    request is rejected. *)
Theorem analyzer_construction_never_raises (path : string) (t : trace) :
  exists self' t',
    init gfile_exists keras_load_model _create_vegetation_cnn path t
    = (Ret self', t')
    /\ model_path self' = path
    /\ is_loaded self' = is_model_loaded self'
    /\ (is_model_loaded self' = true <->
        (gfile_exists path = inr true
         /\ exists m, keras_load_model path = inr m /\ model self' = Some m)
        \/ (gfile_exists path = inr false
            /\ exists m, _create_vegetation_cnn = inr m /\ model self' = Some m))
    /\ (is_model_loaded self' = false ->
        model self' = None
        /\ (exists msg,
               t' = LogError ("Failed to load/create CNN model: " ++ msg) :: t)
        /\ forall image_data t0,
             analyze_single_image cv2_resize cv2_cvtColor now isoformat
                                  self' image_data t0
             = (Raise "CNN model not loaded", t0)).
Proof.
  unfold init, load_model, try_except, bind, lift, is_loaded. cbn [model_path].
  destruct (gfile_exists path) as [e|[|]] eqn:Eg; cbn.
  - eexists. eexists. split; [reflexivity|]. cbn.
    split; [reflexivity|]. split; [reflexivity|]. split.
    + split; [discriminate|].
      intros [[H _]|[H _]]; discriminate H.
    + intros _. split; [reflexivity|]. split; [eexists; reflexivity|].
      reflexivity.
  - destruct (keras_load_model path) as [e|m] eqn:Ek; cbn.
    + eexists. eexists. split; [reflexivity|]. cbn.
      split; [reflexivity|]. split; [reflexivity|]. split.
      * split; [discriminate|].
        intros [[_ (m & H & _)]|[H _]]; discriminate H.
      * intros _. split; [reflexivity|]. split; [eexists; reflexivity|].
        reflexivity.
    + eexists. eexists. split; [reflexivity|]. cbn.
      split; [reflexivity|]. split; [reflexivity|]. split.
      * split; [|reflexivity]. intros _. left.
        split; [reflexivity|]. exists m. split; reflexivity.
      * discriminate.
  - destruct _create_vegetation_cnn as [e|m] eqn:Ec; cbn.
    + eexists. eexists. split; [reflexivity|]. cbn.
      split; [reflexivity|]. split; [reflexivity|]. split.
      * split; [discriminate|].
        intros [[H _]|[_ (m & H & _)]]; discriminate H.
      * intros _. split; [reflexivity|]. split; [eexists; reflexivity|].
        reflexivity.
    + eexists. eexists. split; [reflexivity|]. cbn.
      split; [reflexivity|]. split; [reflexivity|]. split.
      * split; [|reflexivity]. intros _. right.
        split; [reflexivity|]. exists m. split; reflexivity.
      * discriminate.
Qed.

End LoadingMore.

(** *** Time series *)

Lemma thirty_days_pos : (0 < thirty_days)%Z.
Proof. reflexivity. Qed.

Lemma instant_shifted (d : datetime) (delta : Z) :
  instant (shifted d delta) = (instant d + delta)%Z.
Proof. unfold instant, shifted. cbn [wall utcoffset]. lia. Qed.

Lemma aware_shifted (d : datetime) (delta : Z) :
  aware (shifted d delta) = aware d.
Proof. reflexivity. Qed.

Lemma shifted_zero (d : datetime) : shifted d 0 = d.
Proof. destruct d as [w o]. unfold shifted. cbn [wall utcoffset]. f_equal. lia. Qed.

Lemma shifted_twice (d : datetime) (a b : Z) :
  shifted (shifted d a) b = shifted d (a + b).
Proof. unfold shifted. cbn [wall utcoffset]. f_equal. lia. Qed.

Lemma datetime_le_same (a b : datetime) :
  aware a = aware b ->
  datetime_le a b = inr (instant a <=? instant b)%Z.
Proof.
  unfold aware, datetime_le, instant.
  destruct (utcoffset a), (utcoffset b); intros H; try discriminate H;
    cbn [default from_option id]; f_equal; rewrite ?Z.sub_0_r; reflexivity.
Qed.

Lemma datetime_le_mixed (a b : datetime) :
  aware a <> aware b ->
  datetime_le a b
  = inl "can't compare offset-naive and offset-aware datetimes"%string.
Proof.
  unfold aware, datetime_le.
  destruct (utcoffset a), (utcoffset b); intros H;
    first [reflexivity | contradiction H; reflexivity].
Qed.

Lemma datetime_add_in_range (d : datetime) (delta : Z) :
  (0 <= wall d + delta <= datetime_max)%Z ->
  datetime_add d delta = inr (shifted d delta).
Proof.
  intros [H0 H1]. unfold datetime_add.
  destruct (Z.leb_spec 0 (wall d + delta)); [|lia].
  destruct (Z.leb_spec (wall d + delta) datetime_max); [|lia].
  reflexivity.
Qed.

Lemma datetime_add_overflow (d : datetime) (delta : Z) :
  (datetime_max < wall d + delta)%Z ->
  datetime_add d delta = inl "date value out of range"%string.
Proof.
  intros H. unfold datetime_add.
  destruct (Z.leb_spec (wall d + delta) datetime_max); [lia|].
  rewrite andb_false_r. reflexivity.
Qed.

Lemma steps_nonneg (start_date end_date : datetime) :
  (instant start_date <= instant end_date)%Z ->
  (0 <= steps start_date end_date)%Z.
Proof.
  intros H. pose proof thirty_days_pos. unfold steps. apply Z.div_pos; lia.
Qed.

Lemma steps_next (start_date end_date : datetime) :
  steps (shifted start_date thirty_days) end_date
  = (steps start_date end_date - 1)%Z.
Proof.
  pose proof thirty_days_pos as Hpos. unfold steps.
  rewrite instant_shifted.
  replace (instant end_date - instant start_date)%Z
    with ((instant end_date - (instant start_date + thirty_days))
          + 1 * thirty_days)%Z by lia.
  rewrite Z.div_add by lia. lia.
Qed.

Lemma steps_zero (start_date end_date : datetime) :
  (instant start_date <= instant end_date < instant start_date + thirty_days)%Z ->
  steps start_date end_date = 0%Z.
Proof. intros H. unfold steps. apply Z.div_small. lia. Qed.

Lemma steps_positive (start_date end_date : datetime) :
  (instant start_date + thirty_days <= instant end_date)%Z ->
  (1 <= steps start_date end_date)%Z.
Proof.
  intros H. pose proof thirty_days_pos. unfold steps.
  apply Z.div_le_lower_bound; lia.
Qed.

Lemma sample_dates_step (start_date end_date : datetime) :
  (instant start_date <= instant end_date)%Z ->
  sample_dates start_date end_date
  = start_date :: sample_dates (shifted start_date thirty_days) end_date.
Proof.
  intros Hle. pose proof thirty_days_pos as Hpos.
  pose proof (steps_nonneg _ _ Hle) as Hq.
  unfold sample_dates at 1.
  destruct (Z.leb_spec (instant start_date) (instant end_date)) as [_|Hgt];
    [|lia].
  replace (Z.to_nat (steps start_date end_date + 1))
    with (S (Z.to_nat (steps start_date end_date))) by lia.
  cbn [seq map]. f_equal; [apply shifted_zero|].
  rewrite <- seq_shift, map_map.
  unfold sample_dates. rewrite instant_shifted.
  destruct (Z.leb_spec (instant start_date + thirty_days) (instant end_date))
    as [Hnext|Hlast].
  - rewrite steps_next.
    replace (steps start_date end_date - 1 + 1)%Z
      with (steps start_date end_date) by lia.
    apply map_ext. intros k. rewrite shifted_twice. f_equal. lia.
  - rewrite (steps_zero start_date end_date) by lia. reflexivity.
Qed.

Lemma sample_dates_none (start_date end_date : datetime) :
  (instant end_date < instant start_date)%Z ->
  sample_dates start_date end_date = [].
Proof.
  intros H. unfold sample_dates.
  destruct (Z.leb_spec (instant start_date) (instant end_date));
    [lia|reflexivity].
Qed.

Lemma sample_dates_count (start_date end_date : datetime) :
  (instant start_date <= instant end_date)%Z ->
  Z.of_nat (length (sample_dates start_date end_date))
  = (steps start_date end_date + 1)%Z.
Proof.
  intros Hle. pose proof (steps_nonneg _ _ Hle). unfold sample_dates.
  destruct (Z.leb_spec (instant start_date) (instant end_date)) as [_|Hgt];
    [|lia].
  rewrite length_map, length_seq. lia.
Qed.

Lemma sample_dates_monthly (start_date end_date : datetime) :
  sample_dates start_date end_date
  = map (fun k : nat => shifted start_date (Z.of_nat k * thirty_days))
        (seq 0 (length (sample_dates start_date end_date))).
Proof.
  unfold sample_dates.
  destruct (Z.leb_spec (instant start_date) (instant end_date)) as [_|Hgt];
    [|reflexivity].
  rewrite length_map, length_seq. reflexivity.
Qed.

Section Fetching.

Variable mock_image : datetime -> image.

(** The loop returns when every step stays within [datetime.max]. *)
Lemma time_series_loop_returns (fuel : nat) (current_date end_date : datetime)
  (images : list (datetime * image)) :
  aware current_date = aware end_date ->
  (0 <= wall current_date)%Z ->
  ((instant current_date <= instant end_date)%Z ->
   (steps current_date end_date + 1 <= Z.of_nat fuel)%Z
   /\ within_range current_date end_date) ->
  time_series_loop mock_image fuel current_date end_date images
  = Some (inr (images
               ++ map (fun d => (d, mock_image d))
                      (sample_dates current_date end_date))).
Proof.
  pose proof thirty_days_pos as Hpos.
  revert current_date images.
  induction fuel as [|fuel IH]; intros current_date images Hkind Hwall Hfuel;
    cbn [time_series_loop]; rewrite (datetime_le_same _ _ Hkind);
    destruct (Z.leb_spec (instant current_date) (instant end_date))
      as [Hle|Hgt].
  - destruct (Hfuel Hle) as [Hf _]. pose proof (steps_nonneg _ _ Hle). lia.
  - rewrite sample_dates_none by lia. cbn. rewrite app_nil_r. reflexivity.
  - destruct (Hfuel Hle) as [Hf Hrange]. unfold within_range in Hrange.
    pose proof (steps_nonneg _ _ Hle) as Hq.
    rewrite datetime_add_in_range by nia.
    rewrite IH.
    + rewrite (sample_dates_step current_date end_date Hle).
      cbn [map]. rewrite <- app_assoc. reflexivity.
    + rewrite aware_shifted. exact Hkind.
    + cbn [shifted wall]. lia.
    + intros Hnext. unfold within_range. rewrite steps_next.
      cbn [shifted wall]. split; [lia|nia].
  - rewrite sample_dates_none by lia. cbn. rewrite app_nil_r. reflexivity.
Qed.

(** The loop raises when the step after the last visited date passes
    [datetime.max]. *)
Lemma time_series_loop_overflows (fuel : nat)
  (current_date end_date : datetime) (images : list (datetime * image)) :
  aware current_date = aware end_date ->
  (0 <= wall current_date)%Z ->
  (instant current_date <= instant end_date)%Z ->
  (steps current_date end_date + 1 <= Z.of_nat fuel)%Z ->
  ~ within_range current_date end_date ->
  time_series_loop mock_image fuel current_date end_date images
  = Some (inl "date value out of range"%string).
Proof.
  pose proof thirty_days_pos as Hpos.
  revert current_date images.
  induction fuel as [|fuel IH];
    intros current_date images Hkind Hwall Hle Hfuel Hrange;
    pose proof (steps_nonneg _ _ Hle) as Hq; [lia|].
  cbn [time_series_loop]. rewrite (datetime_le_same _ _ Hkind).
  destruct (Z.leb_spec (instant current_date) (instant end_date))
    as [_|Hgt]; [|lia].
  unfold within_range in Hrange.
  destruct (Z_le_gt_dec (wall current_date + thirty_days) datetime_max)
    as [Hin|Hout].
  - rewrite datetime_add_in_range by lia.
    assert (Hnext : (instant current_date + thirty_days <= instant end_date)%Z).
    { destruct (Z_le_gt_dec (instant current_date + thirty_days)
                            (instant end_date)) as [H|H]; [exact H|].
      rewrite (steps_zero current_date end_date) in Hrange by lia. lia. }
    apply IH.
    + rewrite aware_shifted. exact Hkind.
    + cbn [shifted wall]. lia.
    + rewrite instant_shifted. exact Hnext.
    + rewrite steps_next. lia.
    + unfold within_range. rewrite steps_next. cbn [shifted wall].
      intros H. apply Hrange. nia.
  - rewrite datetime_add_overflow by lia. reflexivity.
Qed.

Lemma fetch_run (location : gmap string Q) (start_date end_date : datetime) :
  aware start_date = aware end_date ->
  (0 <= wall start_date)%Z ->
  ((instant start_date <= instant end_date)%Z ->
   within_range start_date end_date) ->
  _fetch_time_series_images mock_image location start_date end_date
  = Some (inr (map (fun d => (d, mock_image d))
                   (sample_dates start_date end_date))).
Proof.
  intros Hkind Hwall Hrange. unfold _fetch_time_series_images.
  rewrite time_series_loop_returns; [reflexivity|exact Hkind|exact Hwall|].
  intros Hle. pose proof (steps_nonneg _ _ Hle).
  split; [unfold steps in *; lia|exact (Hrange Hle)].
Qed.

Lemma fetch_overflows (location : gmap string Q)
  (start_date end_date : datetime) :
  aware start_date = aware end_date ->
  (0 <= wall start_date)%Z ->
  (instant start_date <= instant end_date)%Z ->
  ~ within_range start_date end_date ->
  _fetch_time_series_images mock_image location start_date end_date
  = Some (inl "date value out of range"%string).
Proof.
  intros Hkind Hwall Hle Hrange. unfold _fetch_time_series_images.
  pose proof (steps_nonneg _ _ Hle).
  apply time_series_loop_overflows; try assumption.
  unfold steps in *. lia.
Qed.

Lemma fetch_mixed (location : gmap string Q)
  (start_date end_date : datetime) :
  aware start_date <> aware end_date ->
  _fetch_time_series_images mock_image location start_date end_date
  = Some (inl "can't compare offset-naive and offset-aware datetimes"%string).
Proof.
  intros Hkind. unfold _fetch_time_series_images.
  destruct (Z.to_nat _); cbn [time_series_loop];
    rewrite (datetime_le_mixed _ _ Hkind); reflexivity.
Qed.


End Fetching.


(** *** The trend of samples taken every thirty days *)

Lemma inject_nat_S (n : nat) :
  inject_Z (Z.of_nat (S n)) == inject_Z (Z.of_nat n) + 1.
Proof. rewrite Nat2Z.inj_succ, <- Z.add_1_r, inject_Z_plus. reflexivity. Qed.

Lemma sample_days_S (n : nat) :
  sample_days (S n) = sample_days n ++ [inject_Z (30 * Z.of_nat n)].
Proof. unfold sample_days. rewrite seq_S, map_app. reflexivity. Qed.

Lemma sample_days_length (n : nat) : length (sample_days n) = n.
Proof. unfold sample_days. rewrite length_map, length_seq. reflexivity. Qed.

Lemma day_value (n : nat) :
  inject_Z (30 * Z.of_nat n) == 30 * inject_Z (Z.of_nat n).
Proof. rewrite inject_Z_mult. reflexivity. Qed.

Lemma sample_days_sum (n : nat) :
  py_sum (sample_days n)
  == 15 * inject_Z (Z.of_nat n) * (inject_Z (Z.of_nat n) - 1).
Proof.
  induction n as [|n IH]; [reflexivity|].
  rewrite sample_days_S, py_sum_snoc, IH, inject_nat_S, day_value. ring.
Qed.

Lemma sample_days_squares (n : nat) :
  py_sum (map (fun x => x * x) (sample_days n))
  == 150 * inject_Z (Z.of_nat n) * (inject_Z (Z.of_nat n) - 1)
     * (2 * inject_Z (Z.of_nat n) - 1).
Proof.
  induction n as [|n IH]; [reflexivity|].
  rewrite sample_days_S, map_app. cbn [map].
  rewrite py_sum_snoc, IH, inject_nat_S, day_value. ring.
Qed.

Lemma sample_days_denominator (n : nat) :
  inject_Z (Z.of_nat (length (sample_days n)))
  * py_sum (map (fun x => x * x) (sample_days n))
  - py_sum (sample_days n) * py_sum (sample_days n)
  == 75 * (inject_Z (Z.of_nat n) * inject_Z (Z.of_nat n))
     * (inject_Z (Z.of_nat n) * inject_Z (Z.of_nat n) - 1).
Proof.
  rewrite sample_days_length, sample_days_squares, sample_days_sum. ring.
Qed.

Lemma inject_nat_le (a b : nat) :
  (a <= b)%nat -> inject_Z (Z.of_nat a) <= inject_Z (Z.of_nat b).
Proof. intros H. rewrite <- Zle_Qle. lia. Qed.

Lemma square_nonneg (x : Q) : 0 <= x * x.
Proof.
  destruct (Qlt_le_dec x 0) as [H|H].
  - assert (E : x * x == (- x) * (- x)) by ring.
    rewrite E. apply Qmult_le_0_compat; lra.
  - apply Qmult_le_0_compat; lra.
Qed.

Lemma sample_days_denominator_pos (n : nat) :
  (2 <= n)%nat ->
  0 < 75 * (inject_Z (Z.of_nat n) * inject_Z (Z.of_nat n))
      * (inject_Z (Z.of_nat n) * inject_Z (Z.of_nat n) - 1).
Proof.
  intros Hn. pose proof (inject_nat_le 2 n Hn) as H2.
  change (inject_Z (Z.of_nat 2)) with 2 in H2.
  set (N := inject_Z (Z.of_nat n)) in *.
  assert (Hsq : 4 <= N * N).
  { assert (E : N * N == (N - 2) * (N - 2) + 4 * (N - 2) + 4) by ring.
    assert (0 <= (N - 2) * (N - 2)) by (apply Qmult_le_0_compat; lra).
    lra. }
  apply Qmult_lt_0_compat; lra.
Qed.

Lemma combine_snoc {A B} (xs : list A) (ys : list B) (x : A) (y : B) :
  length xs = length ys ->
  combine (xs ++ [x]) (ys ++ [y]) = combine xs ys ++ [(x, y)].
Proof.
  revert ys. induction xs as [|a xs IH]; intros [|b ys] Hlen;
    try discriminate Hlen; [reflexivity|].
  cbn. f_equal. apply IH. injection Hlen as Hlen. exact Hlen.
Qed.

(** One more sample: the bound on the centred sum moves from [t - 1]
    to [t + 1]. *)
Lemma bound_step (a t y V : Q) :
  0 <= a -> 0 <= y <= 100 ->
  (t <= 1 -> V <= 0) ->
  (1 <= t -> 4 * V <= 100 * a * ((t - 1) * (t - 1))) ->
  (t + 2 <= 1 -> V + a * t * y <= 0)
  /\ (1 <= t + 2 -> 4 * (V + a * t * y) <= 100 * a * ((t + 1) * (t + 1))).
Proof.
  intros Ha [Hy0 Hy1] Hlow Hhigh.
  assert (Hs : 0 <= a * ((t - 1) * (t - 1))).
  { apply Qmult_le_0_compat; [exact Ha|apply square_nonneg]. }
  assert (Hs' : 0 <= a * ((t + 1) * (t + 1))).
  { apply Qmult_le_0_compat; [exact Ha|apply square_nonneg]. }
  assert (E : a * ((t + 1) * (t + 1)) == a * ((t - 1) * (t - 1)) + 4 * (a * t))
    by ring.
  assert (Hay : 0 <= a * y) by (apply Qmult_le_0_compat; assumption).
  assert (Hneg : t <= 0 -> a * t * y <= 0).
  { intros Ht.
    assert (0 <= (a * y) * (- t)) by (apply Qmult_le_0_compat; lra).
    assert (a * t * y == - ((a * y) * (- t))) by ring. lra. }
  assert (Hpos : 0 <= t -> a * t * y <= 100 * (a * t) /\ 0 <= a * t).
  { intros Ht.
    assert (Hat : 0 <= a * t) by (apply Qmult_le_0_compat; assumption).
    split; [|exact Hat].
    assert (0 <= (a * t) * (100 - y)) by (apply Qmult_le_0_compat; lra).
    assert (a * t * y == 100 * (a * t) - (a * t) * (100 - y)) by ring. lra. }
  set (z := a * t * y) in *. set (s := a * ((t - 1) * (t - 1))) in *.
  set (s' := a * ((t + 1) * (t + 1))) in *. set (p := a * t) in *.
  assert (R : 100 * a * ((t + 1) * (t + 1)) == 100 * s') by (unfold s'; ring).
  assert (R0 : 100 * a * ((t - 1) * (t - 1)) == 100 * s) by (unfold s; ring).
  rewrite R. rewrite R0 in Hhigh. clearbody z s s' p.
  split.
  - intros Ht. specialize (Hlow ltac:(lra)). specialize (Hneg ltac:(lra)). lra.
  - intros Ht. destruct (Qlt_le_dec t 0) as [Ht0|Ht0].
    + specialize (Hlow ltac:(lra)). specialize (Hneg ltac:(lra)). lra.
    + destruct (Hpos Ht0) as [Hz Hp]. destruct (Qlt_le_dec t 1) as [Ht1|Ht1].
      * specialize (Hlow ltac:(lra)). lra.
      * specialize (Hhigh Ht1). lra.
Qed.

(** The sum of the products of days and coverages, centred at [c]. *)
Lemma centred_sum_bound (a c : Q) (ys : list Q) :
  0 <= a ->
  Forall (fun y => 0 <= y <= 100) ys ->
  (2 * inject_Z (Z.of_nat (length ys)) - c <= 1 ->
   a * (py_sum (map (fun xy => fst xy * snd xy)
                    (combine (sample_days (length ys)) ys)) / 15
        - c * py_sum ys) <= 0)
  /\ (1 <= 2 * inject_Z (Z.of_nat (length ys)) - c ->
      4 * (a * (py_sum (map (fun xy => fst xy * snd xy)
                            (combine (sample_days (length ys)) ys)) / 15
                - c * py_sum ys))
      <= 100 * a * ((2 * inject_Z (Z.of_nat (length ys)) - c - 1)
                    * (2 * inject_Z (Z.of_nat (length ys)) - c - 1))).
Proof.
  intros Ha. induction ys as [|y ys IH] using rev_ind; intros Hys.
  - cbn [length sample_days seq map combine].
    change (py_sum []) with 0. change (inject_Z (Z.of_nat 0)) with 0.
    split; intros Ht.
    + assert (E : a * (0 / 15 - c * 0) == 0) by field. rewrite E. lra.
    + assert (E : a * (0 / 15 - c * 0) == 0) by field. rewrite E.
      assert (0 <= a * ((2 * 0 - c - 1) * (2 * 0 - c - 1))).
      { apply Qmult_le_0_compat; [exact Ha|apply square_nonneg]. }
      lra.
  - apply Forall_app in Hys as [Hys Hy].
    apply Forall_cons in Hy as [Hy _].
    specialize (IH Hys). destruct IH as [IH1 IH2].
    rewrite length_app. cbn [length]. rewrite Nat.add_1_r.
    rewrite sample_days_S.
    rewrite combine_snoc by (rewrite sample_days_length; reflexivity).
    rewrite map_app. cbn [map fst snd]. rewrite !py_sum_snoc.
    set (M := inject_Z (Z.of_nat (length ys))) in *.
    set (Sxy := py_sum (map (fun xy => fst xy * snd xy)
                            (combine (sample_days (length ys)) ys))) in *.
    set (Sy := py_sum ys) in *.
    assert (EM : inject_Z (Z.of_nat (S (length ys))) == M + 1)
      by apply inject_nat_S.
    assert (ED : inject_Z (30 * Z.of_nat (length ys)) == 30 * M)
      by apply day_value.
    assert (EU : a * ((Sxy + inject_Z (30 * Z.of_nat (length ys)) * y) / 15
                      - c * (Sy + y))
                 == a * (Sxy / 15 - c * Sy) + a * (2 * M - c) * y).
    { rewrite ED. field. }
    rewrite EU, EM.
    destruct (bound_step a (2 * M - c) y (a * (Sxy / 15 - c * Sy)) Ha Hy)
      as [B1 B2].
    + exact IH1.
    + exact IH2.
    + split; intros Ht.
      * apply B1. lra.
      * assert (E3 : 100 * a * ((2 * (M + 1) - c - 1) * (2 * (M + 1) - c - 1))
                     == 100 * a * ((2 * M - c + 1) * (2 * M - c + 1))) by ring.
        rewrite E3. apply B2. lra.
Qed.

Lemma complement_sum (ys : list Q) :
  py_sum (map (fun y => 100 - y) ys)
  == 100 * inject_Z (Z.of_nat (length ys)) - py_sum ys.
Proof.
  induction ys as [|y ys IH]; [reflexivity|].
  cbn [map]. rewrite !SatelliteAnalyzerSpec.py_sum_cons, IH.
  cbn [length]. rewrite inject_nat_S. ring.
Qed.

Lemma complement_products (xs ys : list Q) :
  length xs = length ys ->
  py_sum (map (fun xy => fst xy * snd xy)
              (combine xs (map (fun y => 100 - y) ys)))
  == 100 * py_sum xs
     - py_sum (map (fun xy => fst xy * snd xy) (combine xs ys)).
Proof.
  revert ys. induction xs as [|x xs IH]; intros [|y ys] Hlen;
    try discriminate Hlen; [reflexivity|].
  cbn [map combine fst snd]. rewrite !SatelliteAnalyzerSpec.py_sum_cons.
  cbn [fst snd]. rewrite IH by (injection Hlen as Hlen; exact Hlen). ring.
Qed.

Lemma complement_in_range (ys : list Q) :
  Forall (fun y => 0 <= y <= 100) ys ->
  Forall (fun y => 0 <= y <= 100) (map (fun y => 100 - y) ys).
Proof.
  intros H. apply List.Forall_map. eapply Forall_impl; [exact H|].
  cbn. intros y [H0 H1]. split; lra.
Qed.

(** The numerator of the slope of six or more samples is within the
    denominator. *)
Lemma monthly_numerator_bound (ys : list Q) :
  (6 <= length ys)%nat ->
  Forall (fun y => 0 <= y <= 100) ys ->
  let n := inject_Z (Z.of_nat (length ys)) in
  let numerator :=
    n * py_sum (map (fun xy => fst xy * snd xy)
                    (combine (sample_days (length ys)) ys))
    - py_sum (sample_days (length ys)) * py_sum ys in
  let denominator := 75 * (n * n) * (n * n - 1) in
  - ((6 # 7) * denominator) <= numerator <= (6 # 7) * denominator.
Proof.
  intros Hlen Hys n numerator denominator.
  pose proof (inject_nat_le 6 _ Hlen) as H6.
  change (inject_Z (Z.of_nat 6)) with 6 in H6. fold n in H6.
  assert (Ha : 0 <= 15 * n) by lra.
  (* 7 * 375 n^3 <= 6 * 75 n^2 (n^2 - 1) *)
  assert (Hcube : 375 * (n * (n * n)) <= (6 # 7) * denominator).
  { unfold denominator.
    assert (Hnn : 0 <= n * n) by apply square_nonneg.
    assert (H5 : 35 * n <= 6 * (n * n - 1)).
    { assert (0 <= (n - 6) * (6 * n + 1))
        by (apply Qmult_le_0_compat; lra).
      assert (E : (n - 6) * (6 * n + 1) == 6 * (n * n - 1) - 35 * n) by ring.
      lra. }
    pose proof (CarbonPredictorMore.mult_le_l (75 * (n * n)) _ _
                  ltac:(lra) H5) as Hm.
    assert (E : 75 * (n * n) * (35 * n) == 7 * (375 * (n * (n * n)))) by ring.
    assert (E' : 75 * (n * n) * (6 * (n * n - 1))
                 == 6 * (75 * (n * n) * (n * n - 1))) by ring.
    lra. }
  split.
  - destruct (centred_sum_bound (15 * n) (n - 1)
                (map (fun y => 100 - y) ys) Ha (complement_in_range ys Hys))
      as [_ Hup].
    rewrite length_map in Hup. fold n in Hup.
    rewrite complement_products in Hup
      by (rewrite sample_days_length; reflexivity).
    rewrite complement_sum in Hup. fold n in Hup.
    rewrite sample_days_sum in Hup. fold n in Hup.
    specialize (Hup ltac:(lra)).
    unfold numerator. rewrite sample_days_sum. fold n.
    set (Sxy := py_sum (map (fun xy => fst xy * snd xy)
                            (combine (sample_days (length ys)) ys))) in *.
    set (Sy := py_sum ys) in *.
    assert (E1 : 15 * n * ((100 * (15 * n * (n - 1)) - Sxy) / 15
                           - (n - 1) * (100 * n - Sy))
                 == - (n * Sxy - 15 * n * (n - 1) * Sy)) by field.
    assert (E2 : 100 * (15 * n) * ((2 * n - (n - 1) - 1) * (2 * n - (n - 1) - 1))
                 == 4 * (375 * (n * (n * n)))) by ring.
    rewrite E1, E2 in Hup. lra.
  - destruct (centred_sum_bound (15 * n) (n - 1) ys Ha Hys) as [_ Hup].
    fold n in Hup. specialize (Hup ltac:(lra)).
    unfold numerator. rewrite sample_days_sum. fold n.
    set (Sxy := py_sum (map (fun xy => fst xy * snd xy)
                            (combine (sample_days (length ys)) ys))) in *.
    set (Sy := py_sum ys) in *.
    assert (E1 : 15 * n * (Sxy / 15 - (n - 1) * Sy)
                 == n * Sxy - 15 * n * (n - 1) * Sy) by field.
    assert (E2 : 100 * (15 * n) * ((2 * n - (n - 1) - 1) * (2 * n - (n - 1) - 1))
                 == 4 * (375 * (n * (n * n)))) by ring.
    rewrite E1, E2 in Hup. lra.
Qed.

(** Five samples: the bound is reached by 0, 0, any, 100, 100. *)
Lemma five_samples_numerator (y0 y1 y2 y3 y4 : Q) :
  let ys := [y0; y1; y2; y3; y4] in
  inject_Z (Z.of_nat 5)
  * py_sum (map (fun xy => fst xy * snd xy) (combine (sample_days 5) ys))
  - py_sum (sample_days 5) * py_sum ys
  == 150 * (2 * y4 + y3 - y1 - 2 * y0).
Proof.
  cbv zeta. unfold sample_days, py_sum.
  cbn [seq map combine fold_left fst snd].
  change (inject_Z (Z.of_nat 5)) with 5.
  change (inject_Z (30 * Z.of_nat 0)) with 0.
  change (inject_Z (30 * Z.of_nat 1)) with 30.
  change (inject_Z (30 * Z.of_nat 2)) with 60.
  change (inject_Z (30 * Z.of_nat 3)) with 90.
  change (inject_Z (30 * Z.of_nat 4)) with 120.
  ring.
Qed.

(** Samples every thirty days with coverages within [0, 100]: from five
    samples on, the least-squares slope is within one point a day. *)
Lemma monthly_slope_bound (ys : list Q) :
  (5 <= length ys)%nat ->
  Forall (fun y => 0 <= y <= 100) ys ->
  -1 <= least_squares_slope (sample_days (length ys)) ys <= 1.
Proof.
  intros Hlen Hys. unfold least_squares_slope.
  rewrite sample_days_denominator.
  pose proof (sample_days_denominator_pos (length ys) ltac:(lia)) as Hpos.
  rewrite sample_days_length.
  assert (Hnum :
    - (75 * (inject_Z (Z.of_nat (length ys)) * inject_Z (Z.of_nat (length ys)))
       * (inject_Z (Z.of_nat (length ys)) * inject_Z (Z.of_nat (length ys)) - 1))
    <= inject_Z (Z.of_nat (length ys))
       * py_sum (map (fun xy => fst xy * snd xy)
                     (combine (sample_days (length ys)) ys))
       - py_sum (sample_days (length ys)) * py_sum ys
    <= 75 * (inject_Z (Z.of_nat (length ys)) * inject_Z (Z.of_nat (length ys)))
       * (inject_Z (Z.of_nat (length ys)) * inject_Z (Z.of_nat (length ys)) - 1)).
  { destruct (Nat.eq_dec (length ys) 5%nat) as [E5|Hne].
    - destruct ys as [|y0 [|y1 [|y2 [|y3 [|y4 [|y5 ys]]]]]];
        try discriminate E5.
      cbn [length].
      pose proof (five_samples_numerator y0 y1 y2 y3 y4) as E.
      cbv zeta in E. rewrite E.
      change (inject_Z (Z.of_nat 5)) with 5.
      apply Forall_cons in Hys as [[? ?] Hys].
      apply Forall_cons in Hys as [[? ?] Hys].
      apply Forall_cons in Hys as [[? ?] Hys].
      apply Forall_cons in Hys as [[? ?] Hys].
      apply Forall_cons in Hys as [[? ?] Hys].
      split; lra.
    - pose proof (monthly_numerator_bound ys ltac:(lia) Hys) as Hm.
      cbv zeta in Hm. lra. }
  set (D := 75 * _ * _) in *.
  set (numerator := _ - _) in *.
  split.
  - apply Qle_shift_div_l; [exact Hpos|]. lra.
  - apply Qle_shift_div_r; [exact Hpos|]. lra.
Qed.

(** From six samples on the slope stays within 6/7 of a point a day. *)
Lemma monthly_slope_margin (ys : list Q) :
  (6 <= length ys)%nat ->
  Forall (fun y => 0 <= y <= 100) ys ->
  - (6 # 7) <= least_squares_slope (sample_days (length ys)) ys <= 6 # 7.
Proof.
  intros Hlen Hys. unfold least_squares_slope.
  rewrite sample_days_denominator.
  pose proof (sample_days_denominator_pos (length ys) ltac:(lia)) as Hpos.
  rewrite sample_days_length.
  pose proof (monthly_numerator_bound ys Hlen Hys) as Hm. cbv zeta in Hm.
  set (D := 75 * _ * _) in *.
  set (numerator := _ - _) in *.
  split.
  - apply Qle_shift_div_l; [exact Hpos|]. lra.
  - apply Qle_shift_div_r; [exact Hpos|]. lra.
Qed.


Lemma monthly_elapsed (start_date : datetime) (n : nat) :
  (1 <= n)%nat ->
  elapsed_days
    (map (fun k : nat => shifted start_date (Z.of_nat k * thirty_days))
         (seq 0 n))
  = sample_days n.
Proof.
  intros Hn. unfold elapsed_days, sample_days. rewrite map_map.
  destruct n as [|n]; [lia|].
  apply map_ext. intros k. cbn [seq map nth]. f_equal.
  rewrite !instant_shifted.
  unfold timedelta_days, thirty_days.
  replace (instant start_date + Z.of_nat k * (30 * microseconds_per_day)
           - (instant start_date + Z.of_nat 0 * (30 * microseconds_per_day)))%Z
    with (30 * Z.of_nat k * microseconds_per_day)%Z by lia.
  apply Z.div_mul. discriminate.
Qed.

Section MonthlyTrend.

Variable rounding : list Q -> list Q -> Q.

(** The trend of two or more samples taken every thirty days. *)
Lemma monthly_trend_run (rs : list analysis) (start_date : datetime)
  (t : trace) :
  (2 <= length rs)%nat ->
  map date rs
  = map Some (map (fun k : nat => shifted start_date (Z.of_nat k * thirty_days))
                  (seq 0 (length rs))) ->
  let ys := map vegetation_coverage_percent rs in
  let slope := fitted_slope rounding (sample_days (length rs)) ys in
  _calculate_vegetation_trend rounding rs t
  = (Ret (TrendFull (trend_type slope) slope (nth 0 ys 0) (List.last ys 0)
                    (List.last ys 0 - nth 0 ys 0)), t).
Proof.
  intros Hlen Hdates ys slope.
  pose proof (SatelliteAnalyzerSpec.trend_run rounding rs _ (aware start_date)
                t Hlen Hdates) as Hrun.
  cbv zeta in Hrun.
  rewrite (monthly_elapsed start_date (length rs) ltac:(lia)) in Hrun.
  apply Hrun.
  - apply List.Forall_map. apply List.Forall_forall. intros k _. reflexivity.
  - rewrite sample_days_denominator.
    pose proof (sample_days_denominator_pos (length rs) Hlen) as Hpos.
    intros E. rewrite E in Hpos. discriminate Hpos.
Qed.

(** X18: Samples taken every thirty days whose coverages lie within
    [0, 100]: the trend is that of the least-squares slope plus the
    rounding of the fit.  From five samples on, that is over 120 days or
    more, the least-squares slope is within one point a day, the
    threshold itself; from six samples on, over 150 days or more, it is
    within 6/7 of a point a day, and the trend is "stable" whatever the
    coverages, as long as the fit rounds by at most 1/7. *)
Theorem monthly_trend_is_stable (rs : list analysis) (start_date : datetime)
  (t : trace) :
  (5 <= length rs)%nat ->
  map date rs
  = map Some (map (fun k : nat => shifted start_date (Z.of_nat k * thirty_days))
                  (seq 0 (length rs))) ->
  Forall (fun r => 0 <= vegetation_coverage_percent r <= 100) rs ->
  let xs := sample_days (length rs) in
  let ys := map vegetation_coverage_percent rs in
  exists slope initial final,
    _calculate_vegetation_trend rounding rs t
    = (Ret (TrendFull (trend_type slope) slope initial final
                      (final - initial)), t)
    /\ slope = least_squares_slope xs ys + rounding xs ys
    /\ -1 <= least_squares_slope xs ys <= 1
    /\ ((6 <= length rs)%nat ->
        - (6 # 7) <= least_squares_slope xs ys <= 6 # 7
        /\ (Qabs (rounding xs ys) <= 1 # 7 ->
            trend_type slope = "stable"%string /\ -1 <= slope <= 1)).
Proof.
  intros Hlen Hdates Hrange xs ys.
  pose proof (monthly_trend_run rs start_date t ltac:(lia) Hdates) as Hrun.
  cbv zeta in Hrun. fold xs ys in Hrun. unfold fitted_slope in Hrun.
  assert (Hys : Forall (fun y => 0 <= y <= 100) ys).
  { unfold ys. apply List.Forall_map. exact Hrange. }
  assert (Hn : length ys = length rs) by (unfold ys; apply length_map).
  eexists. eexists. eexists. split; [exact Hrun|].
  split; [reflexivity|]. split.
  - unfold xs. rewrite <- Hn. apply monthly_slope_bound; [lia|exact Hys].
  - intros Hsix.
    assert (Hmargin : - (6 # 7) <= least_squares_slope xs ys <= 6 # 7).
    { unfold xs. rewrite <- Hn. apply monthly_slope_margin; [lia|exact Hys]. }
    split; [exact Hmargin|].
    intros He. apply Qabs_Qle_condition in He.
    assert (Hslope : -1 <= least_squares_slope xs ys + rounding xs ys <= 1)
      by lra.
    split; [|exact Hslope].
    apply (SatelliteAnalyzerSpec.trend_type_cases _). exact Hslope.
Qed.

End MonthlyTrend.

(** Coverage 0, 0, 0, 100, 100, 100 over 150 days is "stable", also with
    a fit that rounds up; with five samples 0, 0, 0, 100, 100 over 120
    days the least-squares slope is exactly one point a day: "stable"
    for a fit without rounding, "increasing" for a fit that rounds up. *)
Lemma monthly_trend_is_stable_witness :
  (exists slope initial final,
      _calculate_vegetation_trend Examples.rounded_up_fit
        [Examples.sample 0 0; Examples.sample 0 30; Examples.sample 0 60;
         Examples.sample 100 90; Examples.sample 100 120;
         Examples.sample 100 150] []
      = (Ret (TrendFull "stable" slope initial final (final - initial)), [])
      /\ -1 <= slope <= 1)
  /\ (exists slope initial final change,
         _calculate_vegetation_trend Examples.exact_fit
           [Examples.sample 0 0; Examples.sample 0 30; Examples.sample 0 60;
            Examples.sample 100 90; Examples.sample 100 120] []
         = (Ret (TrendFull "stable" slope initial final change), [])
         /\ slope == 1)
  /\ (exists slope initial final change,
         _calculate_vegetation_trend Examples.rounded_up_fit
           [Examples.sample 0 0; Examples.sample 0 30; Examples.sample 0 60;
            Examples.sample 100 90; Examples.sample 100 120] []
         = (Ret (TrendFull "increasing" slope initial final change), [])
         /\ 1 < slope).
Proof.
  split; [|split].
  - destruct (monthly_trend_is_stable Examples.rounded_up_fit
                [Examples.sample 0 0; Examples.sample 0 30;
                 Examples.sample 0 60; Examples.sample 100 90;
                 Examples.sample 100 120; Examples.sample 100 150]
                (naive 0) [])
      as (slope & initial & final & Hrun & _ & _ & Hsix).
    + cbn. lia.
    + reflexivity.
    + repeat (constructor; [cbn; split; discriminate|]). constructor.
    + destruct (Hsix ltac:(cbn; lia)) as [_ Hstable].
      destruct (Hstable ltac:(discriminate)) as [Htrend Hslope].
      rewrite Htrend in Hrun.
      exists slope, initial, final. split; [exact Hrun|exact Hslope].
  - eexists. eexists. eexists. eexists.
    split; [vm_compute; reflexivity|reflexivity].
  - eexists. eexists. eexists. eexists.
    split; [vm_compute; reflexivity|reflexivity].
Defined.

(** *** Temporal analysis *)

Lemma bind_of_value {A B} (a : A) (k : A -> M B) t :
  bind (checked (inr a)) k t = k a t.
Proof. reflexivity. Qed.

Section TemporalMore.

Variable cv2_resize : image -> string + image.
Variable cv2_cvtColor : list nat -> list Q -> string + list pixel.
Variable rounding : list Q -> list Q -> Q.
Variable now : Z.
Variable isoformat : datetime -> string.
Variable mock_image : datetime -> image.

Local Abbreviation analyze :=
  (analyze_single_image cv2_resize cv2_cvtColor now (isoformat_now isoformat)).
Local Abbreviation step :=
  (temporal_step cv2_resize cv2_cvtColor now isoformat).
Local Abbreviation analyze_period :=
  (temporal_analysis cv2_resize cv2_cvtColor rounding now isoformat mock_image).

(** The loop over dates whose images can all be classified: one dated
    result per date, in order, with the coverage of its classification. *)
Lemma temporal_loop_run (self : t) (dates : list datetime)
  (acc : list analysis) t :
  (forall d t, In d dates ->
     exists result t', analyze self (mock_image d) t = (Ret result, t')) ->
  exists results t',
    for_each (step self) (map (fun d => (d, mock_image d)) dates) acc t
    = (Ret (acc ++ results), t')
    /\ map date results = map Some dates
    /\ Forall (fun r =>
                 exists image_data result t1 t2,
                   analyze self image_data t1 = (Ret result, t2)
                   /\ vegetation_coverage_percent r
                      = vegetation_coverage_percent result)
              results.
Proof.
  revert acc t. induction dates as [|d dates IH]; intros acc t Hall.
  - exists [], t. rewrite app_nil_r. repeat split. constructor.
  - destruct (Hall d t (or_introl eq_refl)) as (r & t1 & Hr).
    set (dated := {| vegetation_detected := vegetation_detected r;
                     predicted_class := predicted_class r;
                     confidence := confidence r;
                     vegetation_coverage_percent := vegetation_coverage_percent r;
                     class_probabilities := class_probabilities r;
                     change_detection := change_detection r;
                     analysis_timestamp := analysis_timestamp r;
                     model_version := model_version r;
                     date := Some d |}).
    destruct (IH (acc ++ [dated]) t1) as (rs & t2 & Hrs & Hdates & Hcov).
    { intros d' t0 Hd. apply Hall. right. exact Hd. }
    exists (dated :: rs), t2. split; [|split].
    + cbn [map for_each].
      rewrite (bind_ret _ _ t (acc ++ [dated]) t1).
      * rewrite Hrs, <- app_assoc. reflexivity.
      * unfold temporal_step. cbn [fst snd].
        rewrite (bind_ret _ _ _ _ _ Hr). reflexivity.
    + cbn [map]. rewrite Hdates. reflexivity.
    + constructor; [|exact Hcov].
      exists (mock_image d), r, t, t1. split; [exact Hr|reflexivity].
Qed.

(** A fetch that raises makes the analysis raise, logged once, before
    any classification. *)
Lemma temporal_analysis_fetch_raises (self : t) (location : gmap string Q)
  (start_date end_date : datetime) (msg : string) (t : trace) :
  _fetch_time_series_images mock_image location start_date end_date
  = Some (inl msg) ->
  analyze_period self location start_date end_date t
  = Some (Raise msg, LogError ("Temporal analysis failed: " ++ msg) :: t).
Proof.
  intros Hfetch. unfold temporal_analysis. rewrite Hfetch. reflexivity.
Qed.



(** [cv2.resize] rejects a tensor that has no pixels. *)
Hypothesis resize_rejects_empty :
  forall image_data resized pixels,
    cv2_resize image_data = inr resized ->
    to_rgb cv2_cvtColor image_data = inr pixels ->
    pixels <> [].


End TemporalMore.



End SatelliteAnalyzerMore.

(** ** main.py *)

Module MainMore.
Import Main MainEndpoints.

Lemma gather3_inv {A B C} (a : M A) (b : M B) (c : M C) t x y z t3 :
  gather3 a b c t = (Ret (x, y, z), t3) ->
  exists t1 t2,
    a t = (Ret x, t1) /\ b t1 = (Ret y, t2) /\ c t2 = (Ret z, t3).
Proof.
  unfold gather3.
  destruct (a t) as [ra t1] eqn:Ea. destruct (b t1) as [rb t2] eqn:Eb.
  destruct (c t2) as [rc t3'] eqn:Ec.
  destruct ra, rb, rc; try discriminate.
  intros H. inversion H; subst. exists t1, t2.
  split; [reflexivity|]. split; [exact Eb|exact Ec].
Qed.

Section VerificationMore.

Variable satellite_analyzer : SatelliteAnalyzer.t.
Variable carbon_predictor : CarbonPredictor.t.
Variable assess_project_legitimacy : ProjectData -> M (gmap string Q).
Variable cv2_resize : SatelliteAnalyzer.image -> string + SatelliteAnalyzer.image.
Variable cv2_cvtColor : list nat -> list Q -> string + list SatelliteAnalyzer.pixel.
Variable _fetch_satellite_images : gmap string Q -> Q -> list SatelliteAnalyzer.image.
Variable np_std : list Q -> Q.
Variable environment : gmap string Q -> gmap string Q.
Variable now : Z.
Variable isoformat : Z -> string.

Local Abbreviation verify :=
  (verify_carbon_project satellite_analyzer carbon_predictor
     assess_project_legitimacy cv2_resize cv2_cvtColor
     _fetch_satellite_images np_std environment now isoformat).
Local Abbreviation analyses project :=
  (gather3
     (SatelliteAnalyzer.analyze_project_area
        cv2_resize cv2_cvtColor _fetch_satellite_images now isoformat
        satellite_analyzer (location project) (area_hectares project))
     (assess_project_legitimacy project)
     (CarbonPredictor.estimate_co2_capture
        np_std environment now isoformat carbon_predictor project)).

Lemma combine_results_missing project satellite_result fraud_result
  carbon_result t :
  fraud_result !! "legitimacy_score"%string = None ->
  combine_results now project satellite_result fraud_result carbon_result t
  = (Raise "'legitimacy_score'", t).
Proof.
  intros E. unfold combine_results, bind, getitem. rewrite E. reflexivity.
Qed.

(** X22: The save task is scheduled exactly when a result is returned: after
    the three analyses, a returned result adds the task and the
    completion message to the log, a failure adds only its error message
    and is raised as "Verification failed: ..." *)
Theorem save_task_scheduled_iff_verified (project : ProjectData) (t : trace) :
  let started :=
    LogInfo ("Starting verification for project " ++ project_id project) :: t in
  let analysed := snd (analyses project started) in
  match verify project t with
  | (Ret v, t') =>
      t' = LogInfo ("Verification completed for project " ++ project_id project)
           :: BackgroundTask "save_verification_result" (project_id project)
           :: analysed
      /\ result_project_id v = project_id project
  | (Raise msg, t') =>
      exists e,
        msg = ("Verification failed: " ++ e)%string
        /\ t' = LogError ("Verification failed for project "
                          ++ project_id project ++ ": " ++ e)
                :: analysed
  | (NonFinite, t') => t' = analysed
  end.
Proof.
  cbv zeta. unfold verify_carbon_project, try_except.
  unfold bind at 1. cbn [emit].
  unfold bind at 1.
  destruct (analyses project _) as [[[[sat fraud] carbon]|msg|] tg];
    cbn [snd].
  - unfold bind at 1.
    destruct (fraud !! "legitimacy_score"%string) as [l|] eqn:E.
    + rewrite (EndpointSpec.combine_results_run now project sat fraud l
                 carbon tg E).
      cbn. split; reflexivity.
    + rewrite (combine_results_missing project sat fraud carbon tg E).
      cbn. eexists. split; reflexivity.
  - cbn. eexists. split; reflexivity.
  - reflexivity.
Qed.

Lemma verify_inv (project : ProjectData) (t : trace)
  (v : VerificationResult) (t' : trace) :
  verify project t = (Ret v, t') ->
  exists satellite_result fraud_result carbon_result legitimacy t0 t1 t2 t3,
    SatelliteAnalyzer.analyze_project_area
      cv2_resize cv2_cvtColor _fetch_satellite_images now isoformat
      satellite_analyzer (location project) (area_hectares project) t0
    = (Ret satellite_result, t1)
    /\ assess_project_legitimacy project t1 = (Ret fraud_result, t2)
    /\ CarbonPredictor.estimate_co2_capture
         np_std environment now isoformat carbon_predictor project t2
       = (Ret carbon_result, t3)
    /\ fraud_result !! "legitimacy_score"%string = Some legitimacy
    /\ verification_status v
       = SatelliteAnalyzer.area_vegetation_detected satellite_result
         && gtb legitimacy 0.8
         && gtb (CarbonPredictor.feasibility carbon_result) 0.7
    /\ confidence_score v
       = py_min3 (SatelliteAnalyzer.area_confidence satellite_result)
                 legitimacy (CarbonPredictor.feasibility carbon_result)
    /\ fraud_risk_score v = 1.0 - legitimacy
    /\ satellite_analysis v = satellite_result
    /\ fraud_assessment v = fraud_result
    /\ carbon_estimation v = carbon_result
    /\ co2_capture_estimate v = CarbonPredictor.annual_co2_tonnes carbon_result
    /\ satellite_images v = SatelliteAnalyzer.image_urls satellite_result.
Proof.
  unfold verify_carbon_project. intros Hrun.
  apply try_except_ret_inv in Hrun as [Hrun|(msg & t1 & _ & Hh)].
  2:{ unfold bind, emit, raise in Hh. discriminate Hh. }
  apply bind_inv in Hrun as ([] & t0 & _ & Hrun).
  apply bind_inv in Hrun as ([[sat fraud] carbon] & tg & Hgather & Hrun).
  apply gather3_inv in Hgather as (t1 & t2 & Hsat & Hfraud & Hcarbon).
  apply bind_inv in Hrun as (v0 & t4 & Hcombine & Hrun).
  apply bind_inv in Hrun as ([] & t5 & _ & Hrun).
  apply bind_inv in Hrun as ([] & t6 & _ & Hrun).
  unfold ret in Hrun. injection Hrun as <- _.
  destruct (fraud !! "legitimacy_score"%string) as [l|] eqn:E.
  - rewrite (EndpointSpec.combine_results_run now project sat fraud l
               carbon tg E) in Hcombine.
    injection Hcombine as <- _.
    exists sat, fraud, carbon, l, t0, t1, t2, tg. cbn. repeat split; assumption.
  - rewrite (combine_results_missing project sat fraud carbon tg E) in Hcombine.
    discriminate Hcombine.
Qed.

(** A result whose legitimacy assessment lacks the key
    [legitimacy_score] cannot be combined: the endpoint fails with the
    [KeyError], although the three analyses completed. *)
Lemma missing_legitimacy_score_fails (project : ProjectData)
  (satellite_result : SatelliteAnalyzer.area_report)
  (fraud_result : gmap string Q)
  (carbon_result : CarbonPredictor.estimate) (t t1 t2 t3 : trace) :
  SatelliteAnalyzer.analyze_project_area
    cv2_resize cv2_cvtColor _fetch_satellite_images now isoformat
    satellite_analyzer (location project) (area_hectares project)
    (LogInfo ("Starting verification for project " ++ project_id project) :: t)
  = (Ret satellite_result, t1) ->
  assess_project_legitimacy project t1 = (Ret fraud_result, t2) ->
  fraud_result !! "legitimacy_score"%string = None ->
  CarbonPredictor.estimate_co2_capture
    np_std environment now isoformat carbon_predictor project t2
  = (Ret carbon_result, t3) ->
  verify project t
  = (Raise "Verification failed: 'legitimacy_score'",
     LogError ("Verification failed for project " ++ project_id project
               ++ ": 'legitimacy_score'") :: t3).
Proof.
  intros Hsat Hfraud Hkey Hcarbon.
  unfold verify_carbon_project.
  rewrite (try_except_raise _ _ t "'legitimacy_score'" t3); [reflexivity|].
  unfold bind at 1. cbn [emit].
  rewrite (bind_ret _ _ _ _ _
             (EndpointSpec.gather3_ret _ _ _ _ _ _ _ _ _ _
                Hsat Hfraud Hcarbon)).
  cbv beta iota. apply bind_raise.
  apply combine_results_missing. exact Hkey.
Qed.

(** X23: A project is reported verified exactly when the mean image
    confidence exceeds 0.8, the mean coverage 60 percent, the legitimacy
    0.8 and the feasibility 0.7; then its confidence is above 0.7 and its
    fraud risk below 0.2.  The confidence never exceeds any of the three
    scores it combines, and the fraud risk is the complement of the
    legitimacy. *)
Theorem verified_project_bounds (project : ProjectData) (t : trace)
  (v : VerificationResult) (t' : trace) :
  verify project t = (Ret v, t') ->
  exists legitimacy,
    fraud_assessment v !! "legitimacy_score"%string = Some legitimacy
    /\ fraud_risk_score v = 1.0 - legitimacy
    /\ confidence_score v
       <= SatelliteAnalyzer.area_confidence (satellite_analysis v)
    /\ confidence_score v <= legitimacy
    /\ confidence_score v <= CarbonPredictor.feasibility (carbon_estimation v)
    /\ (verification_status v = true <->
        0.8 < SatelliteAnalyzer.area_confidence (satellite_analysis v)
        /\ 60 < SatelliteAnalyzer.area_vegetation_coverage_percent
                  (satellite_analysis v)
        /\ 0.8 < legitimacy
        /\ 0.7 < CarbonPredictor.feasibility (carbon_estimation v))
    /\ (verification_status v = true ->
        0.7 < confidence_score v /\ fraud_risk_score v < 0.2).
Proof.
  intros Hrun.
  destruct (verify_inv project t v t' Hrun)
    as (sat & fraud & carbon & l & t0 & t1 & t2 & t3 & Hsat & _ & _ & Hkey
        & Hstatus & Hconf & Hrisk & -> & -> & -> & _).
  destruct (SatelliteAnalyzerSpec.area_report_fields _ _ _ _ _ _ _ _ _ _ _ Hsat)
    as (_ & Hdetected & _).
  exists l. rewrite Hconf, Hrisk, Hstatus, Hdetected.
  set (a := SatelliteAnalyzer.area_confidence sat).
  set (c := SatelliteAnalyzer.area_vegetation_coverage_percent sat).
  set (f := CarbonPredictor.feasibility carbon).
  assert (Hmin : py_min3 a l f <= a /\ py_min3 a l f <= l /\ py_min3 a l f <= f).
  { unfold py_min3, py_min.
    destruct (Qlt_le_dec l a); destruct (Qlt_le_dec f _); repeat split; lra. }
  assert (Hiff : gtb a 0.8 && gtb c 60 && gtb l 0.8 && gtb f 0.7 = true
                 <-> 0.8 < a /\ 60 < c /\ 0.8 < l /\ 0.7 < f).
  { rewrite !andb_true_iff, !gtb_spec. tauto. }
  split; [exact Hkey|]. split; [reflexivity|].
  split; [apply Hmin|]. split; [apply Hmin|]. split; [apply Hmin|].
  split; [exact Hiff|].
  intros Htrue. apply Hiff in Htrue as (Ha & Hc & Hl & Hf). split; [|lra].
  unfold py_min3, py_min.
  destruct (Qlt_le_dec l a); destruct (Qlt_le_dec f _); lra.
Qed.

End VerificationMore.

(** *** The other endpoints *)

Lemma handled_never_raises {A} (c : M A) (h : string -> M A) (t : trace) :
  (forall e t1 msg t', h e t1 <> (Raise msg, t')) ->
  forall msg t', try_except c h t <> (Raise msg, t').
Proof.
  intros Hh msg t'. unfold try_except.
  destruct (c t) as [[a|e|] t1]; [discriminate|apply Hh|discriminate].
Qed.

Section EndpointsMore.

Variable satellite_analyzer : SatelliteAnalyzer.t.
Variable carbon_predictor : CarbonPredictor.t.
Variable cv2_resize : SatelliteAnalyzer.image -> string + SatelliteAnalyzer.image.
Variable cv2_cvtColor : list nat -> list Q -> string + list SatelliteAnalyzer.pixel.
Variable np_std : list Q -> Q.
Variable environment : gmap string Q -> gmap string Q.
Variable now : Z.
Variable isoformat : Z -> string.
Variable http_str : nat -> string -> string.
Variable preprocess_satellite_image : string -> M SatelliteAnalyzer.image.
Variable get_project : string -> M (option ProjectData).
Variable db_save_verification_result : VerificationResult -> M unit.
Variable V : Type.
Variable get_market_data : M (gmap string V).

Local Abbreviation analyze_upload :=
  (analyze_satellite_image satellite_analyzer cv2_resize cv2_cvtColor
     now isoformat http_str preprocess_satellite_image).
Local Abbreviation predict_endpoint :=
  (predict_carbon_capture carbon_predictor np_std environment now isoformat
     get_project).

(** X24: The upload endpoint never answers 400: every failure, the rejected
    content type included, leaves as a 500 whose detail starts with
    "Analysis failed: ".  A file whose content type does not start with
    "image/" is not read, and its 500 carries the text of the 400 that
    was raised for it. *)
Theorem upload_errors_are_500 (file : UploadFile) (project_id : option string)
  (t : trace) :
  (forall status_code detail t',
      analyze_upload file project_id t
      = (Ret (HTTPException status_code detail), t') ->
      status_code = 500%nat
      /\ exists e,
           detail = ("Analysis failed: " ++ e)%string
           /\ exists t1, t' = LogError ("Satellite analysis failed: " ++ e) :: t1)
  /\ (forall msg t', analyze_upload file project_id t <> (Raise msg, t'))
  /\ (forall content,
         content_type file = Some content ->
         String.prefix "image/" content = false ->
         analyze_upload file project_id t
         = (Ret (HTTPException 500
                   ("Analysis failed: " ++ http_str 400 "Invalid file format")),
            LogError ("Satellite analysis failed: "
                      ++ http_str 400 "Invalid file format") :: t))
  /\ (content_type file = None ->
      analyze_upload file project_id t
      = (Ret (HTTPException 500
                "Analysis failed: 'NoneType' object has no attribute 'startswith'"),
         LogError "Satellite analysis failed: 'NoneType' object has no attribute 'startswith'"
         :: t)).
Proof.
  split; [|split; [|split]].
  - intros status_code detail t' Hrun. unfold analyze_satellite_image in Hrun.
    apply try_except_ret_inv in Hrun as [Hrun|(e & t1 & _ & Hh)].
    + destruct (content_type file) as [content|]; [|discriminate Hrun].
      destruct (negb (String.prefix "image/" content)); [discriminate Hrun|].
      apply bind_inv in Hrun as (d & t1 & _ & Hrun).
      apply bind_inv in Hrun as (p & t2 & _ & Hrun).
      apply bind_inv in Hrun as (a & t3 & _ & Hrun).
      discriminate Hrun.
    + unfold bind, emit, ret in Hh. injection Hh as <- <- <-.
      split; [reflexivity|]. exists e. split; [reflexivity|].
      exists t1. reflexivity.
  - unfold analyze_satellite_image. apply handled_never_raises.
    intros e t1 msg t'. cbn. discriminate.
  - intros content Hc Hprefix. unfold analyze_satellite_image.
    rewrite Hc, Hprefix. reflexivity.
  - intros Hc. unfold analyze_satellite_image. rewrite Hc. reflexivity.
Qed.

(** X25: The prediction endpoint answers 404 for a project that the database
    does not hold, without logging and without calling the predictor; any
    other failure is a 500 "Prediction failed: ...", so a predictor that
    is not loaded answers 500 after two error messages; a prediction that
    succeeds is returned as the predictor made it. *)
Theorem prediction_endpoint_statuses (project_id : string)
  (timeframe_days : Z) (include_weather : bool) (t t1 : trace) :
  (get_project project_id t = (Ret None, t1) ->
   predict_endpoint project_id timeframe_days include_weather t
   = (Ret (HTTPException 404 "Project not found"), t1))
  /\ (forall msg,
         get_project project_id t = (Raise msg, t1) ->
         predict_endpoint project_id timeframe_days include_weather t
         = (Ret (HTTPException 500 ("Prediction failed: " ++ msg)),
            LogError ("Prediction failed for project " ++ project_id
                      ++ ": " ++ msg) :: t1))
  /\ (forall project,
         get_project project_id t = (Ret (Some project), t1) ->
         match CarbonPredictor.predict_capture
                 np_std environment now isoformat carbon_predictor project
                 timeframe_days include_weather t1 with
         | (Ret prediction, t2) =>
             predict_endpoint project_id timeframe_days include_weather t
             = (Ret (Answer prediction), t2)
         | (Raise msg, t2) =>
             predict_endpoint project_id timeframe_days include_weather t
             = (Ret (HTTPException 500 ("Prediction failed: " ++ msg)),
                LogError ("Prediction failed for project " ++ project_id
                          ++ ": " ++ msg) :: t2)
         | (NonFinite, t2) =>
             predict_endpoint project_id timeframe_days include_weather t
             = (NonFinite, t2)
         end)
  /\ (forall project,
         get_project project_id t = (Ret (Some project), t1) ->
         CarbonPredictor.is_model_loaded carbon_predictor = false ->
         predict_endpoint project_id timeframe_days include_weather t
         = (Ret (HTTPException 500
                   "Prediction failed: Carbon predictor model not loaded"),
            [LogError ("Prediction failed for project " ++ project_id
                       ++ ": Carbon predictor model not loaded");
             LogError "Detailed prediction failed: Carbon predictor model not loaded"]
            ++ t1)).
Proof.
  split; [|split; [|split]].
  - intros Hdb. unfold predict_carbon_capture, try_except, bind.
    rewrite Hdb. reflexivity.
  - intros msg Hdb. unfold predict_carbon_capture, try_except, bind.
    rewrite Hdb. reflexivity.
  - intros project Hdb.
    destruct (CarbonPredictor.predict_capture _ _ _ _ _ _ _ _ t1)
      as [[prediction|msg|] t2] eqn:E;
      unfold predict_carbon_capture, try_except, bind;
      rewrite Hdb, E; reflexivity.
  - intros project Hdb Hflag. unfold predict_carbon_capture, try_except.
    unfold bind at 1. rewrite Hdb. unfold bind at 1.
    unfold CarbonPredictor.predict_capture, try_except.
    unfold bind at 1. unfold CarbonPredictor.estimate_co2_capture.
    rewrite Hflag. reflexivity.
Qed.

(** Saving a result never fails the background task: an exception of
    the database is logged and swallowed. *)
Lemma save_failure_is_swallowed (result : VerificationResult) (t : trace) :
  (forall msg t',
      save_verification_result db_save_verification_result result t
      <> (Raise msg, t'))
  /\ (forall msg t1,
         db_save_verification_result result t = (Raise msg, t1) ->
         save_verification_result db_save_verification_result result t
         = (Ret tt, LogError ("Failed to save verification result: " ++ msg)
                    :: t1))
  /\ (forall t1,
         db_save_verification_result result t = (Ret tt, t1) ->
         save_verification_result db_save_verification_result result t
         = (Ret tt, LogInfo ("Saved verification result for project "
                             ++ result_project_id result) :: t1)).
Proof.
  split; [|split].
  - unfold save_verification_result. apply handled_never_raises.
    intros e t1 msg t'. cbn. discriminate.
  - unfold save_verification_result, try_except, bind.
    intros msg t1 ->. reflexivity.
  - unfold save_verification_result, try_except, bind.
    intros t1 ->. reflexivity.
Qed.

(** X26: The market endpoint answers only when the forecaster's data holds
    all five keys, which it passes on under the response names; the first
    missing key, in the order current_prices, trends, volume, forecast,
    sentiment, is named in the detail of the 500. *)
Theorem market_analysis_needs_all_keys (market_data : gmap string V)
  (t t1 : trace) :
  get_market_data t = (Ret market_data, t1) ->
  match first_missing market_data with
  | Some key =>
      get_market_analysis now isoformat V get_market_data t
      = (Ret (HTTPException 500 ("Market analysis failed: '" ++ key ++ "'")),
         LogError ("Market analysis failed: '" ++ key ++ "'") :: t1)
  | None =>
      exists answer,
        get_market_analysis now isoformat V get_market_data t
        = (Ret (Answer answer), t1)
        /\ market_data !! "current_prices"%string
           = Some (current_prices answer)
        /\ market_data !! "trends"%string = Some (price_trends answer)
        /\ market_data !! "volume"%string = Some (volume_analysis answer)
        /\ market_data !! "forecast"%string = Some (forecast_30_days answer)
        /\ market_data !! "sentiment"%string = Some (market_sentiment answer)
        /\ market_timestamp answer = isoformat now
  end.
Proof.
  intros Hdata. unfold first_missing, market_keys. cbn [List.find].
  destruct (market_data !! "current_prices"%string) eqn:E1.
  2:{ unfold get_market_analysis, try_except, bind, getitem.
      rewrite Hdata, E1. reflexivity. }
  destruct (market_data !! "trends"%string) eqn:E2.
  2:{ unfold get_market_analysis, try_except, bind, getitem.
      rewrite Hdata, E1, E2. reflexivity. }
  destruct (market_data !! "volume"%string) eqn:E3.
  2:{ unfold get_market_analysis, try_except, bind, getitem.
      rewrite Hdata, E1, E2, E3. reflexivity. }
  destruct (market_data !! "forecast"%string) eqn:E4.
  2:{ unfold get_market_analysis, try_except, bind, getitem.
      rewrite Hdata, E1, E2, E3, E4. reflexivity. }
  destruct (market_data !! "sentiment"%string) eqn:E5.
  2:{ unfold get_market_analysis, try_except, bind, getitem.
      rewrite Hdata, E1, E2, E3, E4, E5. reflexivity. }
  eexists. split.
  - unfold get_market_analysis, try_except, bind, getitem.
    rewrite Hdata, E1, E2, E3, E4, E5. reflexivity.
  - cbn. repeat split; reflexivity.
Qed.

End EndpointsMore.

(** The example project with a legitimacy of 0.9, a forest image scored
    0.85 and a feasibility of 0.75: verified, with a confidence above 0.7
    and a fraud risk below 0.2. *)
Lemma verified_project_bounds_witness :
  exists v t',
    verify_carbon_project
      (Examples.analyzer Examples.confident_scores)
      (Examples.predictor 164.0625) (Examples.legitimacy 0.9)
      Examples.resize Examples.cvt_color Examples.one_green_image
      Examples.no_spread Examples.no_environment Examples.clock
      Examples.iso_text Examples.project [] = (Ret v, t')
    /\ verification_status v = true
    /\ 0.7 < confidence_score v
    /\ fraud_risk_score v < 0.2.
Proof.
  eexists. eexists. split; [vm_compute; reflexivity|].
  destruct (verified_project_bounds
              (Examples.analyzer Examples.confident_scores)
              (Examples.predictor 164.0625) (Examples.legitimacy 0.9)
              Examples.resize Examples.cvt_color Examples.one_green_image
              Examples.no_spread Examples.no_environment Examples.clock
              Examples.iso_text Examples.project [] _ _
              ltac:(vm_compute; reflexivity))
    as (l & _ & _ & _ & _ & _ & _ & H).
  split; [reflexivity|]. apply H. reflexivity.
Defined.

(** A forecaster whose data lacks the sentiment. *)
Lemma market_analysis_needs_all_keys_witness :
  get_market_analysis Examples.clock Examples.iso_text Q
    (ret (list_to_map [("current_prices", 30); ("trends", 1); ("volume", 2);
                       ("forecast", 31)]%string)) []
  = (Ret (HTTPException 500 "Market analysis failed: 'sentiment'"),
     [LogError "Market analysis failed: 'sentiment'"]).
Proof.
  exact (market_analysis_needs_all_keys Examples.clock Examples.iso_text Q
           (ret (list_to_map [("current_prices", 30); ("trends", 1);
                              ("volume", 2); ("forecast", 31)]%string))
           (list_to_map [("current_prices", 30); ("trends", 1);
                         ("volume", 2); ("forecast", 31)]%string)
           [] [] eq_refl).
Defined.

(** A text file sent to the upload endpoint: a 500, not a 400. *)
Lemma upload_errors_are_500_witness :
  analyze_satellite_image (Examples.analyzer Examples.confident_scores)
    Examples.resize Examples.cvt_color Examples.clock Examples.iso_text
    (fun status_code detail => pretty status_code ++ ": " ++ detail)%string
    (fun _ => ret (Examples.field_image 8 12))
    {| content_type := Some "text/plain"%string;
       filename := Some "notes.txt"%string;
       read := ret "green"%string |}
    None []
  = (Ret (HTTPException 500 "Analysis failed: 400: Invalid file format"),
     [LogError "Satellite analysis failed: 400: Invalid file format"]).
Proof.
  destruct (upload_errors_are_500
              (Examples.analyzer Examples.confident_scores)
              Examples.resize Examples.cvt_color Examples.clock
              Examples.iso_text
              (fun status_code detail =>
                 pretty status_code ++ ": " ++ detail)%string
              (fun _ => ret (Examples.field_image 8 12))
              {| content_type := Some "text/plain"%string;
                 filename := Some "notes.txt"%string;
                 read := ret "green"%string |}
              None []) as (_ & _ & H & _).
  exact (H "text/plain"%string eq_refl eq_refl).
Defined.

(** A project that the database does not hold: 404, nothing logged. *)
Lemma prediction_endpoint_statuses_witness :
  predict_carbon_capture (Examples.predictor 164.0625) Examples.no_spread
    Examples.no_environment Examples.clock Examples.iso_text
    (fun _ => ret None) "P-404" 365 true []
  = (Ret (HTTPException 404 "Project not found"), []).
Proof.
  destruct (prediction_endpoint_statuses (Examples.predictor 164.0625)
              Examples.no_spread Examples.no_environment Examples.clock
              Examples.iso_text (fun _ => ret None) "P-404" 365 true [] [])
    as (H & _).
  exact (H eq_refl).
Defined.
End MainMore.

(** ** config.py *)

Module ConfigMore.
Import Config.

Lemma missing_settings_filter (settings : Settings) :
  fold_left (fun acc setting =>
               if negb (getattr_truthy settings setting)
               then acc ++ [setting] else acc)
            required_settings []
  = List.filter (fun setting => negb (getattr_truthy settings setting))
                required_settings.
Proof.
  unfold required_settings. cbn [fold_left List.filter].
  destruct (negb (getattr_truthy settings "SATELLITE_API_KEY"));
    destruct (negb (getattr_truthy settings "NASA_API_KEY"));
    destruct (negb (getattr_truthy settings "SECRET_KEY")); reflexivity.
Qed.

(** X27: Outside production nothing is validated.  In production the module
    raises exactly when one of the two satellite keys is unset or empty
    or the secret key is empty, and its message lists the missing names
    in the order SATELLITE_API_KEY, NASA_API_KEY, SECRET_KEY; the
    placeholder secret of the class passes the validation. *)
Theorem production_settings_validation (settings : Settings) (t : trace) :
  let missing :=
    List.filter (fun setting => negb (getattr_truthy settings setting))
                required_settings in
  let configured :=
    ("CarbonFlow AI Engine configured for " ++ ENVIRONMENT settings
     ++ " environment")%string in
  (ENVIRONMENT settings <> "production"%string ->
   validate settings t = (Ret configured, t))
  /\ (ENVIRONMENT settings = "production"%string ->
      (missing = [] -> validate settings t = (Ret configured, t))
      /\ (missing <> [] ->
          validate settings t
          = (Raise ("Missing required production settings: "
                    ++ repr_list missing), t)))
  /\ (missing = [] <->
      (exists key, SATELLITE_API_KEY settings = Some key /\ key <> ""%string)
      /\ (exists key, NASA_API_KEY settings = Some key /\ key <> ""%string)
      /\ SECRET_KEY settings <> ""%string)
  /\ getattr_truthy defaults "SECRET_KEY" = true.
Proof.
  cbv zeta. split; [|split; [|split]].
  - intros Hdev. unfold validate.
    destruct (String.eqb_spec (ENVIRONMENT settings) "production");
      [contradiction|reflexivity].
  - intros Hprod. unfold validate. rewrite Hprod. cbn [String.eqb Ascii.eqb].
    change (("production" =? "production")%string) with true. cbv iota.
    rewrite missing_settings_filter.
    split.
    + intros ->. reflexivity.
    + intros Hne.
      destruct (List.filter _ required_settings) as [|m ms];
        [contradiction|reflexivity].
  - unfold required_settings. cbn [List.filter].
    unfold getattr_truthy. cbn [String.eqb Ascii.eqb Bool.eqb].
    change (("SATELLITE_API_KEY" =? "SATELLITE_API_KEY")%string) with true.
    change (("NASA_API_KEY" =? "SATELLITE_API_KEY")%string) with false.
    change (("NASA_API_KEY" =? "NASA_API_KEY")%string) with true.
    change (("SECRET_KEY" =? "SATELLITE_API_KEY")%string) with false.
    change (("SECRET_KEY" =? "NASA_API_KEY")%string) with false.
    cbv iota. unfold truthy_option, truthy.
    destruct (SATELLITE_API_KEY settings) as [k1|];
      destruct (NASA_API_KEY settings) as [k2|];
      try destruct (String.eqb_spec k1 "");
      try destruct (String.eqb_spec k2 "");
      destruct (String.eqb_spec (SECRET_KEY settings) "");
      cbn [negb]; split;
      try discriminate;
      try (intros _; split; [eexists; split; [reflexivity|assumption]|];
           split; [eexists; split; [reflexivity|assumption]|assumption]);
      try reflexivity;
      intros ([k [Hk Hkne]] & [k' [Hk' Hkne']] & Hs);
      try discriminate Hk; try discriminate Hk';
      try (injection Hk as <-); try (injection Hk' as <-);
      contradiction.
  - reflexivity.
Qed.

(** Production with the NASA key unset and the placeholder secret: only
    the NASA key is reported. *)
Lemma production_settings_validation_witness :
  validate {| ENVIRONMENT := "production";
              SATELLITE_API_KEY := Some "s3cr3t"%string;
              NASA_API_KEY := None;
              SECRET_KEY := SECRET_KEY defaults |} []
  = (Raise "Missing required production settings: ['NASA_API_KEY']", []).
Proof.
  destruct (production_settings_validation
              {| ENVIRONMENT := "production";
                 SATELLITE_API_KEY := Some "s3cr3t"%string;
                 NASA_API_KEY := None;
                 SECRET_KEY := SECRET_KEY defaults |} [])
    as (_ & H & _).
  destruct (H eq_refl) as [_ Hraise].
  rewrite Hraise; [reflexivity|discriminate].
Defined.

End ConfigMore.

(** ** deployment/ibm-cloud/handler.py *)

Module HandlerMore.
Import Handler.

(** *** Rounding *)

Lemma floor_bounds (x : Q) :
  inject_Z (Qfloor x) <= x /\ x < inject_Z (Qfloor x) + 1.
Proof.
  split; [apply Qfloor_le|].
  pose proof (Qlt_floor x) as H. rewrite inject_Z_plus in H. exact H.
Qed.

Lemma inject_Z_le_iff (a b : Z) : (a <= b)%Z <-> inject_Z a <= inject_Z b.
Proof. rewrite <- Zle_Qle. reflexivity. Qed.

Lemma inject_Z_lt_succ (a b : Z) :
  inject_Z a < inject_Z b + 1 -> (a <= b)%Z.
Proof.
  intros H. assert (inject_Z a < inject_Z (b + 1)) as H'
    by (rewrite inject_Z_plus; exact H).
  rewrite <- Zlt_Qlt in H'. lia.
Qed.

(** The rounded value is within one half of its argument. *)
Lemma round_half_even_near (x : Q) :
  x - (1 # 2) <= inject_Z (round_half_even x) <= x + (1 # 2).
Proof.
  unfold round_half_even. destruct (floor_bounds x) as [H0 H1].
  destruct (Qlt_le_dec (x - inject_Z (Qfloor x)) (1 # 2)) as [Hlt|Hge].
  - lra.
  - destruct (Qlt_le_dec (1 # 2) (x - inject_Z (Qfloor x))) as [Hgt|Hle].
    + rewrite inject_Z_plus. change (inject_Z 1) with 1. lra.
    + destruct (Z.even (Qfloor x)).
      * lra.
      * rewrite inject_Z_plus. change (inject_Z 1) with 1. lra.
Qed.

(** An even integer is reached from one half below it. *)
Lemma round_half_even_ge (x : Q) (k : Z) :
  Z.even k = true ->
  (k <= round_half_even x)%Z <-> inject_Z k - (1 # 2) <= x.
Proof.
  intros Heven. unfold round_half_even. destruct (floor_bounds x) as [H0 H1].
  set (f := Qfloor x) in *.
  destruct (Qlt_le_dec (x - inject_Z f) (1 # 2)) as [Hlt|Hge].
  - split.
    + intros Hk. apply inject_Z_le_iff in Hk. lra.
    + intros Hx. apply inject_Z_lt_succ. lra.
  - destruct (Qlt_le_dec (1 # 2) (x - inject_Z f)) as [Hgt|Hle].
    + split.
      * intros Hk. apply inject_Z_le_iff in Hk.
        rewrite inject_Z_plus in Hk. change (inject_Z 1) with 1 in Hk. lra.
      * intros Hx. apply inject_Z_lt_succ.
        rewrite inject_Z_plus. change (inject_Z 1) with 1. lra.
    + assert (Hhalf : x == inject_Z f + (1 # 2)) by lra.
      destruct (Z.even f) eqn:Ef.
      * split.
        -- intros Hk. apply inject_Z_le_iff in Hk. lra.
        -- intros Hx.
           assert (Hk1 : (k <= f + 1)%Z).
           { apply inject_Z_lt_succ.
             rewrite inject_Z_plus. change (inject_Z 1) with 1. lra. }
           assert (Hne : k <> (f + 1)%Z).
           { intros ->. rewrite Z.even_add, Ef in Heven. discriminate Heven. }
           lia.
      * split.
        -- intros Hk. apply inject_Z_le_iff in Hk.
           rewrite inject_Z_plus in Hk. change (inject_Z 1) with 1 in Hk. lra.
        -- intros Hx. apply inject_Z_lt_succ.
           rewrite inject_Z_plus. change (inject_Z 1) with 1. lra.
Qed.

Lemma round_half_even_integer (k : Z) : round_half_even (inject_Z k) = k.
Proof.
  unfold round_half_even. rewrite Qfloor_Z.
  destruct (Qlt_le_dec (inject_Z k - inject_Z k) (1 # 2)) as [_|H];
    [reflexivity|lra].
Qed.

(** An odd integer is reached from above one half below it. *)
Lemma round_half_even_ge_odd (x : Q) (k : Z) :
  Z.even k = false ->
  (k <= round_half_even x)%Z <-> inject_Z k - (1 # 2) < x.
Proof.
  intros Hodd. unfold round_half_even. destruct (floor_bounds x) as [H0 H1].
  set (f := Qfloor x) in *.
  destruct (Qlt_le_dec (x - inject_Z f) (1 # 2)) as [Hlt|Hge].
  - split.
    + intros Hk. apply inject_Z_le_iff in Hk. lra.
    + intros Hx. apply inject_Z_lt_succ. lra.
  - destruct (Qlt_le_dec (1 # 2) (x - inject_Z f)) as [Hgt|Hle].
    + split.
      * intros Hk. apply inject_Z_le_iff in Hk.
        rewrite inject_Z_plus in Hk. change (inject_Z 1) with 1 in Hk. lra.
      * intros Hx. apply inject_Z_lt_succ.
        rewrite inject_Z_plus. change (inject_Z 1) with 1. lra.
    + assert (Hhalf : x == inject_Z f + (1 # 2)) by lra.
      destruct (Z.even f) eqn:Ef.
      * split.
        -- intros Hk. apply inject_Z_le_iff in Hk. lra.
        -- intros Hx. apply inject_Z_lt_succ. lra.
      * split.
        -- intros Hk.
           assert (Hne : k <> (f + 1)%Z).
           { intros ->. rewrite Z.even_add, Ef in Hodd. discriminate Hodd. }
           assert (Hk' : (k <= f)%Z) by lia.
           apply inject_Z_le_iff in Hk'. lra.
        -- intros Hx.
           assert (Hk' : (k <= f)%Z) by (apply inject_Z_lt_succ; lra).
           lia.
Qed.

Lemma round_half_even_mono (x y : Q) :
  x <= y -> (round_half_even x <= round_half_even y)%Z.
Proof.
  intros Hxy.
  destruct (Z.even (round_half_even x)) eqn:E.
  - apply (round_half_even_ge y _ E).
    apply (Qle_trans _ x); [|exact Hxy].
    apply (round_half_even_ge x _ E). lia.
  - apply (round_half_even_ge_odd y _ E).
    apply (Qlt_le_trans _ x); [|exact Hxy].
    apply (round_half_even_ge_odd x _ E). lia.
Qed.

(** *** Scores and grades *)

Lemma clamp_range (x : Q) : 0 <= py_min 100 (py_max 0 x) <= 100.
Proof.
  unfold py_min, py_max.
  destruct (Qlt_le_dec 0 x); destruct (Qlt_le_dec _ 100); lra.
Qed.

Lemma clamp_ge (x v : Q) :
  0 < v -> v <= 100 -> (v <= py_min 100 (py_max 0 x) <-> v <= x).
Proof.
  intros H0 H100. unfold py_min, py_max.
  destruct (Qlt_le_dec 0 x); destruct (Qlt_le_dec _ 100); split; lra.
Qed.

Lemma clamp_mono (x y : Q) :
  x <= y -> py_min 100 (py_max 0 x) <= py_min 100 (py_max 0 y).
Proof.
  intros Hxy. unfold py_min, py_max.
  destruct (Qlt_le_dec 0 x); destruct (Qlt_le_dec 0 y);
    repeat destruct (Qlt_le_dec _ 100); lra.
Qed.

Lemma tenth_le (a b : Z) :
  inject_Z a / 10 <= inject_Z b / 10 <-> (a <= b)%Z.
Proof.
  rewrite inject_Z_le_iff. split; intros H.
  - apply (Qmult_le_r _ _ (/ 10)); [reflexivity|exact H].
  - apply (Qmult_le_r _ _ (/ 10)); [reflexivity|exact H].
Qed.

(** An even number of tenths is reached from one twentieth below it. *)
Lemma score_reaches (a : analysis) (k : Z) :
  Z.even k = true -> (0 < k <= 1000)%Z ->
  inject_Z k / 10 <= calculate_carbon_score a
  <-> (inject_Z k - (1 # 2)) / 500 - 1 <= sentiment_score a.
Proof.
  intros Heven [Hk0 Hk1]. unfold calculate_carbon_score, py_round1.
  rewrite tenth_le, (round_half_even_ge _ k Heven).
  set (x := (sentiment_score a + 1) * 50).
  assert (Q0 : 1 <= inject_Z k)
    by (change 1 with (inject_Z 1); rewrite <- Zle_Qle; lia).
  assert (Q1 : inject_Z k <= 1000)
    by (change 1000 with (inject_Z 1000); rewrite <- Zle_Qle; lia).
  unfold Qdiv. change (/ 500) with (1 # 500).
  pose proof (clamp_ge x ((inject_Z k - (1 # 2)) * (1 # 10))
                ltac:(lra) ltac:(lra)) as Hc.
  set (c := py_min 100 (py_max 0 x)) in *.
  split; intros H.
  - assert (H' : (inject_Z k - (1 # 2)) * (1 # 10) <= x)
      by (apply Hc; lra).
    unfold x in H'. lra.
  - assert (H' : (inject_Z k - (1 # 2)) * (1 # 10) <= c)
      by (apply Hc; unfold x; lra).
    lra.
Qed.

Lemma geb_spec (a b : Q) : geb a b = true <-> b <= a.
Proof.
  unfold geb. destruct (Qlt_le_dec a b); split; intros; try lra; congruence.
Qed.

(** The score is a number of tenths between 0 and 100, within one
    twentieth of the clamped (sentiment + 1) * 50, and it never
    decreases when the sentiment grows; without a sentiment score it is
    50. *)
Lemma carbon_score_range (a : analysis) :
  (exists k : Z,
      (0 <= k <= 1000)%Z /\ calculate_carbon_score a = inject_Z k / 10)
  /\ 0 <= calculate_carbon_score a <= 100
  /\ py_min 100 (py_max 0 ((sentiment_score a + 1) * 50)) - 0.05
     <= calculate_carbon_score a
     <= py_min 100 (py_max 0 ((sentiment_score a + 1) * 50)) + 0.05
  /\ (forall a',
         sentiment_score a <= sentiment_score a' ->
         calculate_carbon_score a <= calculate_carbon_score a')
  /\ (sentiment_score a == 0 -> calculate_carbon_score a == 50).
Proof.
  unfold calculate_carbon_score, py_round1.
  set (c := py_min 100 (py_max 0 ((sentiment_score a + 1) * 50))).
  destruct (clamp_range ((sentiment_score a + 1) * 50)) as [C0 C1]. fold c in C0, C1.
  assert (K0 : (0 <= round_half_even (c * 10))%Z).
  { pose proof (round_half_even_mono (inject_Z 0) (c * 10)) as H.
    rewrite round_half_even_integer in H. apply H.
    change (inject_Z 0) with 0. lra. }
  assert (K1 : (round_half_even (c * 10) <= 1000)%Z).
  { pose proof (round_half_even_mono (c * 10) (inject_Z 1000)) as H.
    rewrite round_half_even_integer in H. apply H.
    change (inject_Z 1000) with 1000. lra. }
  pose proof (round_half_even_near (c * 10)) as [N0 N1].
  assert (Q0 : 0 <= inject_Z (round_half_even (c * 10)))
    by (change 0 with (inject_Z 0); rewrite <- Zle_Qle; exact K0).
  assert (Q1 : inject_Z (round_half_even (c * 10)) <= 1000)
    by (change 1000 with (inject_Z 1000); rewrite <- Zle_Qle; exact K1).
  split; [|split; [|split; [|split]]].
  - exists (round_half_even (c * 10)). split; [lia|reflexivity].
  - unfold Qdiv. change (/ 10) with (1 # 10). lra.
  - unfold Qdiv. change (/ 10) with (1 # 10). lra.
  - intros a' Hs. apply tenth_le. apply round_half_even_mono.
    assert (Hm : c <= py_min 100 (py_max 0 ((sentiment_score a' + 1) * 50))).
    { apply clamp_mono. lra. }
    lra.
  - intros Hs.
    assert (Ec : c == 50).
    { unfold c, py_min, py_max.
      destruct (Qlt_le_dec 0 ((sentiment_score a + 1) * 50));
        destruct (Qlt_le_dec _ 100); lra. }
    assert (Er : round_half_even (c * 10) = 500%Z).
    { pose proof (round_half_even_mono (c * 10) (inject_Z 500)) as H1.
      pose proof (round_half_even_mono (inject_Z 500) (c * 10)) as H2.
      rewrite round_half_even_integer in H1, H2.
      change (inject_Z 500) with 500 in H1, H2.
      specialize (H1 ltac:(lra)). specialize (H2 ltac:(lra)). lia. }
    rewrite Er. reflexivity.
Qed.

(** X28: The grade in terms of the sentiment: A+ from 0.799, A from 0.599,
    B from 0.399, C from 0.199, D below; a document without sentiment or
    with a neutral score of 0 is graded D. *)
Theorem grade_by_sentiment (a : analysis) :
  let grade := get_carbon_grade (calculate_carbon_score a) in
  let s := sentiment_score a in
  (grade = "A+"%string <-> 0.799 <= s)
  /\ (grade = "A"%string <-> 0.599 <= s < 0.799)
  /\ (grade = "B"%string <-> 0.399 <= s < 0.599)
  /\ (grade = "C"%string <-> 0.199 <= s < 0.399)
  /\ (grade = "D"%string <-> s < 0.199)
  /\ (analysis_sentiment a = None -> grade = "D"%string).
Proof.
  cbv zeta.
  pose proof (score_reaches a 900 eq_refl ltac:(lia)) as H90.
  pose proof (score_reaches a 800 eq_refl ltac:(lia)) as H80.
  pose proof (score_reaches a 700 eq_refl ltac:(lia)) as H70.
  pose proof (score_reaches a 600 eq_refl ltac:(lia)) as H60.
  assert (E90 : geb (calculate_carbon_score a) 90 = true
                <-> 0.799 <= sentiment_score a).
  { rewrite geb_spec.
    assert (Ek : inject_Z 900 / 10 == 90) by reflexivity.
    assert (Et : (inject_Z 900 - (1 # 2)) / 500 - 1 == 0.799) by reflexivity.
    rewrite Ek, Et in H90. exact H90. }
  assert (E80 : geb (calculate_carbon_score a) 80 = true
                <-> 0.599 <= sentiment_score a).
  { rewrite geb_spec.
    assert (Ek : inject_Z 800 / 10 == 80) by reflexivity.
    assert (Et : (inject_Z 800 - (1 # 2)) / 500 - 1 == 0.599) by reflexivity.
    rewrite Ek, Et in H80. exact H80. }
  assert (E70 : geb (calculate_carbon_score a) 70 = true
                <-> 0.399 <= sentiment_score a).
  { rewrite geb_spec.
    assert (Ek : inject_Z 700 / 10 == 70) by reflexivity.
    assert (Et : (inject_Z 700 - (1 # 2)) / 500 - 1 == 0.399) by reflexivity.
    rewrite Ek, Et in H70. exact H70. }
  assert (E60 : geb (calculate_carbon_score a) 60 = true
                <-> 0.199 <= sentiment_score a).
  { rewrite geb_spec.
    assert (Ek : inject_Z 600 / 10 == 60) by reflexivity.
    assert (Et : (inject_Z 600 - (1 # 2)) / 500 - 1 == 0.199) by reflexivity.
    rewrite Ek, Et in H60. exact H60. }
  assert (Hnone : analysis_sentiment a = None -> sentiment_score a = 0).
  { unfold sentiment_score. intros ->. reflexivity. }
  unfold get_carbon_grade.
  destruct (geb (calculate_carbon_score a) 90) eqn:G90.
  { pose proof (proj1 E90 eq_refl).
    repeat split; intros; try discriminate; try lra; try reflexivity.
    specialize (Hnone ltac:(assumption)). rewrite Hnone in *. lra. }
  assert (N90 : sentiment_score a < 0.799).
  { destruct (Qlt_le_dec (sentiment_score a) 0.799) as [H|H]; [exact H|].
    apply E90 in H. discriminate H. }
  destruct (geb (calculate_carbon_score a) 80) eqn:G80.
  { pose proof (proj1 E80 eq_refl).
    repeat split; intros; try discriminate; try lra; try reflexivity.
    specialize (Hnone ltac:(assumption)). rewrite Hnone in *. lra. }
  assert (N80 : sentiment_score a < 0.599).
  { destruct (Qlt_le_dec (sentiment_score a) 0.599) as [H|H]; [exact H|].
    apply E80 in H. discriminate H. }
  destruct (geb (calculate_carbon_score a) 70) eqn:G70.
  { pose proof (proj1 E70 eq_refl).
    repeat split; intros; try discriminate; try lra; try reflexivity.
    specialize (Hnone ltac:(assumption)). rewrite Hnone in *. lra. }
  assert (N70 : sentiment_score a < 0.399).
  { destruct (Qlt_le_dec (sentiment_score a) 0.399) as [H|H]; [exact H|].
    apply E70 in H. discriminate H. }
  destruct (geb (calculate_carbon_score a) 60) eqn:G60.
  { pose proof (proj1 E60 eq_refl).
    repeat split; intros; try discriminate; try lra; try reflexivity.
    specialize (Hnone ltac:(assumption)). rewrite Hnone in *. lra. }
  assert (N60 : sentiment_score a < 0.199).
  { destruct (Qlt_le_dec (sentiment_score a) 0.199) as [H|H]; [exact H|].
    apply E60 in H. discriminate H. }
  repeat split; intros; try discriminate; try lra; try reflexivity.
Qed.

(** *** The entry point *)

Lemma append_empty_r (s : string) : (s ++ "")%string = s.
Proof.
  induction s as [|c s IH]; [reflexivity|].
  change (String c (s ++ "")%string = String c s). rewrite IH. reflexivity.
Qed.

Lemma append_snoc (segment : string) (c : ascii) (s : string) :
  ((segment ++ String c "") ++ s)%string = (segment ++ String c s)%string.
Proof.
  induction segment as [|d segment IH]; [reflexivity|].
  change (String d ((segment ++ String c "") ++ s)%string
          = String d (segment ++ String c s)%string).
  rewrite IH. reflexivity.
Qed.

Lemma last_segment_from_plain (segment s : string) :
  (forall c, In c (list_ascii_of_string s) -> c <> "/"%char) ->
  last_segment_from segment s = (segment ++ s)%string.
Proof.
  revert segment. induction s as [|c s IH]; intros segment Hs.
  - cbn [last_segment_from]. rewrite append_empty_r. reflexivity.
  - cbn [last_segment_from].
    destruct (Ascii.eqb_spec c "/"%char) as [->|Hne].
    + exfalso. apply (Hs "/"%char); [left; reflexivity|reflexivity].
    + rewrite IH.
      * apply append_snoc.
      * intros d Hd. apply Hs. right. exact Hd.
Qed.

(** The action is read after the last slash of the path. *)
Lemma last_segment_after_slash (prefix s : string) :
  (forall c, In c (list_ascii_of_string s) -> c <> "/"%char) ->
  last_segment (prefix ++ String "/"%char s) = s.
Proof.
  intros Hs. unfold last_segment. generalize ""%string as segment.
  induction prefix as [|c prefix IH]; intros segment.
  - change (last_segment_from segment (String "/"%char s) = s).
    cbn [last_segment_from].
    change (Ascii.eqb "/"%char "/"%char) with true. cbv iota.
    apply (last_segment_from_plain "" s Hs).
  - change (last_segment_from segment
              (String c (prefix ++ String "/"%char s)) = s).
    cbn [last_segment_from].
    destruct (Ascii.eqb c "/"%char); apply IH.
Qed.

Section ServiceMore.

Variable json_loads : string -> string + decoded.
Variable environ : string -> option string.
Variable nlu_analyze : string -> string -> value -> M analysis.
Variable utcnow_isoformat : string.

Local Abbreviation analyze :=
  (analyze_carbon_data environ nlu_analyze utcnow_isoformat).
Local Abbreviation handle :=
  (main json_loads environ nlu_analyze utcnow_isoformat).

(** What [analyze_carbon_data] can answer. *)
Lemma analyze_cases (data : decoded) (t : trace) :
  match analyze data t with
  | (Ret r, t') =>
      (r = error_response "Missing text data" 400 /\ t' = t)
      \/ (exists e, r = error_response ("Analysis failed: " ++ e) 500)
      \/ (exists a,
             r = success_response
                   (ResultBody utcnow_isoformat (calculate_carbon_score a)
                      (get_carbon_grade (calculate_carbon_score a))
                      (analysis_sentiment a)
                      (default [] (analysis_keywords a))
                      (generate_recommendations a)))
  | (Raise _, _) => False
  | (NonFinite, _) => True
  end.
Proof.
  unfold analyze_carbon_data, try_except, bind.
  destruct data as [fields|type_name]; cbn [text_of ret raise].
  2:{ right. left. eexists. reflexivity. }
  destruct (negb (truthy (default (VString "") (get_field fields "text")))).
  { left. split; reflexivity. }
  unfold environ_item.
  destruct (environ "WATSON_NLU_APIKEY") as [apikey|]; cbn [ret raise].
  2:{ right. left. eexists. reflexivity. }
  destruct (environ "WATSON_NLU_URL") as [url|]; cbn [ret raise].
  2:{ right. left. eexists. reflexivity. }
  destruct (nlu_analyze apikey url _ t) as [[a|e|] t1]; cbn [ret].
  - right. right. exists a. reflexivity.
  - right. left. eexists. reflexivity.
  - exact I.
Qed.

(** X29: The handler never raises: whatever the event, the body, the
    environment and Watson do, it answers with the status 200, 400 or
    500; a 200 is the health report or an analysis whose score lies
    within [0, 100] and whose grade is the one of that score. *)
Theorem handler_always_answers (event : event_data) (t : trace) :
  (forall msg t', handle event t <> (Raise msg, t'))
  /\ (forall r t',
         handle event t = (Ret r, t') ->
         (statusCode r = 200%nat \/ statusCode r = 400%nat
          \/ statusCode r = 500%nat)
         /\ (statusCode r = 200%nat ->
             r = health_check utcnow_isoformat
             \/ exists timestamp carbon_score found keywords recommendations,
                  response_body r
                  = ResultBody timestamp carbon_score
                               (get_carbon_grade carbon_score)
                               found keywords recommendations
                  /\ 0 <= carbon_score <= 100)).
Proof.
  split.
  - unfold main. apply MainMore.handled_never_raises.
    intros e t1 msg t'. cbn. discriminate.
  - intros r t'. unfold main, try_except, bind.
    set (segment := last_segment (default ""%string (ow_path event))).
    set (action := if String.eqb segment "" then "analyze"%string else segment).
    assert (Hdispatch : forall body t0,
      (if String.eqb action "health" then ret (health_check utcnow_isoformat)
       else if String.eqb action "analyze" then analyze body
       else ret (error_response "Invalid action" 400)) t0 = (Ret r, t') ->
      (statusCode r = 200%nat \/ statusCode r = 400%nat
       \/ statusCode r = 500%nat)
      /\ (statusCode r = 200%nat ->
          r = health_check utcnow_isoformat
          \/ exists timestamp carbon_score found keywords recommendations,
               response_body r
               = ResultBody timestamp carbon_score
                            (get_carbon_grade carbon_score)
                            found keywords recommendations
               /\ 0 <= carbon_score <= 100)).
    { intros body t0.
      destruct (String.eqb action "health").
      - intros H. injection H as <- _. split; [left; reflexivity|].
        intros _. left. reflexivity.
      - destruct (String.eqb action "analyze").
        + pose proof (analyze_cases body t0) as Hcases.
          intros H. rewrite H in Hcases.
          destruct Hcases as [[-> _]|[[e ->]|[a ->]]].
          * split; [right; left; reflexivity|discriminate].
          * split; [right; right; reflexivity|discriminate].
          * split; [left; reflexivity|]. intros _. right.
            do 5 eexists. split; [reflexivity|].
            apply carbon_score_range.
        + intros H. injection H as <- _.
          split; [right; left; reflexivity|discriminate]. }
    destruct (ow_body event) as [[text|]|].
    + destruct (json_loads text) as [msg|data]; cbn [raise ret].
      * intros H. injection H as <- _.
        split; [right; right; reflexivity|discriminate].
      * destruct (_ t) as [[r0|e|] t1] eqn:E.
        -- intros H. injection H as <- <-. exact (Hdispatch _ _ E).
        -- intros H. injection H as <- _.
           split; [right; right; reflexivity|discriminate].
        -- discriminate.
    + cbn [ret]. destruct (_ t) as [[r0|e|] t1] eqn:E.
      * intros H. injection H as <- <-. exact (Hdispatch _ _ E).
      * intros H. injection H as <- _.
        split; [right; right; reflexivity|discriminate].
      * discriminate.
    + cbn [ret]. destruct (_ t) as [[r0|e|] t1] eqn:E.
      * intros H. injection H as <- <-. exact (Hdispatch _ _ E).
      * intros H. injection H as <- _.
        split; [right; right; reflexivity|discriminate].
      * discriminate.
Qed.

(** X30: The rejections.  An event without a path, or whose path ends with
    a slash, is analysed; a path whose last segment is neither "health"
    nor "analyze" is answered 400 "Invalid action"; an analysis without
    a text, or with an empty one, is answered 400 "Missing text data"
    before the environment is read or Watson called; a missing
    credential and a body that is not JSON are answered 500. *)
Theorem handler_rejections (event : event_data) (t : trace) :
  (forall fields,
      ow_body event = None \/ ow_body event = Some BodyOther ->
      fields = event_fields event ->
      (ow_path event = None
       \/ exists prefix,
            ow_path event = Some (prefix ++ "/analyze")%string
            \/ ow_path event = Some (prefix ++ "/")%string) ->
      (truthy (default (VString "") (get_field fields "text")) = false ->
       handle event t = (Ret (error_response "Missing text data" 400), t))
      /\ (truthy (default (VString "") (get_field fields "text")) = true ->
          environ "WATSON_NLU_APIKEY"%string = None ->
          handle event t
          = (Ret (error_response "Analysis failed: 'WATSON_NLU_APIKEY'" 500),
             t)))
  /\ (forall prefix action,
         ow_body event = None \/ ow_body event = Some BodyOther ->
         ow_path event = Some (prefix ++ String "/"%char action)%string ->
         (forall c, In c (list_ascii_of_string action) -> c <> "/"%char) ->
         action <> ""%string -> action <> "health"%string ->
         action <> "analyze"%string ->
         handle event t = (Ret (error_response "Invalid action" 400), t))
  /\ (forall text msg,
         ow_body event = Some (BodyText text) ->
         json_loads text = inl msg ->
         handle event t = (Ret (error_response msg 500), t)).
Proof.
  split; [|split].
  - intros fields Hbody -> Hpath.
    assert (Haction :
      (let segment := last_segment (default ""%string (ow_path event)) in
       if String.eqb segment "" then "analyze"%string else segment)
      = "analyze"%string).
    { destruct Hpath as [->|[prefix [->| ->]]];
        unfold default; cbn [from_option id].
      - reflexivity.
      - rewrite (last_segment_after_slash prefix "analyze"); [reflexivity|].
        intros c Hc. cbn in Hc.
        repeat (destruct Hc as [<-|Hc]; [discriminate|]). contradiction.
      - rewrite (last_segment_after_slash prefix ""); [reflexivity|].
        intros c []. }
    cbv zeta in Haction.
    split.
    + intros Htext. unfold main, try_except, bind.
      destruct Hbody as [-> | ->]; cbn [ret]; rewrite Haction; cbn [String.eqb];
        change (("analyze" =? "health")%string) with false;
        change (("analyze" =? "analyze")%string) with true; cbv iota;
        unfold analyze_carbon_data, try_except, bind; cbn [text_of ret];
        rewrite Htext; reflexivity.
    + intros Htext Hkey. unfold main, try_except, bind.
      destruct Hbody as [-> | ->]; cbn [ret]; rewrite Haction; cbn [String.eqb];
        change (("analyze" =? "health")%string) with false;
        change (("analyze" =? "analyze")%string) with true; cbv iota;
        unfold analyze_carbon_data, try_except, bind; cbn [text_of ret];
        rewrite Htext; cbn [negb]; unfold environ_item; rewrite Hkey;
        reflexivity.
  - intros prefix action Hbody Hpath Hplain Hne Hh Ha.
    unfold main, try_except, bind. rewrite Hpath.
    unfold default; cbn [from_option id].
    rewrite (last_segment_after_slash prefix action Hplain).
    destruct (String.eqb_spec action "") as [E|_]; [contradiction|].
    destruct (String.eqb_spec action "health") as [E|_]; [contradiction|].
    destruct (String.eqb_spec action "analyze") as [E|_]; [contradiction|].
    destruct Hbody as [-> | ->]; reflexivity.
  - intros text msg Hbody Hloads. unfold main, try_except, bind.
    rewrite Hbody, Hloads. reflexivity.
Qed.

End ServiceMore.

(** A neutral document: 50 points, grade D. *)
Lemma grade_by_sentiment_witness :
  calculate_carbon_score
    {| analysis_sentiment :=
         Some {| sentiment_document :=
                   Some {| score := Some 0; label := Some "neutral"%string |} |};
       analysis_keywords := None |} == 50
  /\ get_carbon_grade
       (calculate_carbon_score
          {| analysis_sentiment :=
               Some {| sentiment_document :=
                         Some {| score := Some 0;
                                 label := Some "neutral"%string |} |};
             analysis_keywords := None |}) = "D"%string.
Proof.
  split; [reflexivity|].
  destruct (grade_by_sentiment
              {| analysis_sentiment :=
                   Some {| sentiment_document :=
                             Some {| score := Some 0;
                                     label := Some "neutral"%string |} |};
                 analysis_keywords := None |})
    as (_ & _ & _ & _ & HD & _).
  apply HD. reflexivity.
Defined.

(** A direct invocation without text and a request for an unknown
    action. *)
Lemma handler_rejections_witness :
  main (fun _ => inl "not JSON"%string) (fun _ => None)
       (fun _ _ _ => raise "unreachable") "2024-01-01T00:00:00"
       {| ow_body := None; ow_path := None; event_fields := [] |} []
  = (Ret (error_response "Missing text data" 400), [])
  /\ main (fun _ => inl "not JSON"%string) (fun _ => None)
          (fun _ _ _ => raise "unreachable") "2024-01-01T00:00:00"
          {| ow_body := None; ow_path := Some "/api/v1/web/score"%string;
             event_fields := [("text", VString "solar")]%string |} []
     = (Ret (error_response "Invalid action" 400), []).
Proof.
  split.
  - destruct (handler_rejections (fun _ => inl "not JSON"%string)
                (fun _ => None) (fun _ _ _ => raise "unreachable")
                "2024-01-01T00:00:00"
                {| ow_body := None; ow_path := None; event_fields := [] |} [])
      as (H & _).
    destruct (H [] (or_introl eq_refl) eq_refl (or_introl eq_refl)) as [H0 _].
    apply H0. reflexivity.
  - destruct (handler_rejections (fun _ => inl "not JSON"%string)
                (fun _ => None) (fun _ _ _ => raise "unreachable")
                "2024-01-01T00:00:00"
                {| ow_body := None; ow_path := Some "/api/v1/web/score"%string;
                   event_fields := [("text", VString "solar")]%string |} [])
      as (_ & H & _).
    apply (H "/api/v1/web"%string "score"%string).
    + left. reflexivity.
    + reflexivity.
    + intros c Hc. cbn in Hc.
      repeat (destruct Hc as [<-|Hc]; [discriminate|]). contradiction.
    + discriminate.
    + discriminate.
    + discriminate.
Defined.

End HandlerMore.
